(** * FOSDEM schedule build: a shallow embedding of [src/lib/fosdem.ts]

    The module turns the parsed schedule document into the lookup tables
    served by the FOSDEM PWA.  This file embeds the transformation
    ([flattenData], [flattenConference], [EventProcessor],
    [processScheduleData]) as Rocq functions and proves the properties the
    specification states about it.

    Conventions of the embedding.
    - A JavaScript string is a [string]: a sequence of code units below 256
      (the Latin-1 range of UTF-16).  [toLowerCase], [\s] and [[A-Z]] are
      written out for that range.
    - A plain object used as a table is the list of its own properties in
      insertion order ([table]); reads go through the prototype chain
      ([js_get], [js_in]), as the [in] operator and [obj[key]] do.
    - Counters are [nat]; the day index, a number of the input, is [Z].
    - The input has the shape the type declarations of the source give it:
      the days of the schedule and the rooms of a day are arrays, the index
      of a day is a number, an event node carries its id, start and
      duration.  [xml2json] hands an only child as an object and an
      attribute as text; such inputs are outside these types, and the
      statements on days speak of the record the loop finishes for a day
      subtree rather than of the key under which it is stored.
    - A run either returns, throws a [TypeError], or leaves the model
      ([Unmodelled]): it has put a counter on [Object.prototype], which
      every later property read could observe, or it computes with a counter
      read from a built-in object.  The embedding stops there.
    - [memoize] wraps pure functions of one string; the embedding calls the
      wrapped function directly and [memoize] is modelled apart, with its
      cache, in [Memo]. *)

From Stdlib Require Import List String Ascii Bool Arith ZArith NArith Lia.
From Stdlib Require Import DecimalString.
From Stdlib Require DecimalPos DecimalZ.
Import ListNotations.
Local Open Scope string_scope.
Set Warnings "-register-all".
Set Warnings "-automation".

Local Open Scope list_scope.

(** ** Strings *)

Module Str.

(** Code units of the character classes the source uses. *)
Definition code (c : ascii) : N := N_of_ascii c.

(** [[A-Z]] *)
Definition is_upper (c : ascii) : bool :=
  (65 <=? code c)%N && (code c <=? 90)%N.

(** [[0-9]] *)
Definition is_digit (c : ascii) : bool :=
  (48 <=? code c)%N && (code c <=? 57)%N.

(** [\s] restricted to code units below 256: TAB, LF, VT, FF, CR, SP, NBSP. *)
Definition is_space (c : ascii) : bool :=
  ((9 <=? code c)%N && (code c <=? 13)%N) || (code c =? 32)%N || (code c =? 160)%N.

Definition is_dot (c : ascii) : bool := (code c =? 46)%N.

(** [String.prototype.toLowerCase] on one code unit below 256: A-Z and the
    Latin-1 capitals U+00C0..U+00DE (without the multiplication sign U+00D7)
    move up by 32, everything else is unchanged. *)
Definition lower_char (c : ascii) : ascii :=
  let n := code c in
  if ((65 <=? n)%N && (n <=? 90)%N)
     || ((192 <=? n)%N && (n <=? 222)%N && negb (n =? 215)%N)
  then ascii_of_N (n + 32)
  else c.

Fixpoint toLowerCase (s : string) : string :=
  match s with
  | EmptyString => EmptyString
  | String c t => String (lower_char c) (toLowerCase t)
  end.

(** [s.replace(/<class>/g, '')]: every code unit of the class is removed. *)
Fixpoint remove_chars (p : ascii -> bool) (s : string) : string :=
  match s with
  | EmptyString => EmptyString
  | String c t => if p c then remove_chars p t else String c (remove_chars p t)
  end.

(** [s.startsWith(p)] *)
Fixpoint startsWith (p s : string) : bool :=
  match p, s with
  | EmptyString, _ => true
  | String a p', String b s' => Ascii.eqb a b && startsWith p' s'
  | String _ _, EmptyString => false
  end.

(** [s.includes(p)] *)
Fixpoint includes (p s : string) : bool :=
  startsWith p s ||
  match s with
  | EmptyString => false
  | String _ t => includes p t
  end.

Fixpoint rev_string (s acc : string) : string :=
  match s with
  | EmptyString => acc
  | String c t => rev_string t (String c acc)
  end.

(** [s.endsWith(p)] *)
Definition endsWith (p s : string) : bool :=
  startsWith (rev_string p "") (rev_string s "").

(** [s.substring(n)] for a constant [n >= 0]. *)
Fixpoint substring_from (n : nat) (s : string) : string :=
  match n, s with
  | O, _ => s
  | S n', String _ t => substring_from n' t
  | S _, EmptyString => EmptyString
  end.

(** Splitting [s] at the first occurrence of [p]: the text before it and the
    text after it. *)
Fixpoint split_first (p s : string) : option (string * string) :=
  if startsWith p s then Some ("", substring_from (String.length p) s)
  else
    match s with
    | EmptyString => None
    | String c t =>
        match split_first p t with
        | Some (before, after) => Some (String c before, after)
        | None => None
        end
    end.

(** The replacement text of [String.prototype.replace] with a string
    pattern (ECMAScript GetSubstitution without captures): [$$] is a dollar
    sign, [$&] the matched text, [$`] the text before the match, [$'] the
    text after it; any other character, a lone [$] included, stands for
    itself. *)
Fixpoint substitution (matched before after r : string) : string :=
  match r with
  | EmptyString => EmptyString
  | String c r' =>
      if Ascii.eqb c "$" then
        match r' with
        | String d t =>
            if Ascii.eqb d "$" then String "$" (substitution matched before after t)
            else if Ascii.eqb d "&" then matched ++ substitution matched before after t
            else if Ascii.eqb d "`" then before ++ substitution matched before after t
            else if Ascii.eqb d "'" then after ++ substitution matched before after t
            else String c (substitution matched before after r')
        | EmptyString => String c EmptyString
        end
      else String c (substitution matched before after r')
  end.

(** [s.replace(p, r)] for strings [p] and [r]: the first occurrence only. *)
Definition replace (p r s : string) : string :=
  match split_first p s with
  | Some (before, after) => before ++ substitution p before after r ++ after
  | None => s
  end.

(** No dollar sign occurs in [s]. *)
Fixpoint dollar_free (s : string) : bool :=
  match s with
  | EmptyString => true
  | String c t => negb (Ascii.eqb c "$") && dollar_free t
  end.

(** [Boolean(s)] for a string: only the empty string is falsy. *)
Definition truthy (s : string) : bool :=
  match s with EmptyString => false | _ => true end.

End Str.

(** ** Plain objects used as tables *)

Module Obj.

(** Own properties, in insertion order. *)
Definition table (V : Type) : Type := list (string * V).

Definition keys {V} (t : table V) : list string := map fst t.
Definition values {V} (t : table V) : list V := map snd t.

Fixpoint own_get {V} (k : string) (t : table V) : option V :=
  match t with
  | [] => None
  | (k', v) :: t' => if String.eqb k k' then Some v else own_get k t'
  end.

(** Writing an own property: an existing key keeps its place, a new key goes
    to the end. *)
Fixpoint own_set {V} (k : string) (v : V) (t : table V) : table V :=
  match t with
  | [] => [(k, v)]
  | (k', v') :: t' =>
      if String.eqb k k' then (k', v) :: t' else (k', v') :: own_set k v t'
  end.

(** The property names every object inherits from [Object.prototype]. *)
Definition protoNames : list string :=
  [ "constructor"; "__defineGetter__"; "__defineSetter__"; "hasOwnProperty";
    "__lookupGetter__"; "__lookupSetter__"; "isPrototypeOf";
    "propertyIsEnumerable"; "toString"; "valueOf"; "__proto__";
    "toLocaleString" ].

Definition is_proto (k : string) : bool := existsb (String.eqb k) protoNames.

(** What [obj[k]] finds: an own property, a member of [Object.prototype]
    (a function, or the prototype itself under [__proto__]: truthy in every
    case), or nothing. *)
Inductive slot (V : Type) : Type :=
| Own (v : V)
| Inherited
| Missing.
Arguments Own {V} v.
Arguments Inherited {V}.
Arguments Missing {V}.

Definition js_get {V} (t : table V) (k : string) : slot V :=
  match own_get k t with
  | Some v => Own v
  | None => if is_proto k then Inherited else Missing
  end.

(** [k in obj] *)
Definition js_in {V} (k : string) (t : table V) : bool :=
  match js_get t k with Missing => false | _ => true end.

(** [obj[k] = v] with an object [v]: under the key [__proto__] the setter of
    [Object.prototype] runs and no own property appears. *)
Definition js_set {V} (k : string) (v : V) (t : table V) : table V :=
  if String.eqb k "__proto__" then t else own_set k v t.

End Obj.

(** ** The tree flattener *)

Module Flatten.
Import Obj.

Section Tree.

(** The scalars of a parsed document (strings, numbers, booleans, null):
    the flattener never looks inside one. *)
Variable scalar : Type.

Inductive RawNode : Type :=
| Scalar (s : scalar)
| Arr (elements : list RawNode)
| Mapping (fields : table RawNode).

(** The loop [for (const e of keys) newElement[e] = ...] over the already
    flattened fields. *)
Definition assign_all (fields : table RawNode) : table RawNode :=
  fold_left (fun acc kv => js_set (fst kv) (snd kv) acc) fields [].

Fixpoint flattenData (element : RawNode) : RawNode :=
  match element with
  | Arr elements => Arr (map flattenData elements)
  | Mapping fields =>
      let flat := map (fun kv => (fst kv, flattenData (snd kv))) fields in
      match fields with
      | [(key, v)] =>
          if String.eqb key "value" then v
          else Mapping (assign_all flat)
      | _ => Mapping (assign_all flat)
      end
  | Scalar s => Scalar s
  end.

(** The keys of a mapping as [JSON.parse] builds it for the parser's output:
    pairwise distinct, none of them [__proto__]; at every depth. *)
Fixpoint wf_node (n : RawNode) : Prop :=
  match n with
  | Scalar _ => True
  | Arr elements => fold_right (fun e acc => wf_node e /\ acc) True elements
  | Mapping fields =>
      NoDup (keys fields) /\ ~ In "__proto__" (keys fields) /\
      fold_right (fun kv acc => wf_node (snd kv) /\ acc) True fields
  end.

End Tree.

Arguments Scalar {scalar} s.
Arguments Arr {scalar} elements.
Arguments Mapping {scalar} fields.
Arguments flattenData {scalar} element.
Arguments assign_all {scalar} fields.
Arguments wf_node {scalar} n.

End Flatten.

(** ** Constants ([src/constants.ts]) *)

Module Constants.
Import Obj.

Definition STREAM_LINK : string := "https://stream.fosdem.org/${ROOM_ID}.m3u8".
Definition CHAT_LINK : string :=
  "https://chat.fosdem.org/#/room/#${ROOM_ID}:fosdem.org".

Record TypeDecl : Type := { decl_id : string; decl_name : string }.

Definition TYPES : table TypeDecl :=
  [ ("keynote", {| decl_id := "keynote"; decl_name := "Keynotes" |});
    ("maintrack", {| decl_id := "maintrack"; decl_name := "Main tracks" |});
    ("devroom", {| decl_id := "devroom"; decl_name := "Developer rooms" |});
    ("lightningtalk",
      {| decl_id := "lightningtalk"; decl_name := "Lightning talks" |});
    ("other", {| decl_id := "other"; decl_name := "Other" |}) ].

Record BuildingDecl : Type := { building_id : string }.

Definition BUILDINGS : table BuildingDecl :=
  [ ("J", {| building_id := "J" |});
    ("H", {| building_id := "H" |});
    ("AW", {| building_id := "AW" |});
    ("U", {| building_id := "U" |});
    ("K", {| building_id := "K" |}) ].

End Constants.

(** ** Data *)

Module Data.
Import Obj Constants.

(** A field that holds one node or an array of nodes, depending on how many
    children the element had. *)
Inductive one_or_many (A : Type) : Type :=
| One (a : A)
| Many (l : list A).
Arguments One {A} a.
Arguments Many {A} l.

(** [Array.isArray(x) ? x : [x]] *)
Definition as_list {A} (x : one_or_many A) : list A :=
  match x with
  | One a => [a]
  | Many l => l
  end.

(** *** The parsed document *)

Record XmlLink : Type := {
  link_href : string;               (* _attributes.href *)
  link_text : option string         (* _text *)
}.

Record XmlAttachment : Type := {
  attachment_type : string;         (* _attributes.type *)
  attachment_href : string;         (* _attributes.href *)
  attachment_text : option string   (* _text *)
}.

(** An event node.  [title], [type] and [track] are read with [?.] and
    tested for truthiness, so they may be absent; the other optional
    fields are those the interface marks with [?]. *)
Record XmlEvent : Type := {
  xml_guid : string;
  xml_id : string;
  xml_title : option string;
  xml_type : option string;
  xml_track : option string;
  xml_persons : option (one_or_many string);
  xml_links : option (one_or_many XmlLink);
  xml_attachments : option (one_or_many XmlAttachment);
  xml_url : option string;
  xml_language : option string;
  xml_feedback_url : option string;
  xml_start : string;
  xml_duration : string;
  xml_subtitle : option string;
  xml_abstract : option string;
  xml_description : option string
}.

(** A room node; [event] is missing when the room element has no child. *)
Record Room : Type := {
  room_name : string;
  room_slug : string;
  room_event : option (one_or_many XmlEvent)
}.

Record Day : Type := {
  day_index : Z;
  day_date : string;
  day_start : string;
  day_end : string;
  day_room : list Room
}.

(** The conference subtree: each field is the [_text] of the child of that
    name, when there is one. *)
Record RawConference : Type := {
  raw_acronym : option string;
  raw_title : option string;
  raw_subtitle : option string;
  raw_venue : option string;
  raw_city : option string;
  raw_start : option string;
  raw_end : option string;
  raw_day_change : option string;
  raw_timeslot_duration : option string;
  raw_time_zone_name : option string
}.

(** The flattened [schedule] element. *)
Record Schedule : Type := {
  schedule_conference : RawConference;
  schedule_day : list Day
}.

(** *** The processed data *)

Record Conference : Type := {
  acronym : option string;
  conf_title : option string;
  conf_subtitle : option string;
  venue : option string;
  city : option string;
  conf_start : option string;
  conf_end : option string;
  days : list string;
  day_change : option string;
  timeslot_duration : option string;
  time_zone_name : option string
}.

Record BuildingStats : Type := {
  b_name : string;
  b_roomCount : nat;
  b_trackCount : nat;
  b_eventCount : nat
}.

Inductive Status : Type := canceled | amendment | running | unknown.

Record Link : Type := {
  l_href : string;
  l_title : string;
  l_type : option string
}.

Record Attachment : Type := {
  a_type : string;
  a_href : string;
  a_title : string
}.

Record Stream : Type := {
  s_href : string;
  s_title : string;
  s_type : string
}.

Record ProcessedEvent : Type := {
  e_day : Z;
  e_isLive : bool;
  e_status : Status;
  e_type : string;
  e_track : string;
  e_trackKey : string;
  e_title : string;
  e_persons : list string;
  e_links : list Link;
  e_attachments : list Attachment;
  e_streams : list Stream;
  e_chat : option string;
  e_room : string;
  e_url : option string;
  e_language : option string;
  e_feedbackUrl : option string;
  e_id : string;
  e_startTime : string;
  e_duration : string;
  e_subtitle : option string;
  e_abstract : option string;
  e_description : option string
}.

(** A JavaScript [Set] of strings: its elements in insertion order. *)
Definition StringSet : Type := list string.

Definition set_add (x : string) (s : StringSet) : StringSet :=
  if existsb (String.eqb x) s then s else s ++ [x].

Definition set_size (s : StringSet) : nat := List.length s.

(** [TypeInfo] and [DayInfo] as they are during the run, scratch sets
    included. *)
Record TypeInfo : Type := {
  t_id : string;
  t_name : string;
  t_trackCount : nat;
  t_eventCount : nat;
  t_roomCount : nat;
  t_buildingCount : nat;
  t_rooms : StringSet;
  t_buildings : StringSet
}.

Record DayInfo : Type := {
  d_date : string;
  d_start : string;
  d_end : string;
  d_id : Z;
  d_name : string;
  d_eventCount : nat;
  d_trackCount : nat;
  d_roomCount : nat;
  d_buildingCount : nat;
  d_rooms : StringSet;
  d_buildings : StringSet;
  d_tracks : StringSet
}.

Record RoomInfo : Type := {
  r_name : string;
  r_slug : string;
  r_buildingId : string;
  r_building : option BuildingDecl;
  r_floor : option string;
  r_eventCount : nat
}.

Record TrackInfo : Type := {
  k_id : string;
  k_name : string;
  k_type : string;
  k_room : string;
  k_day : list Z;
  k_eventCount : nat
}.

(** [TypeInfo] and [DayInfo] once [delete] has removed the scratch sets. *)
Record TypeSummary : Type := {
  ts_id : string;
  ts_name : string;
  ts_trackCount : nat;
  ts_eventCount : nat;
  ts_roomCount : nat;
  ts_buildingCount : nat
}.

Record DaySummary : Type := {
  ds_date : string;
  ds_start : string;
  ds_end : string;
  ds_id : Z;
  ds_name : string;
  ds_eventCount : nat;
  ds_trackCount : nat;
  ds_roomCount : nat;
  ds_buildingCount : nat
}.

(** The tables while the run mutates them. *)
Record Tables : Type := {
  w_conference : Conference;
  w_types : table TypeInfo;
  w_buildings : table BuildingStats;
  w_days : table DayInfo;
  w_rooms : table RoomInfo;
  w_tracks : table TrackInfo;
  w_events : table ProcessedEvent
}.

Record BuildDataResult : Type := {
  res_conference : Conference;
  res_types : table TypeSummary;
  res_buildings : table BuildingStats;
  res_days : table DaySummary;
  res_rooms : table RoomInfo;
  res_tracks : table TrackInfo;
  res_events : table ProcessedEvent
}.

(** How a run ends: with a value, with a thrown [TypeError], or outside the
    embedding (a counter was written on [Object.prototype], or read from a
    built-in object). *)
Inductive outcome (A : Type) : Type :=
| Ok (a : A)
| TypeError
| Unmodelled.
Arguments Ok {A} a.
Arguments TypeError {A}.
Arguments Unmodelled {A}.

Definition bind {A B} (c : outcome A) (k : A -> outcome B) : outcome B :=
  match c with
  | Ok a => k a
  | TypeError => TypeError
  | Unmodelled => Unmodelled
  end.

End Data.

(** ** The transformation ([src/lib/fosdem.ts]) *)

Module Fosdem.
Import Str Obj Constants Data.

Notation "x <- c ;; k" := (bind c (fun x => k))
  (at level 61, c at next level, right associativity).

Definition typeData : table TypeDecl := TYPES.
Definition buildings : table BuildingDecl := BUILDINGS.

(** [[a, b].filter(Boolean)] over optional strings: absent and empty
    entries go. *)
Definition filter_Boolean (l : list (option string)) : list string :=
  flat_map (fun o =>
    match o with
    | Some s => if truthy s then [s] else []
    | None => []
    end) l.

Definition flattenConference (conference : RawConference) : Conference :=
  {| acronym := raw_acronym conference;
     conf_title := raw_title conference;
     conf_subtitle := raw_subtitle conference;
     venue := raw_venue conference;
     city := raw_city conference;
     conf_start := raw_start conference;
     conf_end := raw_end conference;
     days := filter_Boolean [raw_start conference; raw_end conference];
     day_change := raw_day_change conference;
     timeslot_duration := raw_timeslot_duration conference;
     time_zone_name := raw_time_zone_name conference |}.

(** What [parseData] hands to the aggregation. *)
Record ParsedData : Type := {
  data_conference : Conference;
  data_day : list Day
}.

(** [parseData] after [flattenData]: the conference subtree goes through
    [flattenConference], the days are passed on. *)
Definition parseData (result : Schedule) : ParsedData :=
  {| data_conference := flattenConference (schedule_conference result);
     data_day := schedule_day result |}.

Definition getRoomName (name : string) : string :=
  if startsWith "D." name then name ++ " (online)" else name.

Definition getLinkType (url : string) : option string :=
  if endsWith ".mp4" url then Some "video/mp4"
  else if endsWith ".webm" url then Some "video/webm"
  else None.

Definition getStatus (title : string) : Status :=
  let lowerTitle := toLowerCase title in
  if includes "canceled" lowerTitle then canceled
  else if includes "amendment" lowerTitle then amendment
  else running.

(** *** EventProcessor *)

Definition getType (type : string) : string :=
  if String.eqb type "lightning" then "lightningtalk"
  else if String.eqb type "lecture" then "keynote"
  else if js_in type typeData then type else "other".

Definition processPersons (persons : option (one_or_many string)) : list string :=
  match persons with
  | None => []
  | Some person => as_list person
  end.

(** [x || ''] *)
Definition or_empty (x : option string) : string :=
  match x with Some s => s | None => "" end.

Definition processLink (link : XmlLink) : Link :=
  {| l_href := link_href link;
     l_title := or_empty (link_text link);
     l_type := getLinkType (link_href link) |}.

Definition processLinks (links : option (one_or_many XmlLink)) : list Link :=
  match links with
  | None => []
  | Some link => map processLink (as_list link)
  end.

Definition processAttachment (attachment : XmlAttachment) : Attachment :=
  {| a_type := attachment_type attachment;
     a_href := attachment_href attachment;
     a_title := or_empty (attachment_text attachment) |}.

Definition processAttachments
    (attachments : option (one_or_many XmlAttachment)) : list Attachment :=
  match attachments with
  | None => []
  | Some attachment => map processAttachment (as_list attachment)
  end.

Definition isLiveRoom (roomName : string) : bool :=
  negb (existsb (fun prefix => startsWith prefix roomName) ["B."; "I."; "S."]).

Definition normalizedRoom (roomName : string) : string :=
  remove_chars is_dot (toLowerCase roomName).

Definition buildStreamInfo (roomName : string) : list Stream :=
  if negb (isLiveRoom roomName) then []
  else
    [ {| s_href := replace "${ROOM_ID}" (normalizedRoom roomName) STREAM_LINK;
         s_title := "Stream";
         s_type := "application/vnd.apple.mpegurl" |} ].

(** [/^[A-Z]\./.test(roomName)] *)
Definition letter_dot (roomName : string) : bool :=
  match roomName with
  | String c (String d _) => is_upper c && is_dot d
  | _ => false
  end.

Definition buildChatInfo (roomName : string) : option string :=
  if letter_dot roomName
  then Some (replace "${ROOM_ID}" (substring_from 2 roomName) CHAT_LINK)
  else None.

Definition getTitle (title : string) (status : Status) : string :=
  match status with
  | amendment =>
      if truthy (substring_from 10 title) then substring_from 10 title else title
  | _ => title
  end.

(** A text node that is there and not empty. *)
Definition text_of (node : option string) : option string :=
  match node with
  | Some s => if truthy s then Some s else None
  | None => None
  end.

Definition trackKey_of (track : string) : string :=
  remove_chars is_space (toLowerCase track).

Definition processEvent (event : option XmlEvent) (isLive : bool)
    (roomName : string) (day : Z) : option ProcessedEvent :=
  match event with
  | None => None
  | Some event =>
    match text_of (xml_title event) with
    | None => None
    | Some title =>
      let status := getStatus (toLowerCase title) in
      match status with
      | canceled => None
      | _ =>
        match text_of (xml_type event), text_of (xml_track event) with
        | Some rawType, Some track =>
          let type := getType rawType in
          let trackKey := trackKey_of track in
          if String.eqb type "other" && String.eqb track "stand" then None
          else Some
            {| e_day := day;
               e_isLive := isLive;
               e_status := status;
               e_type := type;
               e_track := track;
               e_trackKey := trackKey;
               e_title := getTitle title status;
               e_persons := processPersons (xml_persons event);
               e_links := processLinks (xml_links event);
               e_attachments := processAttachments (xml_attachments event);
               e_streams := buildStreamInfo roomName;
               e_chat := buildChatInfo roomName;
               e_room := roomName;
               e_url := xml_url event;
               e_language := xml_language event;
               e_feedbackUrl := xml_feedback_url event;
               e_id := xml_id event;
               e_startTime := xml_start event;
               e_duration := xml_duration event;
               e_subtitle := xml_subtitle event;
               e_abstract := xml_abstract event;
               e_description := xml_description event |}
        | _, _ => None
        end
      end
    end
  end.

(** *** processScheduleData *)

(** [`${n}`] for an integer [n]. *)
Definition number_to_string (n : Z) : string :=
  NilZero.string_of_int (Z.to_int n).

(** [roomName.match(/^(AW|[A-Z])/)], then group 1 or the empty string. *)
Definition buildingId_of (roomName : string) : string :=
  if startsWith "AW" roomName then "AW"
  else
    match roomName with
    | String c _ => if is_upper c then String c EmptyString else ""
    | EmptyString => ""
    end.

Fixpoint take_while (p : ascii -> bool) (s : string) : string :=
  match s with
  | String c t => if p c then String c (take_while p t) else EmptyString
  | EmptyString => EmptyString
  end.

Fixpoint drop_while (p : ascii -> bool) (s : string) : string :=
  match s with
  | String c t => if p c then drop_while p t else s
  | EmptyString => EmptyString
  end.

(** [roomName.match(/^[A-Z]+\.?([0-9]+)/)], then group 1 or [null]: the
    three character classes are disjoint, so the greedy reading is the only
    one. *)
Definition floor_of (roomName : string) : option string :=
  if truthy (take_while is_upper roomName) then
    let rest := drop_while is_upper roomName in
    let rest := match rest with
                | String c t => if is_dot c then t else rest
                | EmptyString => rest
                end in
    if truthy (take_while is_digit rest) then Some (take_while is_digit rest)
    else None
  else None.

Definition initial_types : table TypeInfo :=
  fold_left (fun acc decl =>
    js_set (fst decl)
      {| t_id := fst decl;
         t_name := decl_name (snd decl);
         t_trackCount := 0;
         t_eventCount := 0;
         t_roomCount := 0;
         t_buildingCount := 0;
         t_rooms := [];
         t_buildings := [] |} acc) typeData [].

Definition initial_buildings : table BuildingStats :=
  fold_left (fun acc building =>
    js_set building
      {| b_name := building;
         b_roomCount := 0;
         b_trackCount := 0;
         b_eventCount := 0 |} acc) (keys buildings) [].

Definition initial_tables (conference : Conference) : Tables :=
  {| w_conference := conference;
     w_types := initial_types;
     w_buildings := initial_buildings;
     w_days := [];
     w_rooms := [];
     w_tracks := [];
     w_events := [] |}.

Definition new_dayInfo (day : Day) : DayInfo :=
  {| d_date := day_date day;
     d_start := day_start day;
     d_end := day_end day;
     d_id := day_index day;
     d_name := "Day " ++ number_to_string (day_index day);
     d_eventCount := 0;
     d_trackCount := 0;
     d_roomCount := 0;
     d_buildingCount := 0;
     d_rooms := [];
     d_buildings := [];
     d_tracks := [] |}.

(** [if (!result.rooms[roomName]) result.rooms[roomName] = {...}] *)
Definition ensure_room (roomName slug buildingId : string)
    (floor : option string) (rooms : table RoomInfo) : table RoomInfo :=
  match js_get rooms roomName with
  | Missing =>
      js_set roomName
        {| r_name := roomName;
           r_slug := slug;
           r_buildingId := buildingId;
           r_building :=
             if js_in buildingId buildings then own_get buildingId buildings
             else None;
           r_floor := floor;
           r_eventCount := 0 |} rooms
  | _ => rooms
  end.

(** [result.rooms[roomName].eventCount++].  Under an inherited name the
    counter lands on a built-in object: on [Object.prototype] itself for
    [__proto__], on a function nothing reads otherwise. *)
Definition count_room_event (roomName : string) (rooms : table RoomInfo)
    : outcome (table RoomInfo) :=
  match js_get rooms roomName with
  | Own r =>
      Ok (own_set roomName
            {| r_name := r_name r; r_slug := r_slug r;
               r_buildingId := r_buildingId r; r_building := r_building r;
               r_floor := r_floor r; r_eventCount := S (r_eventCount r) |} rooms)
  | Inherited =>
      if String.eqb roomName "__proto__" then Unmodelled else Ok rooms
  | Missing => TypeError
  end.

(** The track of an accepted event: created on first sight, else the day is
    pushed when it is new.  An inherited name has no [day] array:
    [undefined.includes] throws. *)
Definition touch_track (event : ProcessedEvent) (roomName : string)
    (dayIndex : Z) (tracks : table TrackInfo) : outcome (table TrackInfo) :=
  match js_get tracks (e_trackKey event) with
  | Missing =>
      Ok (js_set (e_trackKey event)
            {| k_id := e_trackKey event;
               k_name := e_track event;
               k_type := e_type event;
               k_room := roomName;
               k_day := [dayIndex];
               k_eventCount := 0 |} tracks)
  | Own track =>
      if existsb (Z.eqb dayIndex) (k_day track) then Ok tracks
      else
        Ok (own_set (e_trackKey event)
              {| k_id := k_id track; k_name := k_name track;
                 k_type := k_type track; k_room := k_room track;
                 k_day := k_day track ++ [dayIndex];
                 k_eventCount := k_eventCount track |} tracks)
  | Inherited => TypeError
  end.

(** [result.tracks[event.trackKey].eventCount++] *)
Definition count_track_event (trackKey : string) (tracks : table TrackInfo)
    : outcome (table TrackInfo) :=
  match js_get tracks trackKey with
  | Own track =>
      Ok (own_set trackKey
            {| k_id := k_id track; k_name := k_name track;
               k_type := k_type track; k_room := k_room track;
               k_day := k_day track;
               k_eventCount := S (k_eventCount track) |} tracks)
  | Inherited =>
      if String.eqb trackKey "__proto__" then Unmodelled else Ok tracks
  | Missing => TypeError
  end.

(** [if (result.types[event.type]) { ... }].  An inherited name is truthy:
    the counter is written on the built-in object, which has no [rooms]
    set, so [.rooms.add] throws. *)
Definition update_type_stats (type roomName buildingId : string)
    (types : table TypeInfo) : outcome (table TypeInfo) :=
  match js_get types type with
  | Own info =>
      Ok (own_set type
            {| t_id := t_id info; t_name := t_name info;
               t_trackCount := t_trackCount info;
               t_eventCount := S (t_eventCount info);
               t_roomCount := t_roomCount info;
               t_buildingCount := t_buildingCount info;
               t_rooms := set_add roomName (t_rooms info);
               t_buildings := set_add buildingId (t_buildings info) |} types)
  | Inherited =>
      if String.eqb type "__proto__" then Unmodelled else TypeError
  | Missing => Ok types
  end.

(** The body of [if (event) { ... }]. *)
Definition record_event (roomName buildingId : string) (dayIndex : Z)
    (event : ProcessedEvent) (acc : Tables * DayInfo)
    : outcome (Tables * DayInfo) :=
  let (result, dayInfo) := acc in
  let events' := js_set (e_id event) event (w_events result) in
  rooms' <- count_room_event roomName (w_rooms result) ;;
  tracks1 <- touch_track event roomName dayIndex (w_tracks result) ;;
  tracks' <- count_track_event (e_trackKey event) tracks1 ;;
  types' <- update_type_stats (e_type event) roomName buildingId
              (w_types result) ;;
  Ok ({| w_conference := w_conference result;
         w_types := types';
         w_buildings := w_buildings result;
         w_days := w_days result;
         w_rooms := rooms';
         w_tracks := tracks';
         w_events := events' |},
      {| d_date := d_date dayInfo; d_start := d_start dayInfo;
         d_end := d_end dayInfo; d_id := d_id dayInfo;
         d_name := d_name dayInfo;
         d_eventCount := S (d_eventCount dayInfo);
         d_trackCount := d_trackCount dayInfo;
         d_roomCount := d_roomCount dayInfo;
         d_buildingCount := d_buildingCount dayInfo;
         d_rooms := set_add roomName (d_rooms dayInfo);
         d_buildings := set_add buildingId (d_buildings dayInfo);
         d_tracks := set_add (e_trackKey event) (d_tracks dayInfo) |}).

(** [for (const x of l) { ... }] over a state, stopping at the first
    abnormal outcome. *)
Fixpoint for_each {A S : Type} (body : S -> A -> outcome S) (l : list A)
    (s : S) : outcome S :=
  match l with
  | [] => Ok s
  | x :: l' => s' <- body s x ;; for_each body l' s'
  end.

(** [Array.isArray(room.event) ? room.event : [room.event]]; a room without
    events yields [[undefined]]. *)
Definition events_of (room : Room) : list (option XmlEvent) :=
  match room_event room with
  | None => [None]
  | Some event => map Some (as_list event)
  end.

Definition process_xmlEvent (roomName buildingId : string) (dayIndex : Z)
    (acc : Tables * DayInfo) (xmlEvent : option XmlEvent)
    : outcome (Tables * DayInfo) :=
  match processEvent xmlEvent (dayIndex =? 1)%Z roomName dayIndex with
  | Some event => record_event roomName buildingId dayIndex event acc
  | None => Ok acc
  end.

(** [if (result.buildings[buildingId]) { roomCount++; eventCount +=
    result.rooms[roomName].eventCount }], run once per room element.  The
    building ids of the table begin with a capital letter and no inherited
    name does, so the two [Unmodelled] branches are never taken
    ([building_branches_own]). *)
Definition update_building_stats (roomName buildingId : string)
    (result : Tables) : outcome Tables :=
  match js_get (w_buildings result) buildingId with
  | Own b =>
      match js_get (w_rooms result) roomName with
      | Own r =>
          Ok {| w_conference := w_conference result;
                w_types := w_types result;
                w_buildings :=
                  own_set buildingId
                    {| b_name := b_name b;
                       b_roomCount := S (b_roomCount b);
                       b_trackCount := b_trackCount b;
                       b_eventCount := b_eventCount b + r_eventCount r |}
                    (w_buildings result);
                w_days := w_days result;
                w_rooms := w_rooms result;
                w_tracks := w_tracks result;
                w_events := w_events result |}
      | Inherited => Unmodelled
      | Missing => TypeError
      end
  | Inherited => Unmodelled
  | Missing => Ok result
  end.

Definition process_room (dayIndex : Z) (acc : Tables * DayInfo) (room : Room)
    : outcome (Tables * DayInfo) :=
  let (result, dayInfo) := acc in
  let roomName := getRoomName (room_name room) in
  let buildingId := buildingId_of roomName in
  let floor := floor_of roomName in
  let result1 :=
    {| w_conference := w_conference result;
       w_types := w_types result;
       w_buildings := w_buildings result;
       w_days := w_days result;
       w_rooms := ensure_room roomName (room_slug room) buildingId floor
                    (w_rooms result);
       w_tracks := w_tracks result;
       w_events := w_events result |} in
  acc' <- for_each (process_xmlEvent roomName buildingId dayIndex)
            (events_of room) (result1, dayInfo) ;;
  result2 <- update_building_stats roomName buildingId (fst acc') ;;
  Ok (result2, snd acc').

(** [dayInfo.roomCount = dayInfo.rooms.size] and the like. *)
Definition finish_day (dayInfo : DayInfo) : DayInfo :=
  {| d_date := d_date dayInfo; d_start := d_start dayInfo;
     d_end := d_end dayInfo; d_id := d_id dayInfo; d_name := d_name dayInfo;
     d_eventCount := d_eventCount dayInfo;
     d_trackCount := set_size (d_tracks dayInfo);
     d_roomCount := set_size (d_rooms dayInfo);
     d_buildingCount := set_size (d_buildings dayInfo);
     d_rooms := d_rooms dayInfo;
     d_buildings := d_buildings dayInfo;
     d_tracks := d_tracks dayInfo |}.

Definition nonempty {A} (l : list A) : bool :=
  match l with [] => false | _ => true end.

(** The recount of one session type after a day. *)
Definition recount_type (tracks : table TrackInfo) (type : TypeInfo) : TypeInfo :=
  {| t_id := t_id type; t_name := t_name type;
     t_trackCount :=
       if nonempty (keys tracks)
       then List.length
              (filter (fun track => String.eqb (k_type track) (t_id type))
                 (values tracks))
       else t_trackCount type;
     t_eventCount := t_eventCount type;
     t_roomCount := set_size (t_rooms type);
     t_buildingCount := set_size (t_buildings type);
     t_rooms := t_rooms type;
     t_buildings := t_buildings type |}.

Definition recount_types (tracks : table TrackInfo) (types : table TypeInfo)
    : table TypeInfo :=
  if nonempty (keys types)
  then map (fun kv => (fst kv, recount_type tracks (snd kv))) types
  else types.

Definition process_day (result : Tables) (day : Day) : outcome Tables :=
  let dayIndex := day_index day in
  let dayInfo := new_dayInfo day in
  acc <- (if nonempty (day_room day)
          then for_each (process_room dayIndex) (day_room day) (result, dayInfo)
          else Ok (result, dayInfo)) ;;
  let result1 := fst acc in
  Ok {| w_conference := w_conference result1;
        w_types := recount_types (w_tracks result1) (w_types result1);
        w_buildings := w_buildings result1;
        w_days := js_set (number_to_string dayIndex) (finish_day (snd acc))
                    (w_days result1);
        w_rooms := w_rooms result1;
        w_tracks := w_tracks result1;
        w_events := w_events result1 |}.

(** The tables after the loop over the days, before the clean-up. *)
Definition aggregate (data : ParsedData) : outcome Tables :=
  for_each process_day (data_day data) (initial_tables (data_conference data)).

Definition strip_type (type : TypeInfo) : TypeSummary :=
  {| ts_id := t_id type; ts_name := t_name type;
     ts_trackCount := t_trackCount type;
     ts_eventCount := t_eventCount type;
     ts_roomCount := t_roomCount type;
     ts_buildingCount := t_buildingCount type |}.

Definition strip_day (day : DayInfo) : DaySummary :=
  {| ds_date := d_date day; ds_start := d_start day; ds_end := d_end day;
     ds_id := d_id day; ds_name := d_name day;
     ds_eventCount := d_eventCount day;
     ds_trackCount := d_trackCount day;
     ds_roomCount := d_roomCount day;
     ds_buildingCount := d_buildingCount day |}.

(** The clean-up: [delete] removes the scratch sets of every type and day. *)
Definition cleanup (result : Tables) : BuildDataResult :=
  {| res_conference := w_conference result;
     res_types := map (fun kv => (fst kv, strip_type (snd kv))) (w_types result);
     res_buildings := w_buildings result;
     res_days := map (fun kv => (fst kv, strip_day (snd kv))) (w_days result);
     res_rooms := w_rooms result;
     res_tracks := w_tracks result;
     res_events := w_events result |}.

Definition processScheduleData (data : ParsedData) : outcome BuildDataResult :=
  result <- aggregate data ;;
  Ok (cleanup result).

(** [buildData] once the document is fetched and flattened. *)
Definition buildData (schedule : Schedule) : outcome BuildDataResult :=
  processScheduleData (parseData schedule).

(** The processed events of a document, in document order: what
    [processEvent] accepts, day by day, room by room. *)
Definition accepted_in_room (dayIndex : Z) (room : Room) : list ProcessedEvent :=
  flat_map (fun xmlEvent =>
    match processEvent xmlEvent (dayIndex =? 1)%Z
            (getRoomName (room_name room)) dayIndex with
    | Some event => [event]
    | None => []
    end) (events_of room).

Definition accepted_in_day (day : Day) : list ProcessedEvent :=
  flat_map (accepted_in_room (day_index day)) (day_room day).

Definition accepted (days : list Day) : list ProcessedEvent :=
  flat_map accepted_in_day days.

End Fosdem.

(** ** The inline revision of the build

    An unnamed revision of the same module (421 lines, [buildData] with
    the helpers inline) computes two of the fields differently; the parts
    the properties below compare with are embedded here. *)

Module Inline.
Import Str Obj Constants Data.

(** [getText(event.type)] followed by [if (!typeData[type]) return 'other']. *)
Definition getType (type : string) : string :=
  match js_get TYPES type with
  | Missing => "other"
  | _ => type
  end.

(** The [conference] object built at the end of [buildData]. *)
Definition conference_of (data : Schedule) : Conference :=
  let conference := schedule_conference data in
  {| acronym := raw_acronym conference;
     conf_title := raw_title conference;
     conf_subtitle := raw_subtitle conference;
     venue := raw_venue conference;
     city := raw_city conference;
     conf_start := raw_start conference;
     conf_end := raw_end conference;
     days := map day_date (schedule_day data);
     day_change := raw_day_change conference;
     timeslot_duration := raw_timeslot_duration conference;
     time_zone_name := raw_time_zone_name conference |}.

End Inline.

(** ** Sample documents *)

Module Samples.
Import Str Obj Constants Data Fosdem.

Definition event_node (id title type track : string) : XmlEvent :=
  {| xml_guid := id; xml_id := id;
     xml_title := Some title; xml_type := Some type; xml_track := Some track;
     xml_persons := None; xml_links := None; xml_attachments := None;
     xml_url := None; xml_language := None; xml_feedback_url := None;
     xml_start := "10:00"; xml_duration := "00:30";
     xml_subtitle := None; xml_abstract := None; xml_description := None |}.

Definition room_node (name : string) (events : list XmlEvent) : Room :=
  {| room_name := name; room_slug := toLowerCase name;
     room_event := Some (Many events) |}.

Definition day_node (index : Z) (date : string) (rooms : list Room) : Day :=
  {| day_index := index; day_date := date;
     day_start := "09:00"; day_end := "18:00"; day_room := rooms |}.

Definition conference_node (start finish : string) : RawConference :=
  {| raw_acronym := Some "fosdem"; raw_title := Some "FOSDEM";
     raw_subtitle := None; raw_venue := Some "ULB"; raw_city := Some "Brussels";
     raw_start := Some start; raw_end := Some finish;
     raw_day_change := Some "09:00"; raw_timeslot_duration := Some "00:05";
     raw_time_zone_name := Some "Europe/Brussels" |}.

(** Three days between the conference's start and end dates. *)
Definition three_days : Schedule :=
  {| schedule_conference := conference_node "2025-01-31" "2025-02-02";
     schedule_day :=
       [ day_node 1 "2025-01-31" [];
         day_node 2 "2025-02-01" [];
         day_node 3 "2025-02-02" [] ] |}.

(** One room of building J, open on both days, one talk a day. *)
Definition same_room_twice : Schedule :=
  {| schedule_conference := conference_node "2025-02-01" "2025-02-02";
     schedule_day :=
       [ day_node 1 "2025-02-01"
           [ room_node "J.1" [ event_node "1" "Welcome" "lecture" "Keynotes" ] ];
         day_node 2 "2025-02-02"
           [ room_node "J.1" [ event_node "2" "Closing" "lecture" "Keynotes" ] ] ] |}.

(** Two days; a track written in two ways, a canceled talk, a room whose
    name begins with a small letter. *)
Definition desk_event : XmlEvent := event_node "4" "Questions" "bof" "Info Desk".

Definition desk_room : Room := room_node "infodesk" [ desk_event ].

Definition saturday : Day :=
  day_node 1 "2025-02-01"
    [ room_node "J.1"
        [ event_node "1" "Welcome" "lecture" "Keynotes";
          event_node "2" "Go fast" "devroom" "Go  Performance";
          event_node "3" "Session Canceled" "devroom" "Go Performance" ];
      desk_room ].

Definition sunday : Day :=
  day_node 2 "2025-02-02"
    [ room_node "H.1302"
        [ event_node "5" "Go faster" "devroom" "go performance";
          event_node "6" "Go home" "devroom" "Go Performance" ] ].

Definition weekend : Schedule :=
  {| schedule_conference := conference_node "2025-02-01" "2025-02-02";
     schedule_day := [ saturday; sunday ] |}.

(** A talk of type [constructor]. *)
Definition inherited_type_event : XmlEvent :=
  event_node "7" "Objects" "constructor" "JavaScript".

(** A talk in a room whose name carries a replacement pattern. *)
Definition plain_event : XmlEvent :=
  event_node "8" "Streams" "devroom" "Video".

Definition dollar_room : string := "J.$&".

End Samples.

(** ** The tables as functions of the accepted events

    The definitions of this module are not taken from the source: they say,
    in terms of the list of accepted events, what the properties below
    prove the tables to hold. *)

Module Summary.
Import Str Obj Constants Data Fosdem.

(** The distinct elements of a list, each at the place of its first
    occurrence. *)
Fixpoint first_seen {A : Type} (eqb : A -> A -> bool) (l : list A) : list A :=
  match l with
  | [] => []
  | x :: l' => x :: filter (fun y => negb (eqb y x)) (first_seen eqb l')
  end.

Definition distinct (l : list string) : list string := first_seen String.eqb l.

(** The building id inferred for the room of an event. *)
Definition building_of (e : ProcessedEvent) : string := buildingId_of (e_room e).

Definition with_key (key : string) (l : list ProcessedEvent) : list ProcessedEvent :=
  filter (fun e => String.eqb (e_trackKey e) key) l.

Definition of_type (type : string) (l : list ProcessedEvent) : list ProcessedEvent :=
  filter (fun e => String.eqb (e_type e) type) l.

(** The track record for a key: absent when no accepted event carries the
    key; else named after the first such event, with the days of all of
    them in first-seen order and their number. *)
Definition track_of (key : string) (l : list ProcessedEvent) : option TrackInfo :=
  match with_key key l with
  | [] => None
  | first :: rest =>
      Some {| k_id := key;
              k_name := e_track first;
              k_type := e_type first;
              k_room := e_room first;
              k_day := first_seen Z.eqb (map e_day (first :: rest));
              k_eventCount := List.length (first :: rest) |}
  end.

(** The record of a day once its rooms are processed. *)
Definition day_info_of (day : Day) : DayInfo :=
  let l := accepted_in_day day in
  {| d_date := day_date day;
     d_start := day_start day;
     d_end := day_end day;
     d_id := day_index day;
     d_name := "Day " ++ number_to_string (day_index day);
     d_eventCount := List.length l;
     d_trackCount := List.length (distinct (map e_trackKey l));
     d_roomCount := List.length (distinct (map e_room l));
     d_buildingCount := List.length (distinct (map building_of l));
     d_rooms := distinct (map e_room l);
     d_buildings := distinct (map building_of l);
     d_tracks := distinct (map e_trackKey l) |}.

(** The scratch sets and the event counter of a session type follow the
    accepted events of that type. *)
Definition type_follows (l : list ProcessedEvent) (key : string) (info : TypeInfo)
    : Prop :=
  t_id info = key /\
  t_eventCount info = List.length (of_type key l) /\
  t_rooms info = distinct (map e_room (of_type key l)) /\
  t_buildings info = distinct (map building_of (of_type key l)).

(** The counts of a session type as the recount at the end of a day leaves
    them. *)
Definition type_recounted (tracks : table TrackInfo) (info : TypeInfo) : Prop :=
  t_roomCount info = set_size (t_rooms info) /\
  t_buildingCount info = set_size (t_buildings info) /\
  t_trackCount info
  = List.length (filter (fun track => String.eqb (k_type track) (t_id info))
                   (values tracks)).

(** The tables while the events [l] are the ones accepted so far. *)
Record tables_follow (l : list ProcessedEvent) (w : Tables) : Prop := {
  follow_type_keys : keys (w_types w) = keys typeData;
  follow_building_keys : keys (w_buildings w) = keys buildings;
  follow_types :
    forall key info, own_get key (w_types w) = Some info -> type_follows l key info;
  follow_accepted_types :
    forall e, In e l -> In (e_type e) (keys typeData);
  follow_tracks :
    forall key, own_get key (w_tracks w) = track_of key l;
  follow_track_keys : NoDup (keys (w_tracks w));
  follow_events :
    w_events w = fold_left (fun t e => js_set (e_id e) e t) l []
}.

(** The record of the running day while the events [l] are the ones
    accepted in it so far. *)
Record day_follows (day : Day) (l : list ProcessedEvent) (info : DayInfo) : Prop := {
  follow_date : d_date info = day_date day;
  follow_start : d_start info = day_start day;
  follow_end : d_end info = day_end day;
  follow_id : d_id info = day_index day;
  follow_name : d_name info = ("Day " ++ number_to_string (day_index day))%string;
  follow_eventCount : d_eventCount info = List.length l;
  follow_rooms : d_rooms info = distinct (map e_room l);
  follow_buildings : d_buildings info = distinct (map building_of l);
  follow_day_tracks : d_tracks info = distinct (map e_trackKey l)
}.

(** The day table after the days [days]. *)
Definition days_of (days : list Day) : table DayInfo :=
  fold_left (fun t day =>
    js_set (number_to_string (day_index day)) (day_info_of day) t) days [].

(** The state between two days, [days] being the days processed. *)
Record between_days (conference : Conference) (days : list Day) (w : Tables)
    : Prop := {
  between_follow : tables_follow (accepted days) w;
  between_recounted :
    forall key info, own_get key (w_types w) = Some info ->
      type_recounted (w_tracks w) info;
  between_day_table : w_days w = days_of days;
  between_conference : w_conference w = conference
}.

(** The state inside the day [day]: [before] are the events accepted on
    the earlier days [days], [l] those accepted so far in this day. *)
Record within_day (conference : Conference) (days : list Day) (day : Day)
    (l : list ProcessedEvent) (acc : Tables * DayInfo) : Prop := {
  within_follow : tables_follow (accepted days ++ l) (fst acc);
  within_day_info : day_follows day l (snd acc);
  within_day_table : w_days (fst acc) = days_of days;
  within_conference : w_conference (fst acc) = conference;
  within_trackless :
    w_tracks (fst acc) = [] ->
    forall key info, own_get key (w_types (fst acc)) = Some info ->
      t_trackCount info = 0
}.

(** The name begins with one of the letters A to Z. *)
Definition upper_initial (name : string) : bool :=
  match name with
  | String c _ => is_upper c
  | EmptyString => false
  end.

(** The title of an event node says [canceled], in any case of letters. *)
Definition canceled_title (event : option XmlEvent) : bool :=
  match event with
  | Some event =>
      match xml_title event with
      | Some title => includes "canceled" (toLowerCase title)
      | None => false
      end
  | None => false
  end.

(** The document without the event nodes whose title says [canceled]. *)
Definition room_without_canceled (room : Room) : Room :=
  {| room_name := room_name room;
     room_slug := room_slug room;
     room_event :=
       match room_event room with
       | Some event =>
           Some (Many (filter (fun e => negb (canceled_title (Some e)))
                         (as_list event)))
       | None => None
       end |}.

Definition day_without_canceled (day : Day) : Day :=
  {| day_index := day_index day;
     day_date := day_date day;
     day_start := day_start day;
     day_end := day_end day;
     day_room := map room_without_canceled (day_room day) |}.

Definition without_canceled (data : ParsedData) : ParsedData :=
  {| data_conference := data_conference data;
     data_day := map day_without_canceled (data_day data) |}.

(** No accepted event steps on a name inherited from [Object.prototype]:
    neither its type nor its track key is one, and its room is not called
    [__proto__]. *)
Definition plain_names (e : ProcessedEvent) : Prop :=
  is_proto (e_type e) = false /\ is_proto (e_trackKey e) = false /\
  e_room e <> "__proto__".

End Summary.

(** ** The run with its memo caches

    [getRoomName], [getLinkType] and [getStatus] are wrapped by [memoize]:
    each keeps a [Map] from argument to result that lives as long as the
    module, across runs.  Here the run is written once more with the three
    caches threaded through it. *)

Module Memo.
Import Str Obj Constants Data Fosdem.

(** The entries of a [Map] keyed by strings, in insertion order. *)
Definition Cache (R : Type) : Type := list (string * R).

(** [cache.get(arg) ?? fn(arg)], then [cache.set(arg, value)]. *)
Definition memoize {R : Type} (nullish : R -> bool) (fn : string -> R)
    (cache : Cache R) (arg : string) : R * Cache R :=
  let value :=
    match own_get arg cache with
    | Some v => if nullish v then fn arg else v
    | None => fn arg
    end in
  (value, own_set arg value cache).

Record Caches : Type := {
  roomNames : Cache string;
  linkTypes : Cache (option string);
  statuses : Cache Status
}.

Definition no_caches : Caches :=
  {| roomNames := []; linkTypes := []; statuses := [] |}.

(** A computation that reads and fills the caches. *)
Definition M (A : Type) : Type := Caches -> A * Caches.

Definition ret {A} (a : A) : M A := fun c => (a, c).

Definition bindM {A B} (m : M A) (k : A -> M B) : M B :=
  fun c => let (a, c') := m c in k a c'.

Notation "x <~ m ;; k" := (bindM m (fun x => k))
  (at level 61, m at next level, right associativity).

Definition is_null (x : option string) : bool :=
  match x with None => true | Some _ => false end.

Definition getRoomName (name : string) : M string :=
  fun c =>
    let (value, cache) :=
      memoize (fun _ => false) Fosdem.getRoomName (roomNames c) name in
    (value, {| roomNames := cache; linkTypes := linkTypes c;
               statuses := statuses c |}).

Definition getLinkType (url : string) : M (option string) :=
  fun c =>
    let (value, cache) := memoize is_null Fosdem.getLinkType (linkTypes c) url in
    (value, {| roomNames := roomNames c; linkTypes := cache;
               statuses := statuses c |}).

Definition getStatus (title : string) : M Status :=
  fun c =>
    let (value, cache) :=
      memoize (fun _ => false) Fosdem.getStatus (statuses c) title in
    (value, {| roomNames := roomNames c; linkTypes := linkTypes c;
               statuses := cache |}).

(** [array.map(f)] with an [f] that uses the caches. *)
Fixpoint mapM {A B} (f : A -> M B) (l : list A) : M (list B) :=
  match l with
  | [] => ret []
  | x :: l' => y <~ f x ;; ys <~ mapM f l' ;; ret (y :: ys)
  end.

Definition processLink (link : XmlLink) : M Link :=
  type <~ getLinkType (link_href link) ;;
  ret {| l_href := link_href link;
         l_title := or_empty (link_text link);
         l_type := type |}.

Definition processLinks (links : option (one_or_many XmlLink)) : M (list Link) :=
  match links with
  | None => ret []
  | Some link => mapM processLink (as_list link)
  end.

Definition processEvent (event : option XmlEvent) (isLive : bool)
    (roomName : string) (day : Z) : M (option ProcessedEvent) :=
  match event with
  | None => ret None
  | Some event =>
    match text_of (xml_title event) with
    | None => ret None
    | Some title =>
      status <~ getStatus (toLowerCase title) ;;
      match status with
      | canceled => ret None
      | _ =>
        match text_of (xml_type event), text_of (xml_track event) with
        | Some rawType, Some track =>
          let type := getType rawType in
          let trackKey := trackKey_of track in
          if String.eqb type "other" && String.eqb track "stand" then ret None
          else
            links <~ processLinks (xml_links event) ;;
            ret (Some
              {| e_day := day;
                 e_isLive := isLive;
                 e_status := status;
                 e_type := type;
                 e_track := track;
                 e_trackKey := trackKey;
                 e_title := getTitle title status;
                 e_persons := processPersons (xml_persons event);
                 e_links := links;
                 e_attachments := processAttachments (xml_attachments event);
                 e_streams := buildStreamInfo roomName;
                 e_chat := buildChatInfo roomName;
                 e_room := roomName;
                 e_url := xml_url event;
                 e_language := xml_language event;
                 e_feedbackUrl := xml_feedback_url event;
                 e_id := xml_id event;
                 e_startTime := xml_start event;
                 e_duration := xml_duration event;
                 e_subtitle := xml_subtitle event;
                 e_abstract := xml_abstract event;
                 e_description := xml_description event |})
        | _, _ => ret None
        end
      end
    end
  end.

(** A loop whose body uses the caches; an abnormal outcome ends it, the
    caches keep what they hold. *)
Fixpoint for_each {A S : Type} (body : S -> A -> M (outcome S)) (l : list A)
    (s : S) : M (outcome S) :=
  match l with
  | [] => ret (Ok s)
  | x :: l' =>
      o <~ body s x ;;
      match o with
      | Ok s' => for_each body l' s'
      | TypeError => ret TypeError
      | Unmodelled => ret Unmodelled
      end
  end.

Definition process_xmlEvent (roomName buildingId : string) (dayIndex : Z)
    (acc : Tables * DayInfo) (xmlEvent : option XmlEvent)
    : M (outcome (Tables * DayInfo)) :=
  event <~ processEvent xmlEvent (dayIndex =? 1)%Z roomName dayIndex ;;
  match event with
  | Some event => ret (record_event roomName buildingId dayIndex event acc)
  | None => ret (Ok acc)
  end.

Definition process_room (dayIndex : Z) (acc : Tables * DayInfo) (room : Room)
    : M (outcome (Tables * DayInfo)) :=
  let (result, dayInfo) := acc in
  roomName <~ getRoomName (room_name room) ;;
  let buildingId := buildingId_of roomName in
  let floor := floor_of roomName in
  let result1 :=
    {| w_conference := w_conference result;
       w_types := w_types result;
       w_buildings := w_buildings result;
       w_days := w_days result;
       w_rooms := ensure_room roomName (room_slug room) buildingId floor
                    (w_rooms result);
       w_tracks := w_tracks result;
       w_events := w_events result |} in
  o <~ for_each (process_xmlEvent roomName buildingId dayIndex)
         (events_of room) (result1, dayInfo) ;;
  ret (acc' <- o ;;
       result2 <- update_building_stats roomName buildingId (fst acc') ;;
       Ok (result2, snd acc')).

Definition process_day (result : Tables) (day : Day) : M (outcome Tables) :=
  let dayIndex := day_index day in
  let dayInfo := new_dayInfo day in
  o <~ (if nonempty (day_room day)
        then for_each (process_room dayIndex) (day_room day) (result, dayInfo)
        else ret (Ok (result, dayInfo))) ;;
  ret (acc <- o ;;
       let result1 := fst acc in
       Ok {| w_conference := w_conference result1;
             w_types := recount_types (w_tracks result1) (w_types result1);
             w_buildings := w_buildings result1;
             w_days := js_set (number_to_string dayIndex) (finish_day (snd acc))
                         (w_days result1);
             w_rooms := w_rooms result1;
             w_tracks := w_tracks result1;
             w_events := w_events result1 |}).

Definition processScheduleData (data : ParsedData) : M (outcome BuildDataResult) :=
  o <~ for_each process_day (data_day data)
         (initial_tables (data_conference data)) ;;
  ret (result <- o ;; Ok (cleanup result)).

(** Every entry of a cache is the value of the wrapped function, or a
    [null] that [??] passes over. *)
Definition cache_sound {R : Type} (nullish : R -> bool) (fn : string -> R)
    (cache : Cache R) : Prop :=
  forall arg v, own_get arg cache = Some v -> nullish v = false -> v = fn arg.

Record sound (c : Caches) : Prop := {
  sound_roomNames : cache_sound (fun _ => false) Fosdem.getRoomName (roomNames c);
  sound_linkTypes : cache_sound is_null Fosdem.getLinkType (linkTypes c);
  sound_statuses : cache_sound (fun _ => false) Fosdem.getStatus (statuses c)
}.

(** On sound caches the computation yields [a] and leaves sound caches. *)
Definition yields {A : Type} (m : M A) (a : A) : Prop :=
  forall c, sound c -> fst (m c) = a /\ sound (snd (m c)).

End Memo.

(** ** The room and building tables as functions of the document

    As in [Summary], the definitions of this module are not taken from the
    source: they say what the properties below prove the room table, the
    building table and the key lists to hold. *)

Module Ledger.
Import Str Obj Constants Data Fosdem Summary.

(** A room element of the document with the index of its day. *)
Definition Visit : Type := (Z * Room)%type.

Definition visit_name (v : Visit) : string := getRoomName (room_name (snd v)).

Definition visit_building (v : Visit) : string := buildingId_of (visit_name v).

Definition visit_accepted (v : Visit) : list ProcessedEvent :=
  accepted_in_room (fst v) (snd v).

Definition visits_of_day (day : Day) : list Visit :=
  map (fun room => (day_index day, room)) (day_room day).

(** The room elements of a document, in document order. *)
Definition visits (days : list Day) : list Visit := flat_map visits_of_day days.

Definition accepted_of (vs : list Visit) : list ProcessedEvent :=
  flat_map visit_accepted vs.

Definition named (name : string) (vs : list Visit) : list Visit :=
  filter (fun v => String.eqb (visit_name v) name) vs.

Definition in_room (name : string) (l : list ProcessedEvent) : list ProcessedEvent :=
  filter (fun e => String.eqb (e_room e) name) l.

Definition in_building (key : string) (l : list ProcessedEvent)
    : list ProcessedEvent :=
  filter (fun e => String.eqb (building_of e) key) l.

Definition of_building (key : string) (vs : list Visit) : list Visit :=
  filter (fun v => String.eqb (visit_building v) key) vs.

(** The room record under a name: none for a name inherited from
    [Object.prototype] or a name no room element carries; else the record
    made from the first room element of that name, with the number of
    events accepted in rooms of that name. *)
Definition room_of (name : string) (vs : list Visit) (l : list ProcessedEvent)
    : option RoomInfo :=
  if is_proto name then None
  else
    match named name vs with
    | [] => None
    | first :: _ =>
        Some {| r_name := name;
                r_slug := room_slug (snd first);
                r_buildingId := buildingId_of name;
                r_building := own_get (buildingId_of name) buildings;
                r_floor := floor_of name;
                r_eventCount := List.length (in_room name l) |}
    end.

(** What the building counter gains at the end of a room element: the
    events accepted so far, on this day and on earlier ones, in rooms of
    the element's name. *)
Definition running_total (seen : list Visit) (v : Visit) : nat :=
  List.length (in_room (visit_name v) (accepted_of (seen ++ [v]))).

(** The event counter of a building after the room elements [vs]: the sum
    of the running totals of its room elements. *)
Fixpoint building_events_from (key : string) (seen vs : list Visit) : nat :=
  match vs with
  | [] => 0
  | v :: vs' =>
      (if String.eqb (visit_building v) key then running_total seen v else 0)
      + building_events_from key (seen ++ [v]) vs'
  end.

Definition building_events (key : string) (vs : list Visit) : nat :=
  building_events_from key [] vs.

Definition building_stats (key : string) (vs : list Visit) : option BuildingStats :=
  if existsb (String.eqb key) (keys buildings)
  then Some {| b_name := key;
               b_roomCount := List.length (of_building key vs);
               b_trackCount := 0;
               b_eventCount := building_events key vs |}
  else None.

(** The last accepted event with a given id. *)
Definition last_with_id (id : string) (l : list ProcessedEvent)
    : option ProcessedEvent :=
  fold_left (fun found e => if String.eqb (e_id e) id then Some e else found)
    l None.

(** The state of the room, building, track and type tables: [done] are the
    room elements whose building update has run, [vs] those whose room
    record has been looked for, [l] the events accepted so far. *)
Record ledger (done vs : list Visit) (l : list ProcessedEvent) (w : Tables)
    : Prop := {
  ledger_rooms : forall name, own_get name (w_rooms w) = room_of name vs l;
  ledger_room_keys : NoDup (keys (w_rooms w));
  ledger_visited :
    forall e, In e l -> exists v, In v vs /\ visit_name v = e_room e;
  ledger_plain :
    forall e, In e l -> is_proto (e_trackKey e) = false /\ e_room e <> "__proto__";
  ledger_track_keys : keys (w_tracks w) = distinct (map e_trackKey l);
  ledger_type_names :
    forall key info, own_get key (w_types w) = Some info ->
      option_map decl_name (own_get key typeData) = Some (t_name info);
  ledger_buildings :
    forall key, own_get key (w_buildings w) = building_stats key done
}.

(** No mapping of the tree has [value] for its only key. *)
Fixpoint no_wrapper {scalar : Type} (n : Flatten.RawNode scalar) : Prop :=
  match n with
  | Flatten.Scalar _ => True
  | Flatten.Arr elements =>
      fold_right (fun e acc => no_wrapper e /\ acc) True elements
  | Flatten.Mapping fields =>
      keys fields <> ["value"] /\
      fold_right (fun kv acc => no_wrapper (snd kv) /\ acc) True fields
  end.

(** Every character of the string is in the class. *)
Fixpoint all_chars (p : ascii -> bool) (s : string) : bool :=
  match s with
  | EmptyString => true
  | String c t => p c && all_chars p t
  end.

(** The string does not go on with a character of the class. *)
Definition stops (p : ascii -> bool) (s : string) : bool :=
  match s with
  | EmptyString => true
  | String c _ => negb (p c)
  end.

(** The cache after a series of calls of a memoized function. *)
Definition cache_after {R : Type} (nullish : R -> bool) (fn : string -> R)
    (args : list string) : Memo.Cache R :=
  fold_left (fun cache arg => snd (Memo.memoize nullish fn cache arg)) args [].

(** The sum of a list of counters. *)
Definition total (l : list nat) : nat := fold_right Nat.add 0 l.

End Ledger.

(** ** The entry point ([buildData], before the fetch) *)

Module Entry.
Import Str Obj Constants Data.

Definition SCHEDULE_LINK : string := "https://fosdem.org/${YEAR}/schedule/xml".

Fixpoint all_digits (s : string) : bool :=
  match s with
  | EmptyString => true
  | String c t => is_digit c && all_digits t
  end.

(** [/^\d{4}$/.test(year)] *)
Definition four_digits (year : string) : bool :=
  (String.length year =? 4)%nat && all_digits year.

(** The address [buildData] fetches for a year; [None] stands for the
    [Error] thrown on a year that is empty or not four digits. *)
Definition schedule_url (year : string) : option string :=
  if negb (truthy year) || negb (four_digits year) then None
  else Some (replace "${YEAR}" year SCHEDULE_LINK).

End Entry.

(** ** The record of a day, before it is stored

    The body of the loop over the days up to the assignment
    [result.days[dayIndex] = dayInfo]: the loop over the rooms of the day,
    and the record with its counts set from the scratch sets. *)

Module DayRecord.
Import Str Obj Constants Data Fosdem.

(** [if (day.room?.length > 0) { for (const room of day.room) { ... } }],
    started on the fresh record of the day. *)
Definition room_loop (result : Tables) (day : Day) : outcome (Tables * DayInfo) :=
  if nonempty (day_room day)
  then for_each (process_room (day_index day)) (day_room day)
         (result, new_dayInfo day)
  else Ok (result, new_dayInfo day).

(** [dayInfo] as it stands when it is assigned to [result.days[dayIndex]]. *)
Definition finished_dayInfo (result : Tables) (day : Day) : outcome DayInfo :=
  acc <- room_loop result day ;;
  Ok (finish_day (snd acc)).

End DayRecord.

(** * Properties *)

Import Str Obj Constants Data Fosdem.

(** ** Tables *)

Section TableFacts.

Context {V : Type}.
Implicit Types (t : table V) (k : string) (v : V).

Lemma own_get_none_iff t k : own_get k t = None <-> ~ In k (keys t).
Proof.
  induction t as [|[k' v'] t IH]; simpl.
  - tauto.
  - destruct (String.eqb_spec k k') as [->|Hne].
    + split; [discriminate | intros H; exfalso; apply H; now left].
    + rewrite IH. split.
      * intros H [E|I]; [congruence | tauto].
      * intros H I. apply H. now right.
Qed.

Lemma own_get_in t k v : own_get k t = Some v -> In (k, v) t.
Proof.
  induction t as [|[k' v'] t IH]; simpl; [discriminate|].
  destruct (String.eqb_spec k k') as [->|Hne].
  - intros [= ->]. now left.
  - intros H. right. now apply IH.
Qed.

Lemma own_get_some_key t k v : own_get k t = Some v -> In k (keys t).
Proof.
  intros H. apply own_get_in in H. unfold keys.
  change k with (fst (k, v)). now apply in_map.
Qed.

Lemma in_own_get t k v : NoDup (keys t) -> In (k, v) t -> own_get k t = Some v.
Proof.
  induction t as [|[k' v'] t IH]; simpl; [tauto|].
  intros Hnd [E|I].
  - inversion E; subst. now rewrite String.eqb_refl.
  - inversion Hnd as [|? ? Hnot Hnd']; subst.
    destruct (String.eqb_spec k k') as [->|Hne].
    + exfalso. apply Hnot. unfold keys. change k' with (fst (k', v)).
      now apply in_map.
    + now apply IH.
Qed.

Lemma own_set_absent t k v : own_get k t = None -> own_set k v t = t ++ [(k, v)].
Proof.
  induction t as [|[k' v'] t IH]; simpl; [reflexivity|].
  destruct (String.eqb_spec k k') as [->|Hne]; [discriminate|].
  intros H. now rewrite IH.
Qed.

Lemma keys_own_set_present t k v v0 :
  own_get k t = Some v0 -> keys (own_set k v t) = keys t.
Proof.
  induction t as [|[k' v'] t IH]; simpl; [discriminate|].
  destruct (String.eqb_spec k k') as [->|Hne]; simpl.
  - reflexivity.
  - intros H. f_equal. now apply IH.
Qed.

Lemma own_get_own_set_eq t k v : own_get k (own_set k v t) = Some v.
Proof.
  induction t as [|[k' v'] t IH]; simpl.
  - now rewrite String.eqb_refl.
  - destruct (String.eqb_spec k k') as [->|Hne]; simpl.
    + now rewrite String.eqb_refl.
    + destruct (String.eqb_spec k k'); [contradiction | exact IH].
Qed.

Lemma own_get_own_set_ne t k k' v :
  k' <> k -> own_get k' (own_set k v t) = own_get k' t.
Proof.
  intros Hne. induction t as [|[k0 v0] t IH]; simpl.
  - destruct (String.eqb_spec k' k); [contradiction | reflexivity].
  - destruct (String.eqb_spec k k0) as [->|Hne0]; simpl.
    + destruct (String.eqb_spec k' k0); [contradiction | reflexivity].
    + destruct (String.eqb_spec k' k0); [reflexivity | exact IH].
Qed.

Lemma keys_own_set t k v :
  keys (own_set k v t) = if existsb (String.eqb k) (keys t) then keys t
                          else keys t ++ [k].
Proof.
  induction t as [|[k' v'] t IH]; simpl; [reflexivity|].
  destruct (String.eqb_spec k k') as [->|Hne]; simpl.
  - reflexivity.
  - rewrite IH. now destruct (existsb (String.eqb k) (keys t)).
Qed.

Lemma existsb_eqb_in (k : string) (l : list string) :
  existsb (String.eqb k) l = true <-> In k l.
Proof.
  rewrite existsb_exists. split.
  - intros (x & I & E). apply String.eqb_eq in E. now subst.
  - intros I. exists k. split; [exact I | apply String.eqb_refl].
Qed.

Lemma NoDup_keys_own_set t k v : NoDup (keys t) -> NoDup (keys (own_set k v t)).
Proof.
  intros Hnd. rewrite keys_own_set.
  destruct (existsb (String.eqb k) (keys t)) eqn:E; [exact Hnd|].
  assert (~ In k (keys t)) as Hnot.
  { intros I. apply existsb_eqb_in in I. congruence. }
  clear E. induction (keys t) as [|a l IH]; simpl.
  - constructor; [tauto | constructor].
  - inversion Hnd; subst. constructor.
    + rewrite in_app_iff. simpl. intros [I|[E|[]]]; [tauto|].
      subst. apply Hnot. now left.
    + apply IH; [assumption|]. intros I. apply Hnot. now right.
Qed.

Lemma js_get_own t k v : js_get t k = Own v <-> own_get k t = Some v.
Proof.
  unfold js_get. destruct (own_get k t).
  - split; intros [= ->]; reflexivity.
  - destruct (is_proto k); split; discriminate.
Qed.

Lemma js_get_missing t k :
  js_get t k = Missing <-> own_get k t = None /\ is_proto k = false.
Proof.
  unfold js_get. destruct (own_get k t).
  - split; [discriminate | intros [? _]; discriminate].
  - destruct (is_proto k); split; try discriminate; try tauto.
    intros [_ ?]. discriminate.
Qed.

Lemma js_get_inherited t k :
  js_get t k = Inherited <-> own_get k t = None /\ is_proto k = true.
Proof.
  unfold js_get. destruct (own_get k t).
  - split; [discriminate | intros [? _]; discriminate].
  - destruct (is_proto k); split; try discriminate; try tauto.
    intros [_ ?]. discriminate.
Qed.

Lemma js_set_not_proto t k v : is_proto k = false -> js_set k v t = own_set k v t.
Proof.
  unfold js_set. destruct (String.eqb_spec k "__proto__") as [->|]; [|reflexivity].
  discriminate.
Qed.

End TableFacts.

(** ** The tree flattener *)

Section FlattenFacts.
Import Flatten.

Context {scalar : Type}.

Lemma assign_all_from (fields acc : table (RawNode scalar)) :
  NoDup (keys (acc ++ fields)) -> ~ In "__proto__" (keys fields) ->
  fold_left (fun a kv => js_set (fst kv) (snd kv) a) fields acc = acc ++ fields.
Proof.
  revert acc. induction fields as [|[k v] fields IH]; intros acc Hnd Hp; simpl.
  - now rewrite app_nil_r.
  - assert (k <> "__proto__") as Hk by (intros ->; apply Hp; now left).
    unfold js_set at 2. simpl.
    destruct (String.eqb_spec k "__proto__"); [contradiction|].
    assert (own_get k acc = None) as Hnone.
    { apply own_get_none_iff. intros I. unfold keys in Hnd.
      rewrite map_app in Hnd. simpl in Hnd.
      apply NoDup_remove_2 in Hnd. apply Hnd. rewrite in_app_iff. now left. }
    rewrite (own_set_absent _ _ _ Hnone).
    rewrite IH.
    + now rewrite <- app_assoc.
    + now rewrite <- app_assoc.
    + intros I. apply Hp. now right.
Qed.

Lemma assign_all_id (fields : table (RawNode scalar)) :
  NoDup (keys fields) -> ~ In "__proto__" (keys fields) ->
  assign_all fields = fields.
Proof.
  intros Hnd Hp. unfold assign_all. now rewrite assign_all_from.
Qed.

Lemma keys_map_snd {A B} (f : A -> B) (t : table A) :
  keys (map (fun kv => (fst kv, f (snd kv))) t) = keys t.
Proof.
  unfold keys. rewrite map_map. reflexivity.
Qed.

End FlattenFacts.

(** C3 (amended).  The flattener returns the value under [value] as it is
    when [value] is the only key of a mapping, without flattening it again;
    it maps a sequence to the sequence of its flattened elements, any other
    mapping (keys distinct, none of them [__proto__], as [JSON.parse] builds
    them from the parser's output) to the mapping of the flattened values
    under the same keys in the same order, and a scalar to itself.  It is a
    total function of its argument alone. *)
Theorem flattenData_cases :
  forall (scalar : Type),
    (forall x : Flatten.RawNode scalar,
        Flatten.flattenData (Flatten.Mapping [("value", x)]) = x) /\
    (forall elements : list (Flatten.RawNode scalar),
        Flatten.flattenData (Flatten.Arr elements)
        = Flatten.Arr (map Flatten.flattenData elements)) /\
    (forall fields : table (Flatten.RawNode scalar),
        keys fields <> ["value"] ->
        NoDup (keys fields) -> ~ In "__proto__" (keys fields) ->
        Flatten.flattenData (Flatten.Mapping fields)
        = Flatten.Mapping
            (map (fun kv => (fst kv, Flatten.flattenData (snd kv))) fields)) /\
    (forall s : scalar,
        Flatten.flattenData (Flatten.Scalar s) = Flatten.Scalar s).
Proof.
  intros scalar. repeat split.
  - intros fields Hk Hnd Hp.
    assert (Flatten.flattenData (Flatten.Mapping fields)
            = Flatten.Mapping (Flatten.assign_all
                (map (fun kv => (fst kv, Flatten.flattenData (snd kv))) fields)))
      as ->.
    { destruct fields as [|[k v] [|kv fields]]; try reflexivity.
      simpl. destruct (String.eqb_spec k "value") as [->|]; [|reflexivity].
      exfalso. now apply Hk. }
    rewrite assign_all_id; [reflexivity | |]; now rewrite keys_map_snd.
Qed.

(** A mapping with two fields, a sequence and a wrapped scalar below it. *)
Lemma flattenData_cases_witness :
  Flatten.flattenData
    (Flatten.Mapping
       [("room", Flatten.Arr [Flatten.Mapping [("value", Flatten.Scalar 1)]]);
        ("value", Flatten.Scalar 2)])
  = Flatten.Mapping
      [("room", Flatten.Arr [Flatten.Scalar 1]); ("value", Flatten.Scalar 2)].
Proof.
  destruct (flattenData_cases nat) as (Hv & Ha & Hm & Hs).
  rewrite Hm.
  - reflexivity.
  - simpl. congruence.
  - simpl. repeat constructor; simpl; intuition congruence.
  - simpl. intuition congruence.
Defined.

(** C3, as stated, fails: under a [value] wrapper another wrapper is
    returned unopened. *)
Lemma flattenData_value_not_flattened :
  let x := Flatten.Mapping [("value", Flatten.Scalar 1)] in
  Flatten.flattenData (Flatten.Mapping [("value", x)]) = x /\
  Flatten.flattenData x = Flatten.Scalar 1 /\
  Flatten.flattenData (Flatten.Mapping [("value", x)]) <> Flatten.flattenData x.
Proof.
  simpl. repeat split. discriminate.
Qed.

(** Where the value under [value] is a scalar the two readings agree. *)
Lemma flattenData_value_scalar (scalar : Type) (s : scalar) :
  Flatten.flattenData (Flatten.Mapping [("value", Flatten.Scalar s)])
  = Flatten.flattenData (Flatten.Scalar s).
Proof. reflexivity. Qed.

(** ** The conference record *)

(** What [flattenConference] puts in [days]: the start and end dates that
    are there, whatever the day subtrees hold. *)
Lemma flattenConference_days (schedule : Schedule) :
  days (data_conference (parseData schedule))
  = filter_Boolean [raw_start (schedule_conference schedule);
                    raw_end (schedule_conference schedule)].
Proof. reflexivity. Qed.

(** The inline revision takes [days] from the day subtrees. *)
Lemma inline_conference_days (schedule : Schedule) :
  days (Inline.conference_of schedule) = map day_date (schedule_day schedule).
Proof. reflexivity. Qed.

(** C1.  On a three-day schedule the [days] of the conference record are
    the start and end dates, not the dates of the three day subtrees. *)
Theorem conference_days_three_days :
  exists r,
    buildData Samples.three_days = Ok r /\
    days (res_conference r) = ["2025-01-31"; "2025-02-02"] /\
    map day_date (schedule_day Samples.three_days)
    = ["2025-01-31"; "2025-02-01"; "2025-02-02"] /\
    days (res_conference r) <> map day_date (schedule_day Samples.three_days).
Proof.
  eexists. split; [vm_compute; reflexivity|].
  repeat split. vm_compute. discriminate.
Qed.

(** ** Strings *)

Lemma lower_char_not_dollar (c : ascii) :
  Ascii.eqb c "$" = false -> Ascii.eqb (lower_char c) "$" = false.
Proof.
  destruct c as [[] [] [] [] [] [] [] []]; vm_compute; congruence.
Qed.

Lemma dollar_free_toLowerCase (s : string) :
  dollar_free s = true -> dollar_free (toLowerCase s) = true.
Proof.
  induction s as [|c s IH]; simpl; [reflexivity|].
  intros H. apply andb_true_iff in H as [Hc Hs].
  apply negb_true_iff in Hc.
  rewrite (lower_char_not_dollar _ Hc). simpl. now apply IH.
Qed.

Lemma dollar_free_remove_chars (p : ascii -> bool) (s : string) :
  dollar_free s = true -> dollar_free (remove_chars p s) = true.
Proof.
  induction s as [|c s IH]; simpl; [reflexivity|].
  intros H. apply andb_true_iff in H as [Hc Hs].
  destruct (p c); simpl; [now apply IH|].
  rewrite Hc. simpl. now apply IH.
Qed.

Lemma dollar_free_substring_from (n : nat) (s : string) :
  dollar_free s = true -> dollar_free (substring_from n s) = true.
Proof.
  revert s. induction n as [|n IH]; intros s; simpl; [tauto|].
  destruct s as [|c s]; simpl; [reflexivity|].
  intros H. apply andb_true_iff in H as [_ Hs]. now apply IH.
Qed.

(** A replacement text without a dollar sign stands for itself. *)
Lemma substitution_dollar_free (matched before after r : string) :
  dollar_free r = true -> substitution matched before after r = r.
Proof.
  induction r as [|c r IH]; simpl; [reflexivity|].
  intros H. apply andb_true_iff in H as [Hc Hr].
  apply negb_true_iff in Hc. rewrite Hc. f_equal. now apply IH.
Qed.

Lemma append_assoc (a b c : string) : ((a ++ b) ++ c = a ++ (b ++ c))%string.
Proof. induction a as [|x a IH]; simpl; [reflexivity | now rewrite IH]. Qed.

Lemma replace_stream_link (r : string) :
  dollar_free r = true ->
  replace "${ROOM_ID}" r STREAM_LINK
  = ("https://stream.fosdem.org/" ++ r ++ ".m3u8")%string.
Proof.
  intros H. unfold replace.
  change (split_first "${ROOM_ID}" STREAM_LINK)
    with (Some ("https://stream.fosdem.org/", ".m3u8")).
  cbv beta iota. now rewrite substitution_dollar_free.
Qed.

Lemma replace_chat_link (r : string) :
  dollar_free r = true ->
  replace "${ROOM_ID}" r CHAT_LINK
  = ("https://chat.fosdem.org/#/room/#" ++ r ++ ":fosdem.org")%string.
Proof.
  intros H. unfold replace.
  change (split_first "${ROOM_ID}" CHAT_LINK)
    with (Some ("https://chat.fosdem.org/#/room/#", ":fosdem.org")).
  cbv beta iota. now rewrite substitution_dollar_free.
Qed.

(** ** The event classifier *)

Lemma own_get_existsb {V} (k : string) (t : table V) :
  existsb (String.eqb k) (keys t) = match own_get k t with Some _ => true | None => false end.
Proof.
  induction t as [|[k' v] t IH]; simpl; [reflexivity|].
  destruct (String.eqb k k'); simpl; [reflexivity | exact IH].
Qed.

(** Away from the names inherited from [Object.prototype], [getType]
    resolves a type as the taxonomy says. *)
Lemma getType_own (type : string) :
  is_proto type = false ->
  getType type
  = if String.eqb type "lightning" then "lightningtalk"
    else if String.eqb type "lecture" then "keynote"
    else if existsb (String.eqb type)
              ["keynote"; "maintrack"; "devroom"; "lightningtalk"; "other"]
         then type else "other".
Proof.
  intros Hp. unfold getType, js_in, js_get.
  change ["keynote"; "maintrack"; "devroom"; "lightningtalk"; "other"]
    with (keys typeData).
  rewrite own_get_existsb, Hp.
  now destruct (own_get type typeData).
Qed.

(** C6.  The type [constructor] is no key of the taxonomy, yet [in] finds
    it on the prototype of the taxonomy object: [getType] returns it as it
    is instead of [other], the event is accepted under that type, and the
    aggregation then throws on the type table. *)
Theorem getType_inherited_name :
  own_get "constructor" typeData = None /\
  getType "constructor" = "constructor" /\
  (exists e,
      processEvent (Some Samples.inherited_type_event) true "J.1" 1 = Some e /\
      e_type e = "constructor") /\
  processScheduleData
    {| data_conference := flattenConference (Samples.conference_node "" "");
       data_day :=
         [ Samples.day_node 1 "2025-02-01"
             [ Samples.room_node "J.1" [ Samples.inherited_type_event ] ] ] |}
  = TypeError.
Proof.
  repeat split.
  - eexists. split; [vm_compute; reflexivity | reflexivity].
Qed.

(** The inline revision resolves inherited names the same way and knows
    neither [lightning] nor [lecture]. *)
Lemma inline_getType_examples :
  Inline.getType "constructor" = "constructor" /\
  Inline.getType "lightning" = "other" /\
  Inline.getType "lecture" = "other" /\
  Inline.getType "devroom" = "devroom".
Proof. repeat split. Qed.

Lemma processEvent_fields (xmlEvent : option XmlEvent) (isLive : bool)
    (roomName : string) (day : Z) (e : ProcessedEvent) :
  processEvent xmlEvent isLive roomName day = Some e ->
  e_day e = day /\ e_isLive e = isLive /\ e_room e = roomName /\
  e_streams e = buildStreamInfo roomName /\ e_chat e = buildChatInfo roomName /\
  e_trackKey e = trackKey_of (e_track e) /\ e_status e <> canceled /\
  (exists rawType, e_type e = getType rawType).
Proof.
  unfold processEvent. destruct xmlEvent as [xe|]; [|discriminate].
  destruct (text_of (xml_title xe)) as [title|]; [|discriminate].
  destruct (getStatus (toLowerCase title)) eqn:Hs; try discriminate;
    destruct (text_of (xml_type xe)) as [rawType|]; try discriminate;
    destruct (text_of (xml_track xe)) as [track|]; try discriminate;
    destruct (String.eqb (getType rawType) "other" && String.eqb track "stand");
    try discriminate;
    intros [= <-]; simpl; repeat split; try discriminate; now exists rawType.
Qed.

(** For a room name without a dollar sign the links are the templates with
    the room identifier written in: no stream for the prefixes [B.], [I.]
    and [S.], one stream otherwise; a chat link exactly for a capital letter
    followed by a dot. *)
Lemma streams_and_chat_plain (xmlEvent : option XmlEvent) (isLive : bool)
    (roomName : string) (day : Z) (e : ProcessedEvent) :
  processEvent xmlEvent isLive roomName day = Some e ->
  dollar_free roomName = true ->
  e_streams e
  = (if startsWith "B." roomName || startsWith "I." roomName
        || startsWith "S." roomName
     then []
     else [ {| s_href := "https://stream.fosdem.org/"
                         ++ remove_chars is_dot (toLowerCase roomName)
                         ++ ".m3u8";
               s_title := "Stream";
               s_type := "application/vnd.apple.mpegurl" |} ]) /\
  e_chat e
  = (if letter_dot roomName
     then Some ("https://chat.fosdem.org/#/room/#"
                ++ substring_from 2 roomName ++ ":fosdem.org")%string
     else None).
Proof.
  intros He Hd. apply processEvent_fields in He as (_ & _ & _ & -> & -> & _).
  split.
  - unfold buildStreamInfo, isLiveRoom. cbn [existsb].
    rewrite orb_false_r, negb_involutive, orb_assoc.
    destruct (startsWith "B." roomName || startsWith "I." roomName
              || startsWith "S." roomName); [reflexivity|].
    unfold normalizedRoom. rewrite replace_stream_link; [reflexivity|].
    now apply dollar_free_remove_chars, dollar_free_toLowerCase.
  - unfold buildChatInfo. destruct (letter_dot roomName); [|reflexivity].
    rewrite replace_chat_link; [reflexivity|].
    now apply dollar_free_substring_from.
Qed.

(** C7.  In a room named [J.$&] the replacement patterns of
    [String.prototype.replace] are expanded: [$&] brings the marker back
    instead of being written into the link. *)
Theorem streams_and_chat_dollar_room :
  exists e,
    processEvent (Some Samples.plain_event) true Samples.dollar_room 1 = Some e /\
    normalizedRoom Samples.dollar_room = "j$&" /\
    substring_from 2 Samples.dollar_room = "$&" /\
    e_streams e
    = [ {| s_href := "https://stream.fosdem.org/j${ROOM_ID}.m3u8";
           s_title := "Stream";
           s_type := "application/vnd.apple.mpegurl" |} ] /\
    e_chat e = Some "https://chat.fosdem.org/#/room/#${ROOM_ID}:fosdem.org".
Proof.
  eexists. split; [vm_compute; reflexivity|]. repeat split.
Qed.

(** ** Loops and sets *)

Import Summary.

Lemma bind_ok {A B : Type} (c : outcome A) (k : A -> outcome B) (b : B) :
  bind c k = Ok b -> exists a, c = Ok a /\ k a = Ok b.
Proof.
  destruct c as [a| |]; simpl; try discriminate. intros H. now exists a.
Qed.

(** An invariant with a ghost value that every step moves along. *)
Lemma for_each_ghost {A S G : Type} (body : S -> A -> outcome S)
    (step : G -> A -> G) (I : G -> S -> Prop) :
  (forall g s x s', I g s -> body s x = Ok s' -> I (step g x) s') ->
  forall l g s s', I g s -> for_each body l s = Ok s' -> I (fold_left step l g) s'.
Proof.
  intros Hstep l. induction l as [|x l IH]; intros g s s' HI H; simpl in *.
  - now injection H as <-.
  - apply bind_ok in H as (s1 & H1 & H2). eapply IH; [|exact H2].
    eapply Hstep; eassumption.
Qed.

Lemma for_each_inv {A S : Type} (body : S -> A -> outcome S) (P : S -> Prop) :
  (forall s x s', P s -> body s x = Ok s' -> P s') ->
  forall l s s', P s -> for_each body l s = Ok s' -> P s'.
Proof.
  intros Hstep l. induction l as [|x l IH]; intros s s' HP H; simpl in *.
  - now injection H as <-.
  - apply bind_ok in H as (s1 & H1 & H2). eapply IH; [|exact H2].
    eapply Hstep; eassumption.
Qed.

(** Steps that change nothing can be left out of a loop. *)
Lemma for_each_filter {A S : Type} (body : S -> A -> outcome S)
    (keep : A -> bool) :
  (forall s x, keep x = false -> body s x = Ok s) ->
  forall l s, for_each body (filter keep l) s = for_each body l s.
Proof.
  intros Hskip l. induction l as [|x l IH]; intros s; simpl; [reflexivity|].
  destruct (keep x) eqn:E; simpl.
  - destruct (body s x); simpl; auto.
  - rewrite (Hskip s x E). simpl. apply IH.
Qed.

Lemma for_each_ext {A S : Type} (body body' : S -> A -> outcome S) :
  (forall s x, body s x = body' s x) ->
  forall l s, for_each body l s = for_each body' l s.
Proof.
  intros E l. induction l as [|x l IH]; intros s; simpl; [reflexivity|].
  rewrite E. destruct (body' s x); simpl; auto.
Qed.

Lemma for_each_map {A B S : Type} (body : S -> B -> outcome S) (f : A -> B) :
  forall l s, for_each body (map f l) s = for_each (fun s x => body s (f x)) l s.
Proof.
  intros l. induction l as [|x l IH]; intros s; simpl; [reflexivity|].
  destruct (body s (f x)); simpl; auto.
Qed.

Lemma fold_left_app_flat_map {A B : Type} (f : A -> list B) (l : list A)
    (g : list B) :
  fold_left (fun g x => g ++ f x) l g = g ++ flat_map f l.
Proof.
  revert g. induction l as [|x l IH]; intros g; simpl.
  - now rewrite app_nil_r.
  - rewrite IH. now rewrite app_assoc.
Qed.

Section FirstSeen.

Context {A : Type} (eqb : A -> A -> bool).
Hypothesis eqb_spec : forall x y, eqb x y = true <-> x = y.

Lemma eqb_same (x : A) : eqb x x = true.
Proof. now apply eqb_spec. Qed.

Lemma in_first_seen (x : A) (l : list A) : In x (first_seen eqb l) <-> In x l.
Proof.
  induction l as [|a l IH]; simpl; [tauto|].
  rewrite filter_In, IH. split.
  - intros [E|[I _]]; auto.
  - intros [E|I]; auto. destruct (eqb x a) eqn:Exa.
    + apply eqb_spec in Exa. auto.
    + right. split; [assumption | reflexivity].
Qed.

Lemma NoDup_first_seen (l : list A) : NoDup (first_seen eqb l).
Proof.
  induction l as [|a l IH]; simpl; constructor.
  - rewrite filter_In. intros [_ H]. now rewrite eqb_same in H.
  - now apply NoDup_filter.
Qed.

Lemma existsb_eqb (x : A) (l : list A) : existsb (eqb x) l = true <-> In x l.
Proof.
  rewrite existsb_exists. split.
  - intros (y & I & E). apply eqb_spec in E. now subst.
  - intros I. exists x. split; [assumption | apply eqb_same].
Qed.

Lemma existsb_first_seen (x : A) (l : list A) :
  existsb (eqb x) (first_seen eqb l) = existsb (eqb x) l.
Proof.
  apply eq_true_iff_eq. rewrite !existsb_eqb. apply in_first_seen.
Qed.

Lemma first_seen_snoc (l : list A) (x : A) :
  first_seen eqb (l ++ [x])
  = if existsb (eqb x) (first_seen eqb l) then first_seen eqb l
    else first_seen eqb l ++ [x].
Proof.
  rewrite existsb_first_seen.
  induction l as [|a l IH]; simpl; [reflexivity|].
  rewrite IH. destruct (eqb x a) eqn:Exa; simpl.
  - destruct (existsb (eqb x) l); [reflexivity|].
    rewrite filter_app. simpl. rewrite Exa. simpl. now rewrite app_nil_r.
  - destruct (existsb (eqb x) l); [reflexivity|].
    rewrite filter_app. simpl. rewrite Exa. reflexivity.
Qed.

End FirstSeen.

Lemma string_eqb_spec (x y : string) : String.eqb x y = true <-> x = y.
Proof. apply String.eqb_eq. Qed.

Lemma distinct_snoc (l : list string) (x : string) :
  distinct (l ++ [x]) = set_add x (distinct l).
Proof.
  unfold distinct, set_add. apply first_seen_snoc, string_eqb_spec.
Qed.

Lemma filter_snoc {A : Type} (p : A -> bool) (l : list A) (x : A) :
  filter p (l ++ [x]) = if p x then filter p l ++ [x] else filter p l.
Proof.
  rewrite filter_app. simpl. destruct (p x); [reflexivity | apply app_nil_r].
Qed.

Lemma own_get_map_values {A B : Type} (f : A -> B) (t : table A) (k : string) :
  own_get k (map (fun kv => (fst kv, f (snd kv))) t)
  = option_map f (own_get k t).
Proof.
  induction t as [|[k' v] t IH]; simpl; [reflexivity|].
  destruct (String.eqb k k'); [reflexivity | exact IH].
Qed.

Lemma keys_map_values {A B : Type} (f : A -> B) (t : table A) :
  keys (map (fun kv => (fst kv, f (snd kv))) t) = keys t.
Proof. unfold keys. rewrite map_map. reflexivity. Qed.

(** ** One accepted event *)

Lemma z_eqb_spec (x y : Z) : Z.eqb x y = true <-> x = y.
Proof. apply Z.eqb_eq. Qed.

Lemma with_key_snoc_same (l : list ProcessedEvent) (e : ProcessedEvent) :
  with_key (e_trackKey e) (l ++ [e]) = with_key (e_trackKey e) l ++ [e].
Proof.
  unfold with_key. rewrite filter_snoc. now rewrite String.eqb_refl.
Qed.

Lemma with_key_snoc_other (key : string) (l : list ProcessedEvent)
    (e : ProcessedEvent) :
  key <> e_trackKey e -> with_key key (l ++ [e]) = with_key key l.
Proof.
  intros Hne. unfold with_key. rewrite filter_snoc.
  destruct (String.eqb_spec (e_trackKey e) key); [congruence | reflexivity].
Qed.

Lemma of_type_snoc_same (l : list ProcessedEvent) (e : ProcessedEvent) :
  of_type (e_type e) (l ++ [e]) = of_type (e_type e) l ++ [e].
Proof.
  unfold of_type. rewrite filter_snoc. now rewrite String.eqb_refl.
Qed.

Lemma of_type_snoc_other (key : string) (l : list ProcessedEvent)
    (e : ProcessedEvent) :
  key <> e_type e -> of_type key (l ++ [e]) = of_type key l.
Proof.
  intros Hne. unfold of_type. rewrite filter_snoc.
  destruct (String.eqb_spec (e_type e) key); [congruence | reflexivity].
Qed.

Lemma track_of_none (key : string) (l : list ProcessedEvent) :
  track_of key l = None -> with_key key l = [].
Proof.
  unfold track_of. destruct (with_key key l); [reflexivity | discriminate].
Qed.

Lemma track_of_snoc_same (l : list ProcessedEvent) (e : ProcessedEvent)
    (track : TrackInfo) :
  track_of (e_trackKey e) l = Some track ->
  track_of (e_trackKey e) (l ++ [e])
  = Some {| k_id := k_id track; k_name := k_name track;
            k_type := k_type track; k_room := k_room track;
            k_day := if existsb (Z.eqb (e_day e)) (k_day track) then k_day track
                     else k_day track ++ [e_day e];
            k_eventCount := S (k_eventCount track) |}.
Proof.
  unfold track_of. rewrite with_key_snoc_same.
  destruct (with_key (e_trackKey e) l) as [|first rest]; [discriminate|].
  intros [= <-].
  change ((first :: rest) ++ [e]) with (first :: (rest ++ [e])) at 1.
  cbv iota. cbn [k_id k_name k_type k_room k_day k_eventCount].
  change (first :: rest ++ [e]) with ((first :: rest) ++ [e]).
  rewrite map_app, length_app. cbn [map].
  rewrite (first_seen_snoc Z.eqb z_eqb_spec).
  cbn [List.length]. rewrite Nat.add_1_r. reflexivity.
Qed.

(** The track table after one more accepted event. *)
Lemma track_step (tracks tracks1 tracks' : table TrackInfo)
    (l : list ProcessedEvent) (e : ProcessedEvent) :
  (forall key, own_get key tracks = track_of key l) ->
  touch_track e (e_room e) (e_day e) tracks = Ok tracks1 ->
  count_track_event (e_trackKey e) tracks1 = Ok tracks' ->
  (forall key, own_get key tracks' = track_of key (l ++ [e])) /\
  (NoDup (keys tracks) -> NoDup (keys tracks')).
Proof.
  intros Hinv Ht Hc. unfold touch_track in Ht.
  destruct (js_get tracks (e_trackKey e)) as [track| |] eqn:Hget.
  - (* the track exists *)
    apply js_get_own in Hget.
    assert (exists track1,
      own_get (e_trackKey e) tracks1 = Some track1 /\
      (NoDup (keys tracks) -> NoDup (keys tracks1)) /\
      k_id track1 = k_id track /\ k_name track1 = k_name track /\
      k_type track1 = k_type track /\ k_room track1 = k_room track /\
      k_eventCount track1 = k_eventCount track /\
      k_day track1
      = (if existsb (Z.eqb (e_day e)) (k_day track) then k_day track
         else k_day track ++ [e_day e]) /\
      forall key, key <> e_trackKey e -> own_get key tracks1 = own_get key tracks)
      as (track1 & Hget1 & Hnd & Hid & Hname & Htype & Hroom & Hcount & Hday
          & Hother).
    { destruct (existsb (Z.eqb (e_day e)) (k_day track)).
      - injection Ht as <-. exists track. repeat split; auto.
      - injection Ht as <-. eexists. split; [apply own_get_own_set_eq|].
        simpl. repeat split; auto.
        + apply NoDup_keys_own_set.
        + intros key Hne. now apply own_get_own_set_ne. }
    unfold count_track_event in Hc.
    apply js_get_own in Hget1. rewrite Hget1 in Hc. injection Hc as <-.
    split; [|intros H; now apply NoDup_keys_own_set, Hnd].
    intros key. destruct (String.eqb_spec key (e_trackKey e)) as [->|Hne].
    + rewrite own_get_own_set_eq.
      rewrite Hinv in Hget. rewrite (track_of_snoc_same _ _ _ Hget).
      now rewrite Hid, Hname, Htype, Hroom, Hcount, Hday.
    + rewrite own_get_own_set_ne by assumption. rewrite Hother by assumption.
      rewrite Hinv. unfold track_of. now rewrite with_key_snoc_other.
  - discriminate.
  - (* first event of the track *)
    apply js_get_missing in Hget as [Hnone Hp].
    injection Ht as <-. rewrite (js_set_not_proto _ _ _ Hp) in Hc.
    unfold count_track_event in Hc.
    assert (js_get
              (own_set (e_trackKey e)
                 {| k_id := e_trackKey e; k_name := e_track e;
                    k_type := e_type e; k_room := e_room e;
                    k_day := [e_day e]; k_eventCount := 0 |} tracks)
              (e_trackKey e)
            = Own {| k_id := e_trackKey e; k_name := e_track e;
                     k_type := e_type e; k_room := e_room e;
                     k_day := [e_day e]; k_eventCount := 0 |}) as Hget1.
    { apply js_get_own, own_get_own_set_eq. }
    rewrite Hget1 in Hc. injection Hc as <-. simpl.
    split; [|intros H; now apply NoDup_keys_own_set, NoDup_keys_own_set].
    intros key. destruct (String.eqb_spec key (e_trackKey e)) as [->|Hne].
    + rewrite own_get_own_set_eq. unfold track_of.
      rewrite with_key_snoc_same.
      rewrite Hinv in Hnone. apply track_of_none in Hnone. rewrite Hnone.
      reflexivity.
    + rewrite !own_get_own_set_ne by assumption.
      rewrite Hinv. unfold track_of. now rewrite with_key_snoc_other.
Qed.

(** The type table after one more accepted event. *)
Lemma types_step (types types' : table TypeInfo) (l : list ProcessedEvent)
    (e : ProcessedEvent) :
  (forall key info, own_get key types = Some info -> type_follows l key info) ->
  update_type_stats (e_type e) (e_room e) (buildingId_of (e_room e)) types
  = Ok types' ->
  keys types' = keys types /\
  (forall key info, own_get key types' = Some info ->
     type_follows (l ++ [e]) key info) /\
  (forall key info', own_get key types' = Some info' ->
     exists info, own_get key types = Some info /\
       t_trackCount info' = t_trackCount info).
Proof.
  intros Hinv H. unfold update_type_stats in H.
  destruct (js_get types (e_type e)) as [info0| |] eqn:Hget.
  - apply js_get_own in Hget. injection H as <-.
    split; [eapply keys_own_set_present; eassumption|]. split.
    + intros key info. destruct (String.eqb_spec key (e_type e)) as [->|Hne].
      * rewrite own_get_own_set_eq. intros [= <-].
        destruct (Hinv _ _ Hget) as (Hid & Hcount & Hrooms & Hbuildings).
        unfold type_follows. simpl.
        rewrite of_type_snoc_same, !map_app, length_app. simpl.
        rewrite !distinct_snoc, Nat.add_1_r.
        rewrite Hcount, Hrooms, Hbuildings. auto.
      * rewrite own_get_own_set_ne by assumption. intros Hk.
        destruct (Hinv _ _ Hk) as (Hid & Hcount & Hrooms & Hbuildings).
        unfold type_follows. rewrite of_type_snoc_other by assumption. auto.
    + intros key info'. destruct (String.eqb_spec key (e_type e)) as [->|Hne].
      * rewrite own_get_own_set_eq. intros [= <-]. now exists info0.
      * rewrite own_get_own_set_ne by assumption. intros Hk. now exists info'.
  - destruct (String.eqb (e_type e) "__proto__"); discriminate.
  - injection H as <-. apply js_get_missing in Hget as [Hnone _].
    split; [reflexivity|]. split.
    + intros key info Hk.
      assert (key <> e_type e) as Hne by (intros ->; congruence).
      destruct (Hinv _ _ Hk) as (Hid & Hcount & Hrooms & Hbuildings).
      unfold type_follows. rewrite of_type_snoc_other by assumption. auto.
    + intros key info' Hk. now exists info'.
Qed.

Lemma types_step_plain (types types' : table TypeInfo) (type roomName b : string) :
  update_type_stats type roomName b types = Ok types' ->
  is_proto type = false \/ own_get type types <> None.
Proof.
  unfold update_type_stats.
  destruct (js_get types type) as [info0| |] eqn:Hget.
  - apply js_get_own in Hget. intros _. right. congruence.
  - destruct (String.eqb type "__proto__"); discriminate.
  - apply js_get_missing in Hget as [_ Hp]. now left.
Qed.

(** ** Inside a day *)

Lemma track_of_snoc_some (l : list ProcessedEvent) (e : ProcessedEvent) :
  track_of (e_trackKey e) (l ++ [e]) <> None.
Proof.
  unfold track_of. rewrite with_key_snoc_same.
  destruct (with_key (e_trackKey e) l); discriminate.
Qed.

(** [getType] returns a name that [in] finds on the taxonomy object. *)
Lemma getType_in (type : string) : js_in (getType type) typeData = true.
Proof.
  unfold getType.
  destruct (String.eqb type "lightning"); [reflexivity|].
  destruct (String.eqb type "lecture"); [reflexivity|].
  destruct (js_in type typeData) eqn:E; [exact E | reflexivity].
Qed.

(** Where the type table takes an accepted event without throwing, the
    type of the event is one of its keys. *)
Lemma accepted_type_own (types types' : table TypeInfo)
    (type roomName b : string) :
  js_in type typeData = true ->
  keys types = keys typeData ->
  update_type_stats type roomName b types = Ok types' ->
  In type (keys typeData).
Proof.
  intros Hin Hk H. apply types_step_plain in H as [Hp|Hown].
  - unfold js_in, js_get in Hin. rewrite Hp in Hin.
    destruct (own_get type typeData) eqn:E; [|discriminate].
    eapply own_get_some_key; eassumption.
  - rewrite <- Hk. destruct (own_get type types) eqn:E; [|congruence].
    eapply own_get_some_key; eassumption.
Qed.

Lemma record_event_within (conference : Conference) (days : list Day)
    (day : Day) (l : list ProcessedEvent) (e : ProcessedEvent)
    (acc acc' : Tables * DayInfo) :
  within_day conference days day l acc ->
  js_in (e_type e) typeData = true ->
  record_event (e_room e) (buildingId_of (e_room e)) (e_day e) e acc = Ok acc' ->
  within_day conference days day (l ++ [e]) acc'.
Proof.
  intros [[Htk Hbk Hty Hat Htr Hnd Hev] Hday Hdt Hconf Hless] Hin H.
  destruct acc as [w di]. unfold record_event in H. cbn [fst snd] in *.
  apply bind_ok in H as (rooms' & Hrooms & H).
  apply bind_ok in H as (tracks1 & Htouch & H).
  apply bind_ok in H as (tracks' & Hcount & H).
  apply bind_ok in H as (types' & Htypes & H).
  injection H as <-.
  destruct (types_step _ _ _ _ Hty Htypes) as (Hkeys & Hty' & _).
  destruct (track_step _ _ _ _ _ Htr Htouch Hcount) as [Htr' Hnd'].
  constructor; cbn [fst snd w_types w_buildings w_days w_tracks w_events
                    w_conference w_rooms].
  - rewrite app_assoc. constructor; cbn [w_types w_buildings w_days w_tracks
                                         w_events w_conference w_rooms].
    + congruence.
    + assumption.
    + assumption.
    + intros e0 He0.
      apply in_app_or in He0 as [He0|[<-|[]]]; [now apply Hat|].
      apply (accepted_type_own _ _ _ _ _ Hin Htk Htypes).
    + assumption.
    + now apply Hnd'.
    + rewrite fold_left_app. cbn [fold_left]. now rewrite Hev.
  - destruct Hday as [Hd1 Hd2 Hd3 Hd4 Hd5 Hd6 Hd7 Hd8 Hd9].
    constructor; cbn [d_date d_start d_end d_id d_name d_eventCount d_rooms
                      d_buildings d_tracks]; try assumption.
    + rewrite length_app, Hd6. cbn [List.length]. now rewrite Nat.add_1_r.
    + rewrite map_app. cbn [map]. now rewrite distinct_snoc, Hd7.
    + rewrite map_app. cbn [map]. now rewrite distinct_snoc, Hd8.
    + rewrite map_app. cbn [map]. now rewrite distinct_snoc, Hd9.
  - assumption.
  - assumption.
  - intros Hnil. exfalso.
    apply (track_of_snoc_some (accepted days ++ l) e).
    rewrite <- Htr', Hnil. reflexivity.
Qed.

Lemma process_xmlEvent_within (conference : Conference) (days : list Day)
    (day : Day) (roomName : string) (l : list ProcessedEvent)
    (xmlEvent : option XmlEvent) (acc acc' : Tables * DayInfo) :
  within_day conference days day l acc ->
  process_xmlEvent roomName (buildingId_of roomName) (day_index day) acc xmlEvent
  = Ok acc' ->
  within_day conference days day
    (l ++ match processEvent xmlEvent (day_index day =? 1)%Z roomName
                  (day_index day) with
          | Some e => [e]
          | None => []
          end) acc'.
Proof.
  intros Hin H. unfold process_xmlEvent in H.
  destruct (processEvent xmlEvent (day_index day =? 1)%Z roomName (day_index day))
    as [e|] eqn:He.
  - apply processEvent_fields in He as (Hd & _ & Hr & _ & _ & _ & _ & ty & Hty).
    rewrite <- Hr, <- Hd in H. eapply record_event_within; try eassumption.
    rewrite Hty. apply getType_in.
  - injection H as <-. now rewrite app_nil_r.
Qed.

(** Neither the room table nor the counters of the buildings take part in
    the invariant of a day. *)
Lemma within_day_rooms_buildings (conference : Conference) (days : list Day)
    (day : Day) (l : list ProcessedEvent) (w : Tables) (di : DayInfo)
    (rooms' : table RoomInfo) (buildings' : table BuildingStats) :
  within_day conference days day l (w, di) ->
  keys buildings' = keys (w_buildings w) ->
  within_day conference days day l
    ({| w_conference := w_conference w; w_types := w_types w;
        w_buildings := buildings'; w_days := w_days w; w_rooms := rooms';
        w_tracks := w_tracks w; w_events := w_events w |}, di).
Proof.
  intros [[Htk Hbk Hty Hat Htr Hnd Hev] Hday Hdt Hconf Hless] Hk.
  cbn [fst snd] in *.
  constructor; cbn [fst snd w_types w_buildings w_days w_tracks w_events
                    w_conference w_rooms]; try assumption.
  constructor; cbn [w_types w_buildings w_days w_tracks w_events
                    w_conference w_rooms]; try assumption.
  congruence.
Qed.

Lemma update_building_stats_shape (roomName buildingId : string)
    (w w' : Tables) :
  update_building_stats roomName buildingId w = Ok w' ->
  exists buildings',
    keys buildings' = keys (w_buildings w) /\
    w' = {| w_conference := w_conference w; w_types := w_types w;
            w_buildings := buildings'; w_days := w_days w;
            w_rooms := w_rooms w; w_tracks := w_tracks w;
            w_events := w_events w |}.
Proof.
  unfold update_building_stats.
  destruct (js_get (w_buildings w) buildingId) as [b| |] eqn:Hb;
    try discriminate.
  - destruct (js_get (w_rooms w) roomName) as [r| |]; try discriminate.
    intros [= <-]. eexists. split; [|reflexivity].
    apply js_get_own in Hb. eapply keys_own_set_present; eassumption.
  - intros [= <-]. exists (w_buildings w). split; [reflexivity|].
    now destruct w.
Qed.

Lemma process_room_within (conference : Conference) (days : list Day)
    (day : Day) (l : list ProcessedEvent) (room : Room)
    (acc acc' : Tables * DayInfo) :
  within_day conference days day l acc ->
  process_room (day_index day) acc room = Ok acc' ->
  within_day conference days day (l ++ accepted_in_room (day_index day) room) acc'.
Proof.
  intros Hin H. destruct acc as [w di]. unfold process_room in H.
  apply bind_ok in H as ([w1 di1] & Hloop & H).
  apply bind_ok in H as (w2 & Hb & H). injection H as <-.
  cbn [fst snd] in *.
  apply update_building_stats_shape in Hb as (buildings' & Hk & ->).
  apply within_day_rooms_buildings with (rooms' := w_rooms w1); [|exact Hk].
  assert (within_day conference days day
            (l ++ accepted_in_room (day_index day) room) (w1, di1)) as Hw1.
  { unfold accepted_in_room. rewrite <- fold_left_app_flat_map.
    eapply (for_each_ghost
              (process_xmlEvent (getRoomName (room_name room))
                 (buildingId_of (getRoomName (room_name room))) (day_index day))
              (fun g x => g ++ match processEvent x (day_index day =? 1)%Z
                                       (getRoomName (room_name room))
                                       (day_index day) with
                               | Some e => [e]
                               | None => []
                               end)
              (within_day conference days day)); [| |exact Hloop].
    - intros g s x s' Hg Hs. eapply process_xmlEvent_within; eassumption.
    - apply (within_day_rooms_buildings _ _ _ _ w di
               (ensure_room (getRoomName (room_name room)) (room_slug room)
                  (buildingId_of (getRoomName (room_name room)))
                  (floor_of (getRoomName (room_name room))) (w_rooms w))
               (w_buildings w) Hin eq_refl). }
  destruct w1; exact Hw1.
Qed.

(** ** Between the days *)

Lemma recount_types_get (tracks : table TrackInfo) (types : table TypeInfo)
    (key : string) :
  own_get key (recount_types tracks types)
  = option_map (recount_type tracks) (own_get key types).
Proof.
  unfold recount_types. destruct types as [|kv types]; [reflexivity|].
  change (nonempty (keys (kv :: types))) with true. cbv iota.
  apply own_get_map_values.
Qed.

Lemma keys_recount_types (tracks : table TrackInfo) (types : table TypeInfo) :
  keys (recount_types tracks types) = keys types.
Proof.
  unfold recount_types. destruct (nonempty (keys types)); [|reflexivity].
  apply keys_map_values.
Qed.

Lemma finish_day_info (day : Day) (di : DayInfo) :
  day_follows day (accepted_in_day day) di -> finish_day di = day_info_of day.
Proof.
  intros [H1 H2 H3 H4 H5 H6 H7 H8 H9]. unfold finish_day, day_info_of, set_size.
  rewrite H1, H2, H3, H4, H5, H6, H7, H8, H9. reflexivity.
Qed.

Lemma accepted_snoc (days : list Day) (day : Day) :
  accepted (days ++ [day]) = accepted days ++ accepted_in_day day.
Proof.
  unfold accepted. rewrite flat_map_app. cbn [flat_map]. now rewrite app_nil_r.
Qed.

Lemma between_days_start (conference : Conference) :
  between_days conference [] (initial_tables conference).
Proof.
  assert (forall key info, own_get key initial_types = Some info ->
            type_follows [] key info /\ type_recounted [] info) as Hinit.
  { intros key info H. apply own_get_in in H. vm_compute in H.
    repeat (destruct H as [H|H]; [injection H as <- <-; repeat split|]).
    destruct H. }
  constructor; cbn [initial_tables w_types w_buildings w_days w_tracks w_events
                    w_conference].
  - constructor; cbn [initial_tables w_types w_buildings w_days w_tracks
                      w_events w_conference]; try reflexivity.
    + intros key info H. now apply Hinit.
    + intros e [].
    + constructor.
  - intros key info H. now apply (Hinit key).
  - reflexivity.
  - reflexivity.
Qed.

Lemma process_day_between (conference : Conference) (days : list Day)
    (day : Day) (w w' : Tables) :
  between_days conference days w ->
  process_day w day = Ok w' ->
  between_days conference (days ++ [day]) w'.
Proof.
  intros [Hf Hrec Hdt Hconf] H. unfold process_day in H.
  apply bind_ok in H as ([w1 di1] & Hloop & H). injection H as <-.
  cbn [fst snd] in *.
  assert (within_day conference days day [] (w, new_dayInfo day)) as Hstart.
  { constructor; cbn [fst snd]; try assumption.
    - now rewrite app_nil_r.
    - constructor; reflexivity.
    - intros Hnil key info Hk. destruct (Hrec _ _ Hk) as (_ & _ & Htc).
      rewrite Htc, Hnil. reflexivity. }
  assert (within_day conference days day (accepted_in_day day) (w1, di1)) as Hin.
  { unfold accepted_in_day. destruct (nonempty (day_room day)) eqn:Hne.
    - change (flat_map (accepted_in_room (day_index day)) (day_room day))
        with ([] ++ flat_map (accepted_in_room (day_index day)) (day_room day)).
      rewrite <- fold_left_app_flat_map.
      eapply (for_each_ghost (process_room (day_index day))
                (fun g room => g ++ accepted_in_room (day_index day) room)
                (within_day conference days day)); [|exact Hstart|exact Hloop].
      intros g s x s' Hg Hs. eapply process_room_within; eassumption.
    - injection Hloop as <- <-. destruct (day_room day); [|discriminate].
      exact Hstart. }
  destruct Hin as [[Htk Hbk Hty Hat Htr Hnd Hev] Hday Hdt1 Hconf1 Hless].
  cbn [fst snd] in *.
  constructor; cbn [w_types w_buildings w_days w_tracks w_events w_conference].
  - rewrite accepted_snoc.
    constructor; cbn [w_types w_buildings w_days w_tracks w_events
                      w_conference]; try assumption.
    + now rewrite keys_recount_types.
    + intros key info. rewrite recount_types_get.
      destruct (own_get key (w_types w1)) as [info0|] eqn:Hk; [|discriminate].
      intros [= <-]. destruct (Hty _ _ Hk) as (H1 & H2 & H3 & H4).
      repeat split; assumption.
  - intros key info. rewrite recount_types_get.
    destruct (own_get key (w_types w1)) as [info0|] eqn:Hk; [|discriminate].
    intros [= <-]. unfold type_recounted, recount_type.
    cbn [t_roomCount t_buildingCount t_trackCount t_rooms t_buildings t_id].
    repeat split.
    destruct (w_tracks w1) as [|kv tracks] eqn:Htracks; [|reflexivity].
    cbn. eapply Hless; [reflexivity | exact Hk].
  - unfold days_of. rewrite fold_left_app. cbn [fold_left].
    rewrite (finish_day_info _ _ Hday). fold (days_of days). now rewrite Hdt1.
  - assumption.
Qed.

Lemma fold_left_snoc_id {A : Type} (l g : list A) :
  fold_left (fun g x => g ++ [x]) l g = g ++ l.
Proof.
  revert g. induction l as [|x l IH]; intros g; simpl.
  - now rewrite app_nil_r.
  - rewrite IH. now rewrite <- app_assoc.
Qed.

(** The tables after the last day follow the accepted events of the whole
    document. *)
Lemma aggregate_between (data : ParsedData) (w : Tables) :
  aggregate data = Ok w ->
  between_days (data_conference data) (data_day data) w.
Proof.
  unfold aggregate. intros H.
  change (data_day data) with ([] ++ data_day data) at 1.
  rewrite <- fold_left_snoc_id.
  eapply (for_each_ghost process_day (fun g day => g ++ [day])
            (between_days (data_conference data)));
    [|apply between_days_start|exact H].
  intros g s x s' Hg Hs. eapply process_day_between; eassumption.
Qed.

(** ** Day keys *)

Lemma int_of_number_to_string (n : Z) :
  NilZero.int_of_string (number_to_string n) = Some (Z.to_int n).
Proof.
  unfold number_to_string.
  apply NilZero.isi; destruct n; simpl; try discriminate;
    intros [= E]; now apply DecimalPos.Unsigned.to_uint_nonnil in E.
Qed.

Lemma number_to_string_inj (n m : Z) :
  number_to_string n = number_to_string m -> n = m.
Proof.
  intros H. apply DecimalZ.to_int_inj.
  pose proof (int_of_number_to_string n) as Hn.
  rewrite H, int_of_number_to_string in Hn. now injection Hn.
Qed.

Lemma number_to_string_not_proto (n : Z) : number_to_string n <> "__proto__".
Proof.
  intros H. pose proof (int_of_number_to_string n) as Hn.
  rewrite H in Hn. discriminate.
Qed.

Lemma days_of_snoc (days : list Day) (day : Day) :
  days_of (days ++ [day])
  = own_set (number_to_string (day_index day)) (day_info_of day) (days_of days).
Proof.
  unfold days_of. rewrite fold_left_app. cbn [fold_left]. unfold js_set.
  destruct (String.eqb_spec (number_to_string (day_index day)) "__proto__")
    as [E|_]; [|reflexivity].
  now apply number_to_string_not_proto in E.
Qed.

(** The day table holds, under the index of a day, the record of the last
    day subtree with that index. *)
Lemma days_of_last (days1 days2 : list Day) (day : Day) :
  (forall d, In d days2 -> day_index d <> day_index day) ->
  own_get (number_to_string (day_index day)) (days_of (days1 ++ day :: days2))
  = Some (day_info_of day).
Proof.
  induction days2 as [|d days2 IH] using rev_ind; intros Hlater.
  - rewrite days_of_snoc. apply own_get_own_set_eq.
  - rewrite app_comm_cons, app_assoc, days_of_snoc.
    rewrite own_get_own_set_ne.
    + apply IH. intros d' I. apply Hlater. rewrite in_app_iff. now left.
    + intros E. apply number_to_string_inj in E.
      apply (Hlater d); [|now symmetry]. rewrite in_app_iff. right. now left.
Qed.

(** ** The accepted events of a document *)

Lemma accepted_in_room_iff (dayIndex : Z) (room : Room) (e : ProcessedEvent) :
  In e (accepted_in_room dayIndex room) <->
  exists xmlEvent,
    In xmlEvent (events_of room) /\
    processEvent xmlEvent (dayIndex =? 1)%Z (getRoomName (room_name room))
      dayIndex = Some e.
Proof.
  unfold accepted_in_room. rewrite in_flat_map. split.
  - intros (x & I & H). exists x. split; [exact I|].
    destruct (processEvent x _ _ _) as [e'|]; [|destruct H].
    destruct H as [->|[]]. reflexivity.
  - intros (x & I & H). exists x. split; [exact I|]. rewrite H. now left.
Qed.

Lemma accepted_iff (days : list Day) (e : ProcessedEvent) :
  In e (accepted days) <->
  exists day room xmlEvent,
    In day days /\ In room (day_room day) /\ In xmlEvent (events_of room) /\
    processEvent xmlEvent (day_index day =? 1)%Z (getRoomName (room_name room))
      (day_index day) = Some e.
Proof.
  unfold accepted, accepted_in_day. rewrite in_flat_map. split.
  - intros (day & Id & H). apply in_flat_map in H as (room & Ir & H).
    apply accepted_in_room_iff in H as (x & Ix & H). now exists day, room, x.
  - intros (day & room & x & Id & Ir & Ix & H). exists day. split; [exact Id|].
    apply in_flat_map. exists room. split; [exact Ir|].
    apply accepted_in_room_iff. now exists x.
Qed.

Lemma processScheduleData_ok (data : ParsedData) (r : BuildDataResult) :
  processScheduleData data = Ok r ->
  exists w, aggregate data = Ok w /\ r = cleanup w /\
            between_days (data_conference data) (data_day data) w.
Proof.
  unfold processScheduleData. intros H. apply bind_ok in H as (w & Hw & H).
  injection H as <-. exists w.
  split; [exact Hw|]. split; [reflexivity|]. now apply aggregate_between.
Qed.

(** ** The static tables *)

(** C5.  Whatever the events are, the session-type table of a result has
    exactly the five declared keys and so has the building table. *)
Theorem static_tables_keep_their_keys :
  forall (data : ParsedData) (r : BuildDataResult),
    processScheduleData data = Ok r ->
    keys (res_types r)
    = ["keynote"; "maintrack"; "devroom"; "lightningtalk"; "other"] /\
    keys (res_buildings r) = ["J"; "H"; "AW"; "U"; "K"].
Proof.
  intros data r H.
  apply processScheduleData_ok in H as (w & _ & -> & [Hf _ _ _]).
  destruct Hf as [Htk Hbk _ _ _ _ _]. unfold cleanup. cbn [res_types res_buildings].
  rewrite keys_map_values, Htk, Hbk. split; reflexivity.
Qed.

Lemma static_tables_keep_their_keys_witness :
  exists r,
    buildData Samples.weekend = Ok r /\
    keys (res_types r)
    = ["keynote"; "maintrack"; "devroom"; "lightningtalk"; "other"] /\
    keys (res_buildings r) = ["J"; "H"; "AW"; "U"; "K"].
Proof.
  eexists. split.
  - vm_compute. reflexivity.
  - apply (static_tables_keep_their_keys (parseData Samples.weekend)).
    vm_compute. reflexivity.
Defined.

(** ** Tracks *)

(** C8.  A track record of the result belongs to the accepted events that
    carry its key, the key being the track name in small letters without
    white space: there is a first such event, which gives the record its
    name, type and room; the day list holds the days of these events, each
    once, in the order of first appearance; the event count is their
    number. *)
Theorem track_records_follow_events :
  forall (data : ParsedData) (r : BuildDataResult) (key : string)
         (track : TrackInfo),
    processScheduleData data = Ok r ->
    In (key, track) (res_tracks r) ->
    (forall e, In e (accepted (data_day data)) ->
       e_trackKey e = remove_chars is_space (toLowerCase (e_track e))) /\
    exists first rest,
      with_key key (accepted (data_day data)) = first :: rest /\
      k_id track = key /\
      k_name track = e_track first /\
      k_type track = e_type first /\
      k_room track = e_room first /\
      k_day track = first_seen Z.eqb (map e_day (first :: rest)) /\
      NoDup (k_day track) /\
      k_eventCount track = List.length (first :: rest).
Proof.
  intros data r key track H Hin.
  apply processScheduleData_ok in H as (w & _ & -> & [Hf _ _ _]).
  destruct Hf as [_ _ _ _ Htr Hnd _]. cbn [cleanup res_tracks] in Hin.
  split.
  - intros e He. apply accepted_iff in He as (day & room & x & _ & _ & _ & He).
    now apply processEvent_fields in He.
  - apply (in_own_get _ _ _ Hnd) in Hin. rewrite Htr in Hin.
    unfold track_of in Hin.
    destruct (with_key key (accepted (data_day data))) as [|first rest];
      [discriminate|].
    injection Hin as <-. exists first, rest.
    cbn [k_id k_name k_type k_room k_day k_eventCount].
    repeat split.
    exact (NoDup_first_seen Z.eqb z_eqb_spec (map e_day (first :: rest))).
Qed.

Lemma track_records_follow_events_witness :
  exists r track,
    processScheduleData (parseData Samples.weekend) = Ok r /\
    In ("goperformance", track) (res_tracks r) /\
    k_name track = "Go  Performance" /\
    k_room track = "J.1" /\
    k_day track = [1%Z; 2%Z] /\
    k_eventCount track = 3.
Proof.
  assert (exists r track, processScheduleData (parseData Samples.weekend) = Ok r /\
                          In ("goperformance", track) (res_tracks r))
    as (r & track & Hr & Hin).
  { eexists. eexists. split; [vm_compute; reflexivity|].
    right. left. reflexivity. }
  destruct (track_records_follow_events (parseData Samples.weekend) r
              "goperformance" track Hr Hin)
    as (_ & first & rest & Hw & _ & Hname & _ & Hroom & Hday & _ & Hcount).
  vm_compute in Hw. injection Hw as <- <-.
  exists r, track. repeat split; assumption.
Defined.

(** ** The record finished for a day *)

Import DayRecord.

Lemma for_each_app {A S : Type} (body : S -> A -> outcome S) (l1 l2 : list A)
    (s s' : S) :
  for_each body (l1 ++ l2) s = Ok s' ->
  exists s1, for_each body l1 s = Ok s1 /\ for_each body l2 s1 = Ok s'.
Proof.
  revert s. induction l1 as [|x l1 IH]; intros s H; cbn [app for_each] in *.
  - now exists s.
  - apply bind_ok in H as (s0 & H0 & H). apply IH in H as (s1 & H1 & H2).
    exists s1. split; [|exact H2]. now rewrite H0.
Qed.

(** A day is processed by the loop over its rooms, and then the finished
    record is stored under the index. *)
Lemma process_day_room_loop (w w' : Tables) (day : Day) :
  process_day w day = Ok w' ->
  exists acc,
    room_loop w day = Ok acc /\
    w_days w'
    = js_set (number_to_string (day_index day)) (finish_day (snd acc))
        (w_days (fst acc)).
Proof.
  unfold process_day. intros H. apply bind_ok in H as (acc & Hloop & H).
  injection H as <-. now exists acc.
Qed.

Lemma days_between (conference : Conference) (days : list Day) (w : Tables) :
  for_each process_day days (initial_tables conference) = Ok w ->
  between_days conference days w.
Proof.
  intros H. change days with ([] ++ days) at 1.
  rewrite <- fold_left_snoc_id.
  eapply (for_each_ghost process_day (fun g day => g ++ [day])
            (between_days conference));
    [|apply between_days_start|exact H].
  intros g s x s' Hg Hs. eapply process_day_between; eassumption.
Qed.

Lemma room_loop_within (conference : Conference) (days : list Day) (day : Day)
    (w : Tables) (acc : Tables * DayInfo) :
  between_days conference days w ->
  room_loop w day = Ok acc ->
  within_day conference days day (accepted_in_day day) acc.
Proof.
  intros [Hf Hrec Hdt Hconf] Hloop. unfold room_loop in Hloop.
  assert (within_day conference days day [] (w, new_dayInfo day)) as Hstart.
  { constructor; cbn [fst snd]; try assumption.
    - now rewrite app_nil_r.
    - constructor; reflexivity.
    - intros Hnil key info Hk. destruct (Hrec _ _ Hk) as (_ & _ & Htc).
      rewrite Htc, Hnil. reflexivity. }
  unfold accepted_in_day. destruct (nonempty (day_room day)) eqn:Hne.
  - change (flat_map (accepted_in_room (day_index day)) (day_room day))
      with ([] ++ flat_map (accepted_in_room (day_index day)) (day_room day)).
    rewrite <- fold_left_app_flat_map.
    eapply (for_each_ghost (process_room (day_index day))
              (fun g room => g ++ accepted_in_room (day_index day) room)
              (within_day conference days day)); [|exact Hstart|exact Hloop].
    intros g s x s' Hg Hs. eapply process_room_within; eassumption.
  - injection Hloop as <-. destruct (day_room day); [|discriminate].
    exact Hstart.
Qed.

(** In a run that returns, the loop reaches every day subtree, and the
    record it finishes there follows the events accepted in the subtree. *)
Lemma finished_dayInfo_in_run (data : ParsedData) (w : Tables)
    (days1 days2 : list Day) (day : Day) :
  aggregate data = Ok w ->
  data_day data = days1 ++ day :: days2 ->
  exists before,
    for_each process_day days1 (initial_tables (data_conference data))
    = Ok before /\
    finished_dayInfo before day = Ok (day_info_of day).
Proof.
  unfold aggregate. intros H Hdays. rewrite Hdays in H.
  apply for_each_app in H as (before & Hbefore & H).
  cbn [for_each] in H. apply bind_ok in H as (after & Hday & _).
  apply process_day_room_loop in Hday as (acc & Hloop & _).
  exists before. split; [exact Hbefore|].
  unfold finished_dayInfo. rewrite Hloop. cbn [bind]. f_equal.
  apply finish_day_info.
  apply (room_loop_within _ _ _ _ _ (days_between _ _ _ Hbefore) Hloop).
Qed.

(** ** The unrecognized building *)

Lemma buildingId_of_no_capital (name : string) :
  upper_initial name = false -> buildingId_of name = "".
Proof.
  unfold buildingId_of, upper_initial.
  destruct name as [|c name]; [reflexivity|]. intros Hc.
  assert (startsWith "AW" (String c name) = false) as ->.
  { cbn [startsWith]. destruct (Ascii.eqb_spec "A" c) as [<-|]; [|reflexivity].
    discriminate. }
  now rewrite Hc.
Qed.

(** An element of a duplicate-free list counts for one. *)
Lemma length_without (l : list string) (x : string) :
  NoDup l -> In x l ->
  List.length l = S (List.length (filter (fun y => negb (String.eqb y x)) l)).
Proof.
  induction l as [|a l IH]; intros Hnd Hin; [destruct Hin|].
  inversion Hnd as [|? ? Hnot Hnd']; subst. cbn [filter].
  destruct (String.eqb_spec a x) as [->|Hne]; cbn [negb List.length].
  - f_equal. clear IH Hin Hnd Hnd'. induction l as [|b l IH]; [reflexivity|].
    cbn [filter]. destruct (String.eqb_spec b x) as [->|_].
    + exfalso. apply Hnot. now left.
    + cbn [negb List.length]. f_equal. apply IH. intros I. apply Hnot. now right.
  - f_equal. apply IH; [assumption|]. destruct Hin as [E|I]; [congruence|exact I].
Qed.

Lemma in_distinct (x : string) (l : list string) : In x (distinct l) <-> In x l.
Proof. apply in_first_seen, string_eqb_spec. Qed.

Lemma NoDup_distinct (l : list string) : NoDup (distinct l).
Proof. apply NoDup_first_seen, string_eqb_spec. Qed.

(** C10.  A room whose name does not begin with a capital letter gets the
    empty string for building id.  When such a room hosts an accepted
    event, the empty string is in the building set of the record the loop
    finishes for the day and in the building set of the session type of
    the event, and the building counts of that day record and of the type
    in the result count it as one building next to the recognized ones. *)
Theorem unrecognized_building_is_counted :
  forall (data : ParsedData) (r : BuildDataResult) (days1 days2 : list Day)
         (day : Day) (room : Room) (e : ProcessedEvent),
    processScheduleData data = Ok r ->
    data_day data = days1 ++ day :: days2 ->
    In room (day_room day) ->
    upper_initial (getRoomName (room_name room)) = false ->
    In e (accepted_in_room (day_index day) room) ->
    buildingId_of (getRoomName (room_name room)) = "" /\
    exists (before w : Tables) (di : DayInfo) (ti : TypeInfo),
      for_each process_day days1 (initial_tables (data_conference data))
      = Ok before /\
      finished_dayInfo before day = Ok di /\
      In "" (d_buildings di) /\
      d_buildings di = distinct (map building_of (accepted_in_day day)) /\
      d_buildingCount di
      = S (List.length (filter (fun b => negb (String.eqb b "")) (d_buildings di))) /\
      ds_buildingCount (strip_day di) = d_buildingCount di /\
      aggregate data = Ok w /\ r = cleanup w /\
      own_get (e_type e) (w_types w) = Some ti /\
      In "" (t_buildings ti) /\
      t_buildings ti
      = distinct (map building_of (of_type (e_type e) (accepted (data_day data)))) /\
      own_get (e_type e) (res_types r) = Some (strip_type ti) /\
      ts_buildingCount (strip_type ti)
      = S (List.length (filter (fun b => negb (String.eqb b "")) (t_buildings ti))).
Proof.
  intros data r days1 days2 day room e H Hdays Hroom Hup He.
  pose proof (buildingId_of_no_capital _ Hup) as Hb. split; [exact Hb|].
  apply processScheduleData_ok in H as (w & Hw & -> & [Hf Hrec _ _]).
  destruct Hf as [Htk _ Hty Hat _ _ _].
  destruct (finished_dayInfo_in_run _ _ _ _ _ Hw Hdays) as (before & Hbefore & Hdi).
  assert (building_of e = "") as Hbe.
  { unfold building_of. apply accepted_in_room_iff in He as (x & _ & He).
    apply processEvent_fields in He as (_ & _ & -> & _). exact Hb. }
  assert (In e (accepted_in_day day)) as Hday.
  { unfold accepted_in_day. apply in_flat_map. now exists room. }
  assert (In e (accepted (data_day data))) as Hall.
  { unfold accepted. apply in_flat_map. exists day. split; [|exact Hday].
    rewrite Hdays, in_app_iff. right. now left. }
  assert (In "" (distinct (map building_of (accepted_in_day day)))) as Hd.
  { apply in_distinct. rewrite <- Hbe. now apply in_map. }
  assert (In "" (distinct (map building_of
                    (of_type (e_type e) (accepted (data_day data)))))) as Ht.
  { apply in_distinct. rewrite <- Hbe. apply in_map. unfold of_type.
    apply filter_In. split; [exact Hall | apply String.eqb_refl]. }
  destruct (own_get (e_type e) (w_types w)) as [ti|] eqn:Hti.
  2:{ exfalso. apply own_get_none_iff in Hti. apply Hti. rewrite Htk.
      now apply Hat. }
  destruct (Hty _ _ Hti) as (_ & _ & _ & Hset).
  destruct (Hrec _ _ Hti) as (_ & Hcount & _).
  exists before, w, (day_info_of day), ti.
  cbn [cleanup res_types]. rewrite !own_get_map_values, Hti.
  cbn [option_map strip_day strip_type ds_buildingCount ts_buildingCount
       day_info_of d_buildings d_buildingCount].
  repeat split; try assumption.
  - apply length_without; [apply NoDup_distinct | exact Hd].
  - now rewrite Hset.
  - rewrite Hcount. unfold set_size. rewrite Hset.
    apply length_without; [apply NoDup_distinct | exact Ht].
Qed.

(** The information desk of the sample weekend: on the first day one
    building for the keynote room and one for the desk. *)
Lemma unrecognized_building_is_counted_witness :
  exists r di ts,
    processScheduleData (parseData Samples.weekend) = Ok r /\
    finished_dayInfo
      (initial_tables (data_conference (parseData Samples.weekend)))
      Samples.saturday = Ok di /\
    d_buildings di = ["J"; ""] /\ d_buildingCount di = 2 /\
    own_get "other" (res_types r) = Some ts /\ ts_buildingCount ts = 1.
Proof.
  assert (exists r, processScheduleData (parseData Samples.weekend) = Ok r) as [r Hr]
    by (eexists; vm_compute; reflexivity).
  assert (exists e, In e (accepted_in_room 1 Samples.desk_room) /\
                    e_type e = "other") as (e & He & Htype)
    by (eexists; split; [left; vm_compute; reflexivity | reflexivity]).
  destruct (unrecognized_building_is_counted (parseData Samples.weekend) r
              [] [Samples.sunday] Samples.saturday Samples.desk_room e)
    as (_ & before & w & di & ti & Hbefore & Hdi & _ & Hdset & Hdc & _ & _ & _
        & _ & _ & Htset & Hts & Htc).
  - exact Hr.
  - reflexivity.
  - right. left. reflexivity.
  - reflexivity.
  - exact He.
  - cbn [for_each] in Hbefore. injection Hbefore as <-.
    exists r, di, (strip_type ti).
    rewrite Htype in Hts. split; [exact Hr|]. split; [exact Hdi|].
    split; [rewrite Hdset; vm_compute; reflexivity|].
    split; [rewrite Hdc, Hdset; vm_compute; reflexivity|].
    split; [exact Hts|]. rewrite Htc, Htset, Htype. vm_compute. reflexivity.
Defined.

(** ** Canceled events *)

Lemma lower_char_idempotent (c : ascii) : lower_char (lower_char c) = lower_char c.
Proof.
  destruct c as [[] [] [] [] [] [] [] []]; vm_compute; reflexivity.
Qed.

Lemma toLowerCase_idempotent (s : string) :
  toLowerCase (toLowerCase s) = toLowerCase s.
Proof.
  induction s as [|c s IH]; simpl; [reflexivity|].
  now rewrite lower_char_idempotent, IH.
Qed.

Lemma canceled_is_excluded (xmlEvent : option XmlEvent) (isLive : bool)
    (roomName : string) (day : Z) :
  canceled_title xmlEvent = true ->
  processEvent xmlEvent isLive roomName day = None.
Proof.
  unfold canceled_title, processEvent.
  destruct xmlEvent as [event|]; [|discriminate].
  destruct (xml_title event) as [title|]; [|discriminate].
  intros Hc. unfold text_of. destruct (truthy title); [|reflexivity].
  unfold getStatus. rewrite !toLowerCase_idempotent, Hc. reflexivity.
Qed.

Lemma accepted_not_canceled (xmlEvent : option XmlEvent) (isLive : bool)
    (roomName : string) (day : Z) (e : ProcessedEvent) :
  processEvent xmlEvent isLive roomName day = Some e ->
  canceled_title xmlEvent = false.
Proof.
  intros He. destruct (canceled_title xmlEvent) eqn:Hc; [|reflexivity].
  rewrite (canceled_is_excluded _ isLive roomName day Hc) in He. discriminate.
Qed.

Lemma events_of_without_canceled (room : Room) :
  events_of (room_without_canceled room)
  = filter (fun x => negb (canceled_title x)) (events_of room)
  \/ (room_event room = None /\
      events_of (room_without_canceled room) = events_of room).
Proof.
  unfold events_of, room_without_canceled. cbn [room_event].
  destruct (room_event room) as [event|]; [left | right; now split].
  cbn [as_list]. induction (as_list event) as [|x l IH]; [reflexivity|].
  cbn [filter map]. destruct (canceled_title (Some x)); cbn [negb map].
  - exact IH.
  - now rewrite IH.
Qed.

Lemma process_room_without_canceled (dayIndex : Z) (acc : Tables * DayInfo)
    (room : Room) :
  process_room dayIndex acc (room_without_canceled room)
  = process_room dayIndex acc room.
Proof.
  unfold process_room. destruct acc as [result dayInfo].
  assert (room_name (room_without_canceled room) = room_name room) as ->
    by reflexivity.
  assert (room_slug (room_without_canceled room) = room_slug room) as ->
    by reflexivity.
  destruct (events_of_without_canceled room) as [->|[_ ->]]; [|reflexivity].
  rewrite for_each_filter; [reflexivity|].
  intros s x Hx. apply negb_false_iff in Hx. unfold process_xmlEvent.
  now rewrite canceled_is_excluded.
Qed.

Lemma process_day_without_canceled (result : Tables) (day : Day) :
  process_day result (day_without_canceled day) = process_day result day.
Proof.
  unfold process_day. cbn [day_without_canceled day_index day_room].
  assert (new_dayInfo (day_without_canceled day) = new_dayInfo day) as ->
    by reflexivity.
  assert (nonempty (map room_without_canceled (day_room day))
          = nonempty (day_room day)) as -> by now destruct (day_room day).
  rewrite for_each_map.
  rewrite (for_each_ext _ (process_room (day_index day)));
    [reflexivity|].
  intros s x. apply process_room_without_canceled.
Qed.

Lemma in_own_set {V : Type} (t : table V) (k k' : string) (v v' : V) :
  In (k, v) (own_set k' v' t) -> (k, v) = (k', v') \/ In (k, v) t.
Proof.
  induction t as [|[k0 v0] t IH]; simpl.
  - intros [E|[]]. left. now symmetry.
  - destruct (String.eqb_spec k' k0) as [->|Hne]; simpl.
    + intros [E|I]; [left; now symmetry | right; now right].
    + intros [E|I]; [right; now left|].
      destruct (IH I) as [E|I']; [now left | right; now right].
Qed.

Lemma in_event_table (l : list ProcessedEvent) (t : table ProcessedEvent)
    (id : string) (e : ProcessedEvent) :
  In (id, e) (fold_left (fun t e => js_set (e_id e) e t) l t) ->
  In (id, e) t \/ (In e l /\ e_id e = id).
Proof.
  revert t. induction l as [|x l IH]; intros t; simpl; [now left|].
  intros H. apply IH in H as [H|[H E]].
  - unfold js_set in H. destruct (String.eqb (e_id x) "__proto__"); [now left|].
    apply in_own_set in H as [[= -> ->]|H]; [right | now left].
    split; [now left | reflexivity].
  - right. split; [now right | exact E].
Qed.

(** C4.  An event whose title says [canceled], in any case of letters, is
    rejected by the classifier; the run over a document is the run over
    the document without these events, so they reach no table and no
    counter; and every entry of the event table is the processed form of
    an event node of the document whose title does not say [canceled]. *)
Theorem canceled_events_leave_no_trace :
  forall (data : ParsedData),
    (forall xmlEvent isLive roomName day,
        canceled_title xmlEvent = true ->
        processEvent xmlEvent isLive roomName day = None) /\
    processScheduleData (without_canceled data) = processScheduleData data /\
    (forall r id e,
        processScheduleData data = Ok r ->
        In (id, e) (res_events r) ->
        exists day room xmlEvent,
          In day (data_day data) /\ In room (day_room day) /\
          In xmlEvent (events_of room) /\
          canceled_title xmlEvent = false /\
          processEvent xmlEvent (day_index day =? 1)%Z
            (getRoomName (room_name room)) (day_index day) = Some e /\
          e_id e = id).
Proof.
  intros data. split; [|split].
  - intros. now apply canceled_is_excluded.
  - unfold processScheduleData, aggregate, without_canceled.
    cbn [data_day data_conference]. rewrite for_each_map.
    rewrite (for_each_ext _ process_day); [reflexivity|].
    intros s x. apply process_day_without_canceled.
  - intros r id e H Hin.
    apply processScheduleData_ok in H as (w & _ & -> & [Hf _ _ _]).
    destruct Hf as [_ _ _ _ _ _ Hev]. cbn [cleanup res_events] in Hin.
    rewrite Hev in Hin. apply in_event_table in Hin as [[]|[Hin Hid]].
    apply accepted_iff in Hin as (day & room & x & Id & Ir & Ix & He).
    exists day, room, x. repeat split; try assumption.
    eapply accepted_not_canceled; eassumption.
Qed.

(** The canceled talk of the sample weekend. *)
Lemma canceled_events_leave_no_trace_witness :
  canceled_title (Some (Samples.event_node "3" "Session Canceled" "devroom"
                          "Go Performance")) = true /\
  processEvent (Some (Samples.event_node "3" "Session Canceled" "devroom"
                        "Go Performance")) true "J.1" 1 = None /\
  processScheduleData (without_canceled (parseData Samples.weekend))
  = processScheduleData (parseData Samples.weekend) /\
  exists r, processScheduleData (parseData Samples.weekend) = Ok r /\ own_get "3" (res_events r) = None.
Proof.
  destruct (canceled_events_leave_no_trace (parseData Samples.weekend))
    as (Hnone & Hsame & _).
  split; [reflexivity|]. split; [now apply Hnone|]. split; [exact Hsame|].
  eexists. split; vm_compute; reflexivity.
Defined.

(** ** Building counters *)

(** C2.  A room of building J that is open on two days, with one accepted
    event a day: one room record and two accepted events, yet the building
    ends with a room count of 2 and an event count of 3.  The counters are
    advanced once per room element, the second time with the running total
    of the room. *)
Theorem building_counters_same_room_twice :
  exists r,
    buildData Samples.same_room_twice = Ok r /\
    own_get "J" (res_buildings r)
    = Some {| b_name := "J"; b_roomCount := 2; b_trackCount := 0;
              b_eventCount := 3 |} /\
    List.length
      (filter (fun room => String.eqb (r_buildingId room) "J")
         (values (res_rooms r))) = 1 /\
    List.length
      (filter (fun e => String.eqb (building_of e) "J")
         (accepted (schedule_day Samples.same_room_twice))) = 2.
Proof.
  eexists. split; [vm_compute; reflexivity|]. repeat split.
Qed.

(** ** Memo caches and repeated runs *)

Lemma memoize_sound {R : Type} (nullish : R -> bool) (fn : string -> R)
    (cache : Memo.Cache R) (arg : string) :
  Memo.cache_sound nullish fn cache ->
  fst (Memo.memoize nullish fn cache arg) = fn arg /\
  Memo.cache_sound nullish fn (snd (Memo.memoize nullish fn cache arg)).
Proof.
  intros Hs. unfold Memo.memoize. cbn [fst snd].
  assert (match own_get arg cache with
          | Some v => if nullish v then fn arg else v
          | None => fn arg
          end = fn arg) as ->.
  { destruct (own_get arg cache) as [v|] eqn:Hget; [|reflexivity].
    destruct (nullish v) eqn:Hn; [reflexivity|]. now apply Hs. }
  split; [reflexivity|]. intros arg' v.
  destruct (String.eqb_spec arg' arg) as [->|Hne].
  - rewrite own_get_own_set_eq. now intros [= <-].
  - rewrite own_get_own_set_ne by assumption. apply Hs.
Qed.

Lemma yields_ret {A : Type} (a : A) : Memo.yields (Memo.ret a) a.
Proof. intros c Hc. now split. Qed.

Lemma yields_bind {A B : Type} (m : Memo.M A) (k : A -> Memo.M B) (a : A) (b : B) :
  Memo.yields m a -> Memo.yields (k a) b -> Memo.yields (Memo.bindM m k) b.
Proof.
  intros Hm Hk c Hc. unfold Memo.bindM.
  destruct (Hm c Hc) as [Ha Hc']. destruct (m c) as [a' c']. cbn [fst snd] in *.
  subst a'. now apply Hk.
Qed.

Lemma getRoomName_yields (name : string) :
  Memo.yields (Memo.getRoomName name) (getRoomName name).
Proof.
  intros c [H1 H2 H3]. unfold Memo.getRoomName.
  destruct (memoize_sound (fun _ => false) getRoomName (Memo.roomNames c) name H1)
    as [Hv Hc].
  destruct (Memo.memoize _ _ _ _) as [v cache]. cbn [fst snd] in *.
  split; [exact Hv|]. now constructor.
Qed.

Lemma getLinkType_yields (url : string) :
  Memo.yields (Memo.getLinkType url) (getLinkType url).
Proof.
  intros c [H1 H2 H3]. unfold Memo.getLinkType.
  destruct (memoize_sound Memo.is_null getLinkType (Memo.linkTypes c) url H2)
    as [Hv Hc].
  destruct (Memo.memoize _ _ _ _) as [v cache]. cbn [fst snd] in *.
  split; [exact Hv|]. now constructor.
Qed.

Lemma getStatus_yields (title : string) :
  Memo.yields (Memo.getStatus title) (getStatus title).
Proof.
  intros c [H1 H2 H3]. unfold Memo.getStatus.
  destruct (memoize_sound (fun _ => false) getStatus (Memo.statuses c) title H3)
    as [Hv Hc].
  destruct (Memo.memoize _ _ _ _) as [v cache]. cbn [fst snd] in *.
  split; [exact Hv|]. now constructor.
Qed.

Lemma mapM_yields {A B : Type} (f : A -> Memo.M B) (g : A -> B) (l : list A) :
  (forall x, Memo.yields (f x) (g x)) ->
  Memo.yields (Memo.mapM f l) (map g l).
Proof.
  intros Hf. induction l as [|x l IH]; cbn [Memo.mapM map].
  - apply yields_ret.
  - eapply yields_bind; [apply Hf|].
    eapply yields_bind; [apply IH|]. apply yields_ret.
Qed.

Lemma processLinks_yields (links : option (one_or_many XmlLink)) :
  Memo.yields (Memo.processLinks links) (processLinks links).
Proof.
  destruct links as [link|]; cbn [Memo.processLinks processLinks].
  - apply mapM_yields. intros x. unfold Memo.processLink.
    eapply yields_bind; [apply getLinkType_yields|]. apply yields_ret.
  - apply yields_ret.
Qed.

Lemma processEvent_yields (event : option XmlEvent) (isLive : bool)
    (roomName : string) (day : Z) :
  Memo.yields (Memo.processEvent event isLive roomName day)
    (processEvent event isLive roomName day).
Proof.
  unfold Memo.processEvent, processEvent.
  destruct event as [event|]; [|apply yields_ret].
  destruct (text_of (xml_title event)) as [title|]; [|apply yields_ret].
  eapply yields_bind; [apply getStatus_yields|].
  destruct (getStatus (toLowerCase title)); try apply yields_ret;
    destruct (text_of (xml_type event)) as [rawType|]; try apply yields_ret;
    destruct (text_of (xml_track event)) as [track|]; try apply yields_ret;
    destruct (String.eqb (getType rawType) "other" && String.eqb track "stand");
    try apply yields_ret;
    (eapply yields_bind; [apply processLinks_yields | apply yields_ret]).
Qed.

Lemma for_each_yields {A S : Type} (body : S -> A -> Memo.M (outcome S))
    (body' : S -> A -> outcome S) (l : list A) (s : S) :
  (forall s x, Memo.yields (body s x) (body' s x)) ->
  Memo.yields (Memo.for_each body l s) (for_each body' l s).
Proof.
  intros Hb. revert s. induction l as [|x l IH]; intros s;
    cbn [Memo.for_each for_each].
  - apply yields_ret.
  - eapply yields_bind; [apply Hb|].
    destruct (body' s x); cbn [bind]; [apply IH | apply yields_ret..].
Qed.

Lemma process_xmlEvent_yields (roomName buildingId : string) (dayIndex : Z)
    (acc : Tables * DayInfo) (xmlEvent : option XmlEvent) :
  Memo.yields (Memo.process_xmlEvent roomName buildingId dayIndex acc xmlEvent)
    (process_xmlEvent roomName buildingId dayIndex acc xmlEvent).
Proof.
  unfold Memo.process_xmlEvent, process_xmlEvent.
  eapply yields_bind; [apply processEvent_yields|].
  destruct (processEvent _ _ _ _); apply yields_ret.
Qed.

Lemma process_room_yields (dayIndex : Z) (acc : Tables * DayInfo) (room : Room) :
  Memo.yields (Memo.process_room dayIndex acc room) (process_room dayIndex acc room).
Proof.
  unfold Memo.process_room, process_room. destruct acc as [result dayInfo].
  eapply yields_bind; [apply getRoomName_yields|].
  eapply yields_bind.
  - apply for_each_yields. intros s x. apply process_xmlEvent_yields.
  - apply yields_ret.
Qed.

Lemma process_day_yields (result : Tables) (day : Day) :
  Memo.yields (Memo.process_day result day) (process_day result day).
Proof.
  unfold Memo.process_day, process_day.
  eapply yields_bind; [|apply yields_ret].
  destruct (nonempty (day_room day)); [|apply yields_ret].
  apply for_each_yields. intros s x. apply process_room_yields.
Qed.

(** On sound caches the run with caches returns what the run without them
    returns. *)
Lemma processScheduleData_yields (data : ParsedData) :
  Memo.yields (Memo.processScheduleData data) (processScheduleData data).
Proof.
  unfold Memo.processScheduleData, processScheduleData, aggregate.
  eapply yields_bind; [|apply yields_ret].
  apply for_each_yields. intros s x. apply process_day_yields.
Qed.

Lemma no_caches_sound : Memo.sound Memo.no_caches.
Proof. constructor; intros arg v; discriminate. Qed.

(** C9.  Two runs over the same input return the same outcome: the second
    run starts from the memo caches the first one left and still returns
    what the first returned, table by table, counter by counter, in the
    same order of keys and list elements.  The caches are the only state of
    the module that outlives a run; they may hold entries of earlier runs. *)
Theorem rerun_is_identical :
  forall (data : ParsedData) (c : Memo.Caches),
    Memo.sound c ->
    fst (Memo.processScheduleData data (snd (Memo.processScheduleData data c)))
    = fst (Memo.processScheduleData data c) /\
    fst (Memo.processScheduleData data c) = processScheduleData data.
Proof.
  intros data c Hc.
  destruct (processScheduleData_yields data c Hc) as [H1 Hc1].
  destruct (processScheduleData_yields data _ Hc1) as [H2 _].
  split; congruence.
Qed.

(** Two runs over the sample weekend in a fresh module. *)
Lemma rerun_is_identical_witness :
  fst (Memo.processScheduleData (parseData Samples.weekend)
         (snd (Memo.processScheduleData (parseData Samples.weekend)
                 Memo.no_caches)))
  = fst (Memo.processScheduleData (parseData Samples.weekend) Memo.no_caches) /\
  fst (Memo.processScheduleData (parseData Samples.weekend) Memo.no_caches)
  = processScheduleData (parseData Samples.weekend).
Proof.
  apply (rerun_is_identical (parseData Samples.weekend) Memo.no_caches).
  constructor; intros arg v; discriminate.
Defined.

(** ** When the run returns *)

Lemma for_each_progress {A S : Type} (body : S -> A -> outcome S)
    (I : S -> Prop) (P : A -> Prop) :
  (forall s x, I s -> P x -> exists s', body s x = Ok s' /\ I s') ->
  forall l s, I s -> Forall P l -> exists s', for_each body l s = Ok s' /\ I s'.
Proof.
  intros Hstep l. induction l as [|x l IH]; intros s HI HP; cbn [for_each].
  - now exists s.
  - inversion HP as [|? ? Hx Hl]; subst.
    destruct (Hstep s x HI Hx) as (s1 & -> & HI1). cbn [bind]. now apply IH.
Qed.

Lemma capital_not_inherited (name : string) :
  upper_initial name = true -> is_proto name = false.
Proof.
  intros Hup. destruct (is_proto name) eqn:E; [|reflexivity].
  apply existsb_eqb_in in E. unfold protoNames in E. cbn [In] in E.
  repeat (destruct E as [<-|E]; [discriminate Hup|]). destruct E.
Qed.

Lemma ensure_room_present (roomName slug buildingId : string)
    (floor : option string) (rooms : table RoomInfo) :
  js_get (ensure_room roomName slug buildingId floor rooms) roomName <> Missing.
Proof.
  unfold ensure_room. destruct (js_get rooms roomName) eqn:Hget;
    try (rewrite Hget; discriminate).
  apply js_get_missing in Hget as [_ Hp]. rewrite (js_set_not_proto _ _ _ Hp).
  unfold js_get. now rewrite own_get_own_set_eq.
Qed.

Lemma record_event_returns (e : ProcessedEvent) (w : Tables) (di : DayInfo) :
  js_get (w_rooms w) (e_room e) <> Missing ->
  plain_names e ->
  exists acc',
    record_event (e_room e) (buildingId_of (e_room e)) (e_day e) e (w, di)
    = Ok acc' /\
    js_get (w_rooms (fst acc')) (e_room e) <> Missing /\
    w_buildings (fst acc') = w_buildings w.
Proof.
  intros Hroom (Hty & Htk & Hname). unfold record_event.
  assert (exists rooms', count_room_event (e_room e) (w_rooms w) = Ok rooms' /\
                         js_get rooms' (e_room e) <> Missing)
    as (rooms' & -> & Hroom').
  { unfold count_room_event.
    destruct (js_get (w_rooms w) (e_room e)) as [r| |] eqn:Hget.
    - eexists. split; [reflexivity|]. unfold js_get.
      now rewrite own_get_own_set_eq.
    - destruct (String.eqb_spec (e_room e) "__proto__"); [contradiction|].
      exists (w_rooms w). split; [reflexivity|]. now rewrite Hget.
    - contradiction. }
  assert (exists tracks1 track,
            touch_track e (e_room e) (e_day e) (w_tracks w) = Ok tracks1 /\
            own_get (e_trackKey e) tracks1 = Some track)
    as (tracks1 & track & -> & Htrack).
  { unfold touch_track, js_get. rewrite Htk.
    destruct (own_get (e_trackKey e) (w_tracks w)) as [track|] eqn:Hget.
    - destruct (existsb (Z.eqb (e_day e)) (k_day track)).
      + now exists (w_tracks w), track.
      + eexists. eexists. split; [reflexivity|]. apply own_get_own_set_eq.
    - rewrite (js_set_not_proto _ _ _ Htk). eexists. eexists.
      split; [reflexivity|]. apply own_get_own_set_eq. }
  cbn [bind]. unfold count_track_event, js_get. rewrite Htrack. cbn [bind].
  unfold update_type_stats, js_get. rewrite Hty.
  destruct (own_get (e_type e) (w_types w)); cbn [bind];
    (eexists; split; [reflexivity | now split]).
Qed.

Lemma building_branches_own (roomName : string) (w : Tables) :
  keys (w_buildings w) = keys buildings ->
  js_get (w_rooms w) roomName <> Missing ->
  exists w',
    update_building_stats roomName (buildingId_of roomName) w = Ok w' /\
    keys (w_buildings w') = keys buildings.
Proof.
  intros Hk Hroom. unfold update_building_stats.
  destruct (js_get (w_buildings w) (buildingId_of roomName)) as [b| |] eqn:Hb.
  - apply js_get_own in Hb.
    assert (upper_initial roomName = true) as Hup.
    { destruct (upper_initial roomName) eqn:E; [reflexivity|].
      apply buildingId_of_no_capital in E. rewrite E in Hb.
      apply own_get_some_key in Hb. rewrite Hk in Hb.
      cbn in Hb. intuition discriminate. }
    apply capital_not_inherited in Hup.
    destruct (js_get (w_rooms w) roomName) as [r| |] eqn:Hr.
    + eexists. split; [reflexivity|]. cbn [w_buildings].
      now rewrite (keys_own_set_present _ _ _ _ Hb).
    + apply js_get_inherited in Hr as [_ Hr]. congruence.
    + contradiction.
  - apply js_get_inherited in Hb as [Hnone Hp]. exfalso.
    destruct (upper_initial roomName) eqn:E.
    + unfold buildingId_of in Hp. destruct (startsWith "AW" roomName);
        [discriminate|].
      destruct roomName as [|c s]; [discriminate|]. cbn [upper_initial] in E.
      rewrite E in Hp.
      apply (capital_not_inherited (String c EmptyString)) in E. congruence.
    + apply buildingId_of_no_capital in E. rewrite E in Hp. discriminate.
  - now exists w.
Qed.

Lemma process_room_returns (dayIndex : Z) (acc : Tables * DayInfo) (room : Room) :
  keys (w_buildings (fst acc)) = keys buildings ->
  (forall e, In e (accepted_in_room dayIndex room) -> plain_names e) ->
  exists acc',
    process_room dayIndex acc room = Ok acc' /\
    keys (w_buildings (fst acc')) = keys buildings.
Proof.
  intros Hk Hplain. destruct acc as [w di]. unfold process_room.
  cbn [fst] in Hk.
  set (roomName := getRoomName (room_name room)) in *.
  destruct (for_each_progress
              (process_xmlEvent roomName (buildingId_of roomName) dayIndex)
              (fun acc => js_get (w_rooms (fst acc)) roomName <> Missing /\
                          keys (w_buildings (fst acc)) = keys buildings)
              (fun x => forall e,
                 processEvent x (dayIndex =? 1)%Z roomName dayIndex = Some e ->
                 plain_names e))
    with (l := events_of room)
         (s := ({| w_conference := w_conference w; w_types := w_types w;
                   w_buildings := w_buildings w; w_days := w_days w;
                   w_rooms := ensure_room roomName (room_slug room)
                                (buildingId_of roomName) (floor_of roomName)
                                (w_rooms w);
                   w_tracks := w_tracks w; w_events := w_events w |}, di))
    as (acc1 & -> & Hroom1 & Hk1).
  - intros [w0 di0] x [Hr0 Hk0] Hx. unfold process_xmlEvent.
    destruct (processEvent x (dayIndex =? 1)%Z roomName dayIndex) as [e|] eqn:He.
    + pose proof (Hx e eq_refl) as Hpl.
      apply processEvent_fields in He as (Hd & _ & Hr & _).
      cbn [fst] in *. rewrite <- Hr in Hr0.
      destruct (record_event_returns e w0 di0 Hr0 Hpl) as (acc' & Hok & Hr' & Hb').
      rewrite Hr, Hd in Hok. exists acc'. split; [exact Hok|].
      rewrite Hr in Hr'. split; [exact Hr' | congruence].
    + exists (w0, di0). now split.
  - cbn [fst w_rooms w_buildings]. split; [apply ensure_room_present | exact Hk].
  - apply Forall_forall. intros x Hx e He. apply Hplain.
    apply accepted_in_room_iff. now exists x.
  - cbn [bind].
    destruct (building_branches_own roomName (fst acc1) Hk1 Hroom1)
      as (w' & -> & Hk'). cbn [bind]. eexists. split; [reflexivity|]. exact Hk'.
Qed.

Lemma process_day_returns (w : Tables) (day : Day) :
  keys (w_buildings w) = keys buildings ->
  (forall e, In e (accepted_in_day day) -> plain_names e) ->
  exists w', process_day w day = Ok w' /\ keys (w_buildings w') = keys buildings.
Proof.
  intros Hk Hplain. unfold process_day.
  assert (exists acc,
            (if nonempty (day_room day)
             then for_each (process_room (day_index day)) (day_room day)
                    (w, new_dayInfo day)
             else Ok (w, new_dayInfo day)) = Ok acc /\
            keys (w_buildings (fst acc)) = keys buildings) as (acc & -> & Hk').
  { destruct (nonempty (day_room day)); [|now exists (w, new_dayInfo day)].
    apply (for_each_progress (process_room (day_index day))
             (fun acc => keys (w_buildings (fst acc)) = keys buildings)
             (fun room => forall e,
                In e (accepted_in_room (day_index day) room) -> plain_names e)).
    - intros s x Hs Hx. now apply process_room_returns.
    - exact Hk.
    - apply Forall_forall. intros room Hroom e He. apply Hplain.
      unfold accepted_in_day. apply in_flat_map. now exists room. }
  cbn [bind]. eexists. split; [reflexivity | exact Hk'].
Qed.

(** The run returns a result for every document whose accepted events keep
    clear of the names inherited from [Object.prototype]. *)
Lemma processScheduleData_returns (data : ParsedData) :
  (forall e, In e (accepted (data_day data)) -> plain_names e) ->
  exists r, processScheduleData data = Ok r.
Proof.
  intros Hplain. unfold processScheduleData, aggregate.
  destruct (for_each_progress process_day
              (fun w => keys (w_buildings w) = keys buildings)
              (fun day => forall e, In e (accepted_in_day day) -> plain_names e))
    with (l := data_day data) (s := initial_tables (data_conference data))
    as (w & -> & _).
  - intros s x Hs Hx. now apply process_day_returns.
  - reflexivity.
  - apply Forall_forall. intros day Hday e He. apply Hplain.
    unfold accepted. apply in_flat_map. now exists day.
  - cbn [bind]. now eexists.
Qed.

(** ** Rooms, buildings and key lists along the run *)

Import Ledger.

Lemma named_snoc (name : string) (vs : list Visit) (v : Visit) :
  named name (vs ++ [v])
  = if String.eqb (visit_name v) name then named name vs ++ [v] else named name vs.
Proof. unfold named. now rewrite filter_snoc. Qed.

Lemma in_room_snoc (name : string) (l : list ProcessedEvent) (e : ProcessedEvent) :
  in_room name (l ++ [e])
  = if String.eqb (e_room e) name then in_room name l ++ [e] else in_room name l.
Proof. unfold in_room. now rewrite filter_snoc. Qed.

Lemma in_room_nil (name : string) (l : list ProcessedEvent) :
  (forall e, In e l -> e_room e <> name) -> in_room name l = [].
Proof.
  intros H. unfold in_room. induction l as [|e l IH]; [reflexivity|].
  cbn [filter]. destruct (String.eqb_spec (e_room e) name) as [E|_].
  - exfalso. apply (H e); [now left | exact E].
  - apply IH. intros e' I. apply H. now right.
Qed.

Lemma named_nil (name : string) (vs : list Visit) :
  named name vs = [] -> forall v, In v vs -> visit_name v <> name.
Proof.
  intros H v I E. assert (In v (named name vs)) as Hin.
  { unfold named. apply filter_In. split; [exact I|]. now apply String.eqb_eq. }
  rewrite H in Hin. destruct Hin.
Qed.

Lemma room_of_other_visit (name : string) (vs : list Visit) (v : Visit)
    (l : list ProcessedEvent) :
  visit_name v <> name -> room_of name (vs ++ [v]) l = room_of name vs l.
Proof.
  intros Hne. unfold room_of. rewrite named_snoc.
  destruct (String.eqb_spec (visit_name v) name); [contradiction | reflexivity].
Qed.

Lemma room_of_other_event (name : string) (vs : list Visit)
    (l : list ProcessedEvent) (e : ProcessedEvent) :
  e_room e <> name -> room_of name vs (l ++ [e]) = room_of name vs l.
Proof.
  intros Hne. unfold room_of. rewrite in_room_snoc.
  destruct (String.eqb_spec (e_room e) name); [contradiction | reflexivity].
Qed.

Lemma js_in_own_get {V : Type} (k : string) (t : table V) :
  (if js_in k t then own_get k t else None) = own_get k t.
Proof.
  unfold js_in, js_get. destruct (own_get k t); [reflexivity|].
  now destruct (is_proto k).
Qed.

(** Looking for the room record of a room element. *)
Lemma ensure_room_ledger (done vs : list Visit) (l : list ProcessedEvent)
    (w : Tables) (v : Visit) :
  ledger done vs l w ->
  ledger done (vs ++ [v]) l
    {| w_conference := w_conference w; w_types := w_types w;
       w_buildings := w_buildings w; w_days := w_days w;
       w_rooms := ensure_room (visit_name v) (room_slug (snd v))
                    (buildingId_of (visit_name v)) (floor_of (visit_name v))
                    (w_rooms w);
       w_tracks := w_tracks w; w_events := w_events w |}.
Proof.
  intros [Hrooms Hnd Hvis Hplain Htk Hnames Hb].
  constructor; cbn [w_rooms w_tracks w_types w_buildings]; try assumption.
  - intros name. unfold ensure_room.
    destruct (js_get (w_rooms w) (visit_name v)) as [r| |] eqn:Hget.
    + (* the record exists *)
      apply js_get_own in Hget.
      destruct (String.eqb_spec (visit_name v) name) as [E|Hne].
      * subst name. rewrite Hget. rewrite Hrooms in Hget.
        unfold room_of in *. rewrite named_snoc, String.eqb_refl.
        destruct (is_proto (visit_name v)); [discriminate|].
        destruct (named (visit_name v) vs); [discriminate | now symmetry].
      * rewrite room_of_other_visit by assumption. apply Hrooms.
    + (* an inherited name *)
      apply js_get_inherited in Hget as [Hnone Hp].
      destruct (String.eqb_spec (visit_name v) name) as [E|Hne].
      * subst name. rewrite Hnone. unfold room_of. now rewrite Hp.
      * rewrite room_of_other_visit by assumption. apply Hrooms.
    + (* a new record *)
      apply js_get_missing in Hget as [Hnone Hp].
      rewrite (js_set_not_proto _ _ _ Hp).
      destruct (String.eqb_spec (visit_name v) name) as [E|Hne].
      * subst name. rewrite own_get_own_set_eq.
        rewrite Hrooms in Hnone. unfold room_of in *.
        rewrite named_snoc, String.eqb_refl. rewrite Hp in *.
        destruct (named (visit_name v) vs) as [|first rest] eqn:Hnamed;
          [|discriminate].
        cbn [app]. rewrite js_in_own_get.
        rewrite in_room_nil; [reflexivity|].
        intros e He E. destruct (Hvis e He) as (v' & Hv' & Hname).
        apply (named_nil _ _ Hnamed v' Hv'). congruence.
      * rewrite own_get_own_set_ne by congruence.
        rewrite room_of_other_visit by assumption. apply Hrooms.
  - unfold ensure_room. destruct (js_get (w_rooms w) (visit_name v)) eqn:Hget;
      try assumption.
    apply js_get_missing in Hget as [_ Hp]. rewrite (js_set_not_proto _ _ _ Hp).
    now apply NoDup_keys_own_set.
  - intros e He. destruct (Hvis e He) as (v' & Hv' & Hname).
    exists v'. split; [|exact Hname]. apply in_or_app. now left.
Qed.

Lemma track_keys_step (tracks tracks1 tracks' : table TrackInfo)
    (e : ProcessedEvent) :
  touch_track e (e_room e) (e_day e) tracks = Ok tracks1 ->
  count_track_event (e_trackKey e) tracks1 = Ok tracks' ->
  keys tracks' = set_add (e_trackKey e) (keys tracks) /\
  (is_proto (e_trackKey e) = false \/ In (e_trackKey e) (keys tracks)).
Proof.
  intros Ht Hc. unfold touch_track in Ht.
  destruct (js_get tracks (e_trackKey e)) as [track| |] eqn:Hget;
    [| discriminate |].
  - apply js_get_own in Hget.
    assert (exists track1, own_get (e_trackKey e) tracks1 = Some track1 /\
                           keys tracks1 = keys tracks) as (track1 & Hg1 & Hk1).
    { destruct (existsb (Z.eqb (e_day e)) (k_day track)); injection Ht as <-.
      - now exists track.
      - eexists. split; [apply own_get_own_set_eq|].
        eapply keys_own_set_present; eassumption. }
    unfold count_track_event in Hc. apply js_get_own in Hg1 as Hjs.
    rewrite Hjs in Hc. injection Hc as <-.
    rewrite (keys_own_set_present _ _ _ _ Hg1), Hk1.
    apply own_get_some_key in Hget. split; [|now right].
    unfold set_add. apply existsb_eqb_in in Hget. now rewrite Hget.
  - apply js_get_missing in Hget as [Hnone Hp]. injection Ht as <-.
    rewrite (js_set_not_proto _ _ _ Hp) in Hc.
    unfold count_track_event, js_get in Hc. rewrite own_get_own_set_eq in Hc.
    injection Hc as <-. split; [|now left].
    rewrite (keys_own_set_present _ _ _ _ (own_get_own_set_eq _ _ _)).
    rewrite keys_own_set. unfold set_add.
    destruct (existsb (String.eqb (e_trackKey e)) (keys tracks)) eqn:E;
      [|reflexivity].
    apply existsb_eqb_in in E. apply own_get_none_iff in Hnone. contradiction.
Qed.

Lemma type_names_step (types types' : table TypeInfo) (type roomName b : string) :
  (forall key info, own_get key types = Some info ->
     option_map decl_name (own_get key typeData) = Some (t_name info)) ->
  update_type_stats type roomName b types = Ok types' ->
  forall key info, own_get key types' = Some info ->
    option_map decl_name (own_get key typeData) = Some (t_name info).
Proof.
  intros Hinv H. unfold update_type_stats in H.
  destruct (js_get types type) as [info0| |] eqn:Hget.
  - apply js_get_own in Hget. injection H as <-. intros key info.
    destruct (String.eqb_spec key type) as [->|Hne].
    + rewrite own_get_own_set_eq. intros [= <-]. cbn [t_name]. now apply Hinv.
    + rewrite own_get_own_set_ne by assumption. apply Hinv.
  - destruct (String.eqb type "__proto__"); discriminate.
  - injection H as <-. exact Hinv.
Qed.

(** One accepted event. *)
Lemma record_event_ledger (done vs : list Visit) (l : list ProcessedEvent)
    (e : ProcessedEvent) (b : string) (w : Tables) (di : DayInfo)
    (acc' : Tables * DayInfo) :
  ledger done vs l w ->
  (exists v, In v vs /\ visit_name v = e_room e) ->
  record_event (e_room e) b (e_day e) e (w, di) = Ok acc' ->
  ledger done vs (l ++ [e]) (fst acc').
Proof.
  intros [Hrooms Hnd Hvis Hplain Htk Hnames Hb] Hv H.
  unfold record_event in H.
  apply bind_ok in H as (rooms' & Hroom & H).
  apply bind_ok in H as (tracks1 & Htouch & H).
  apply bind_ok in H as (tracks' & Hcount & H).
  apply bind_ok in H as (types' & Htypes & H).
  injection H as <-. cbn [fst].
  destruct (track_keys_step _ _ _ _ Htouch Hcount) as [Hkeys Hkey].
  assert (e_room e <> "__proto__" /\
          NoDup (keys rooms') /\
          forall name, own_get name rooms' = room_of name vs (l ++ [e]))
    as (Hnot & Hnd' & Hrooms').
  { unfold count_room_event in Hroom.
    destruct (js_get (w_rooms w) (e_room e)) as [r| |] eqn:Hget;
      [| |discriminate].
    - apply js_get_own in Hget. injection Hroom as <-.
      pose proof Hget as Hr. rewrite Hrooms in Hr. unfold room_of in Hr.
      destruct (is_proto (e_room e)) eqn:Hp; [discriminate|].
      split; [intros E; rewrite E in Hp; discriminate|].
      split; [now apply NoDup_keys_own_set|].
      intros name. destruct (String.eqb_spec name (e_room e)) as [->|Hne].
      + rewrite own_get_own_set_eq. unfold room_of.
        rewrite Hp, in_room_snoc, String.eqb_refl.
        destruct (named (e_room e) vs) as [|first rest]; [discriminate|].
        injection Hr as <-. cbn [r_name r_slug r_buildingId r_building r_floor
                                 r_eventCount].
        rewrite length_app. cbn [List.length]. now rewrite Nat.add_1_r.
      + rewrite own_get_own_set_ne by assumption.
        rewrite room_of_other_event by congruence. apply Hrooms.
    - apply js_get_inherited in Hget as [Hnone Hp].
      destruct (String.eqb_spec (e_room e) "__proto__") as [|Hne];
        [discriminate|].
      injection Hroom as <-. split; [exact Hne|]. split; [exact Hnd|].
      intros name. destruct (String.eqb_spec name (e_room e)) as [->|Hne'].
      + rewrite Hnone. unfold room_of. now rewrite Hp.
      + rewrite room_of_other_event by congruence. apply Hrooms. }
  constructor; cbn [w_rooms w_tracks w_types w_buildings]; try assumption.
  - intros e0 He0. apply in_app_or in He0 as [He0|[<-|[]]]; [now apply Hvis|].
    exact Hv.
  - intros e0 He0. apply in_app_or in He0 as [He0|[<-|[]]]; [now apply Hplain|].
    split; [|exact Hnot]. destruct Hkey as [Hp|Hin]; [exact Hp|].
    rewrite Htk in Hin. apply (proj1 (in_distinct _ _)) in Hin.
    apply in_map_iff in Hin as (e' & Hk & He'). rewrite <- Hk.
    now apply Hplain.
  - rewrite Hkeys, Htk, map_app. cbn [map]. now rewrite distinct_snoc.
  - eapply type_names_step; eassumption.
Qed.

Lemma building_events_from_snoc (key : string) (seen vs : list Visit) (v : Visit) :
  building_events_from key seen (vs ++ [v])
  = building_events_from key seen vs
    + (if String.eqb (visit_building v) key then running_total (seen ++ vs) v
       else 0).
Proof.
  revert seen. induction vs as [|a vs IH]; intros seen; cbn [app building_events_from].
  - rewrite app_nil_r. lia.
  - rewrite IH, <- app_assoc. cbn [app]. lia.
Qed.

Lemma building_events_snoc (key : string) (vs : list Visit) (v : Visit) :
  building_events key (vs ++ [v])
  = building_events key vs
    + (if String.eqb (visit_building v) key then running_total vs v else 0).
Proof. unfold building_events. now rewrite building_events_from_snoc. Qed.

Lemma building_stats_other (key : string) (vs : list Visit) (v : Visit) :
  visit_building v <> key ->
  building_stats key (vs ++ [v]) = building_stats key vs.
Proof.
  intros Hne. unfold building_stats, of_building.
  rewrite building_events_snoc, filter_snoc.
  destruct (String.eqb_spec (visit_building v) key); [contradiction|].
  now rewrite Nat.add_0_r.
Qed.

(** The building update at the end of a room element. *)
Lemma update_building_ledger (vs : list Visit) (v : Visit) (w w' : Tables) :
  ledger vs (vs ++ [v]) (accepted_of (vs ++ [v])) w ->
  update_building_stats (visit_name v) (visit_building v) w = Ok w' ->
  ledger (vs ++ [v]) (vs ++ [v]) (accepted_of (vs ++ [v])) w'.
Proof.
  intros [Hrooms Hnd Hvis Hplain Htk Hnames Hb] H.
  unfold update_building_stats in H.
  destruct (js_get (w_buildings w) (visit_building v)) as [b| |] eqn:Hget;
    [| discriminate |].
  - destruct (js_get (w_rooms w) (visit_name v)) as [r| |] eqn:Hr;
      try discriminate.
    injection H as <-. apply js_get_own in Hget, Hr.
    constructor; cbn [w_rooms w_tracks w_types w_buildings]; try assumption.
    intros key. destruct (String.eqb_spec key (visit_building v)) as [->|Hne].
    + rewrite own_get_own_set_eq.
      rewrite Hb in Hget. rewrite Hrooms in Hr.
      unfold building_stats in *. unfold of_building.
      rewrite building_events_snoc, filter_snoc, String.eqb_refl.
      destruct (existsb (String.eqb (visit_building v)) (keys buildings));
        [|discriminate].
      injection Hget as <-. cbn [b_name b_roomCount b_trackCount b_eventCount].
      unfold room_of in Hr. destruct (is_proto (visit_name v)); [discriminate|].
      destruct (named (visit_name v) (vs ++ [v])); [discriminate|].
      injection Hr as <-. cbn [r_eventCount]. unfold running_total.
      rewrite length_app. cbn [List.length]. now rewrite Nat.add_1_r.
    + rewrite own_get_own_set_ne by assumption.
      rewrite building_stats_other by congruence. apply Hb.
  - injection H as <-. apply js_get_missing in Hget as [Hnone _].
    constructor; try assumption. intros key.
    destruct (String.eqb_spec key (visit_building v)) as [->|Hne].
    + rewrite Hnone. rewrite Hb in Hnone. unfold building_stats in *.
      destruct (existsb (String.eqb (visit_building v)) (keys buildings));
        [discriminate | reflexivity].
    + rewrite building_stats_other by congruence. apply Hb.
Qed.

Lemma accepted_of_snoc (vs : list Visit) (v : Visit) :
  accepted_of (vs ++ [v]) = accepted_of vs ++ visit_accepted v.
Proof.
  unfold accepted_of. rewrite flat_map_app. cbn [flat_map]. now rewrite app_nil_r.
Qed.

Lemma accepted_of_app (vs vs' : list Visit) :
  accepted_of (vs ++ vs') = accepted_of vs ++ accepted_of vs'.
Proof. unfold accepted_of. apply flat_map_app. Qed.

Lemma accepted_of_visits_of_day (day : Day) :
  accepted_of (visits_of_day day) = accepted_in_day day.
Proof.
  unfold accepted_of, visits_of_day, accepted_in_day.
  induction (day_room day) as [|room rooms IH]; [reflexivity|].
  cbn [map flat_map]. now rewrite IH.
Qed.

Lemma accepted_of_visits (days : list Day) :
  accepted_of (visits days) = accepted days.
Proof.
  unfold visits, accepted. induction days as [|day days IH]; [reflexivity|].
  cbn [flat_map]. now rewrite accepted_of_app, accepted_of_visits_of_day, IH.
Qed.

(** One room element. *)
Lemma process_room_ledger (vs : list Visit) (dayIndex : Z) (room : Room)
    (acc acc' : Tables * DayInfo) :
  ledger vs vs (accepted_of vs) (fst acc) ->
  process_room dayIndex acc room = Ok acc' ->
  ledger (vs ++ [(dayIndex, room)]) (vs ++ [(dayIndex, room)])
    (accepted_of (vs ++ [(dayIndex, room)])) (fst acc').
Proof.
  intros Hl H. destruct acc as [w di]. unfold process_room in H.
  apply bind_ok in H as ([w1 di1] & Hloop & H).
  apply bind_ok in H as (w2 & Hb & H). injection H as <-.
  cbn [fst snd] in *.
  set (v := (dayIndex, room)) in *.
  apply (update_building_ledger vs v w1 w2); [|exact Hb].
  rewrite accepted_of_snoc. unfold visit_accepted, accepted_in_room.
  rewrite <- fold_left_app_flat_map.
  apply (for_each_ghost
           (process_xmlEvent (visit_name v) (visit_building v) dayIndex)
           (fun g x => g ++ match processEvent x (dayIndex =? 1)%Z (visit_name v)
                                    dayIndex with
                            | Some e => [e]
                            | None => []
                            end)
           (fun g acc => ledger vs (vs ++ [v]) g (fst acc)))
    with (l := events_of room) (g := accepted_of vs) (s' := (w1, di1))
    in Hloop; [exact Hloop| |].
  - intros g [w0 di0] x s' Hg Hs. unfold process_xmlEvent in Hs.
    destruct (processEvent x (dayIndex =? 1)%Z (visit_name v) dayIndex)
      as [e|] eqn:He.
    + apply processEvent_fields in He as (Hd & _ & Hr & _).
      rewrite <- Hr, <- Hd in Hs.
      eapply record_event_ledger; [exact Hg| |exact Hs].
      exists v. split; [|now symmetry]. apply in_or_app. right. now left.
    + injection Hs as <-. now rewrite app_nil_r.
  - cbn [fst]. now apply ensure_room_ledger.
Qed.

Lemma ledger_close_day (vs : list Visit) (l : list ProcessedEvent) (w : Tables)
    (days' : table DayInfo) :
  ledger vs vs l w ->
  ledger vs vs l
    {| w_conference := w_conference w;
       w_types := recount_types (w_tracks w) (w_types w);
       w_buildings := w_buildings w; w_days := days'; w_rooms := w_rooms w;
       w_tracks := w_tracks w; w_events := w_events w |}.
Proof.
  intros [Hrooms Hnd Hvis Hplain Htk Hnames Hb].
  constructor; cbn [w_rooms w_tracks w_types w_buildings]; try assumption.
  intros key info. rewrite recount_types_get.
  destruct (own_get key (w_types w)) as [info0|] eqn:Hk; [|discriminate].
  intros [= <-]. cbn [recount_type t_name]. now apply Hnames.
Qed.

(** One day. *)
Lemma process_day_ledger (vs : list Visit) (day : Day) (w w' : Tables) :
  ledger vs vs (accepted_of vs) w ->
  process_day w day = Ok w' ->
  ledger (vs ++ visits_of_day day) (vs ++ visits_of_day day)
    (accepted_of (vs ++ visits_of_day day)) w'.
Proof.
  intros Hl H. unfold process_day in H.
  apply bind_ok in H as ([w1 di1] & Hloop & H). injection H as <-.
  cbn [fst snd]. apply ledger_close_day.
  destruct (nonempty (day_room day)) eqn:Hne.
  - unfold visits_of_day.
    change (vs ++ map (fun room => (day_index day, room)) (day_room day))
      with (vs ++ flat_map (fun room => [(day_index day, room)]) [] 
               ++ map (fun room => (day_index day, room)) (day_room day)).
    assert (forall rooms : list Room,
              map (fun room => (day_index day, room)) rooms
              = flat_map (fun room => [(day_index day, room)]) rooms) as ->
      by (intros rooms; induction rooms as [|r rs IH]; cbn; congruence).
    cbn [app flat_map]. rewrite <- fold_left_app_flat_map.
    apply (for_each_ghost (process_room (day_index day))
             (fun g room => g ++ [(day_index day, room)])
             (fun g acc => ledger g g (accepted_of g) (fst acc)))
      with (l := day_room day) (g := vs) (s' := (w1, di1)) in Hloop;
      [exact Hloop| |exact Hl].
    intros g s x s' Hg Hs. eapply process_room_ledger; eassumption.
  - injection Hloop as <- <-. unfold visits_of_day.
    destruct (day_room day); [|discriminate]. cbn [map]. now rewrite app_nil_r.
Qed.

Lemma ledger_start (conference : Conference) :
  ledger [] [] [] (initial_tables conference).
Proof.
  constructor; cbn [initial_tables w_rooms w_tracks w_types w_buildings].
  - intros name. unfold room_of. cbn [own_get named filter].
    now destruct (is_proto name).
  - constructor.
  - intros e [].
  - intros e [].
  - reflexivity.
  - intros key info H. apply own_get_in in H. vm_compute in H.
    repeat (destruct H as [H|H]; [injection H as <- <-; reflexivity|]).
    destruct H.
  - intros key. unfold building_stats.
    change (building_events key []) with 0.
    change (of_building key []) with (@nil Visit).
    change (keys buildings) with ["J"; "H"; "AW"; "U"; "K"].
    change initial_buildings
      with [("J", {| b_name := "J"; b_roomCount := 0; b_trackCount := 0;
                     b_eventCount := 0 |});
            ("H", {| b_name := "H"; b_roomCount := 0; b_trackCount := 0;
                     b_eventCount := 0 |});
            ("AW", {| b_name := "AW"; b_roomCount := 0; b_trackCount := 0;
                      b_eventCount := 0 |});
            ("U", {| b_name := "U"; b_roomCount := 0; b_trackCount := 0;
                     b_eventCount := 0 |});
            ("K", {| b_name := "K"; b_roomCount := 0; b_trackCount := 0;
                     b_eventCount := 0 |})].
    cbn [own_get existsb List.length].
    destruct (String.eqb_spec key "J") as [->|_]; [reflexivity|].
    destruct (String.eqb_spec key "H") as [->|_]; [reflexivity|].
    destruct (String.eqb_spec key "AW") as [->|_]; [reflexivity|].
    destruct (String.eqb_spec key "U") as [->|_]; [reflexivity|].
    destruct (String.eqb_spec key "K") as [->|_]; reflexivity.
Qed.

(** The ledger of a whole run. *)
Lemma aggregate_ledger (data : ParsedData) (w : Tables) :
  aggregate data = Ok w ->
  ledger (visits (data_day data)) (visits (data_day data))
    (accepted (data_day data)) w.
Proof.
  unfold aggregate. intros H. rewrite <- accepted_of_visits. unfold visits.
  change (flat_map visits_of_day (data_day data))
    with ([] ++ flat_map visits_of_day (data_day data)).
  rewrite <- fold_left_app_flat_map.
  apply (for_each_ghost process_day (fun g day => g ++ visits_of_day day)
           (fun g w => ledger g g (accepted_of g) w))
    with (l := data_day data) (g := []) (s' := w) in H; [exact H| |].
  - intros g s x s' Hg Hs. eapply process_day_ledger; eassumption.
  - apply ledger_start.
Qed.

(** ** When the run returns, and what the event table holds *)

Lemma taxonomy_key_not_inherited (key : string) :
  In key (keys typeData) -> is_proto key = false.
Proof.
  intros H. vm_compute in H.
  repeat (destruct H as [<-|H]; [reflexivity|]). destruct H.
Qed.

Lemma aggregate_of_result (data : ParsedData) (r : BuildDataResult) :
  processScheduleData data = Ok r ->
  exists w, aggregate data = Ok w /\ r = cleanup w.
Proof.
  unfold processScheduleData. intros H. apply bind_ok in H as (w & Hw & H).
  injection H as <-. now exists w.
Qed.

(** X1.  In a run that returns a result no accepted event has a type or a
    track key that is a property name inherited from [Object.prototype]:
    an accepted event with such a name makes the run throw. *)
Theorem returned_run_has_plain_keys :
  forall (data : ParsedData) (r : BuildDataResult) (e : ProcessedEvent),
    processScheduleData data = Ok r ->
    In e (accepted (data_day data)) ->
    is_proto (e_type e) = false /\ is_proto (e_trackKey e) = false.
Proof.
  intros data r e Hr He. apply aggregate_of_result in Hr as (w & Hw & _).
  pose proof (aggregate_between _ _ Hw) as [[_ _ _ Hat _ _ _] _ _ _].
  pose proof (aggregate_ledger _ _ Hw) as [_ _ _ Hplain _ _ _].
  destruct (Hplain e He) as [Hk _]. split; [|exact Hk].
  apply taxonomy_key_not_inherited. now apply Hat.
Qed.

Lemma returned_run_has_plain_keys_witness :
  exists r e,
    processScheduleData (parseData Samples.weekend) = Ok r /\
    In e (accepted (data_day (parseData Samples.weekend))) /\
    e_trackKey e = "infodesk" /\
    is_proto (e_type e) = false /\ is_proto (e_trackKey e) = false.
Proof.
  assert (exists r, processScheduleData (parseData Samples.weekend) = Ok r)
    as [r Hr] by (eexists; vm_compute; reflexivity).
  assert (exists e, In e (accepted (data_day (parseData Samples.weekend))) /\
                    e_trackKey e = "infodesk") as (e & He & Hkey)
    by (eexists; split; [right; right; left; vm_compute; reflexivity
                        | reflexivity]).
  exists r, e. split; [exact Hr|]. split; [exact He|]. split; [exact Hkey|].
  exact (returned_run_has_plain_keys _ r e Hr He).
Defined.

Lemma own_get_js_set {V : Type} (t : table V) (k k' : string) (v : V) :
  k' <> "__proto__" ->
  own_get k' (js_set k v t) = if String.eqb k k' then Some v else own_get k' t.
Proof.
  intros Hp. unfold js_set.
  destruct (String.eqb_spec k "__proto__") as [->|Hk].
  - destruct (String.eqb_spec "__proto__" k'); [congruence | reflexivity].
  - destruct (String.eqb_spec k k') as [->|Hne].
    + apply own_get_own_set_eq.
    + apply own_get_own_set_ne. congruence.
Qed.

Lemma own_get_js_set_proto {V : Type} (t : table V) (k : string) (v : V) :
  own_get "__proto__" t = None -> own_get "__proto__" (js_set k v t) = None.
Proof.
  intros Hn. unfold js_set.
  destruct (String.eqb_spec k "__proto__") as [->|Hk]; [exact Hn|].
  rewrite own_get_own_set_ne by congruence. exact Hn.
Qed.

Lemma event_table_get (l : list ProcessedEvent) (t : table ProcessedEvent)
    (id : string) :
  id <> "__proto__" ->
  own_get id (fold_left (fun t e => js_set (e_id e) e t) l t)
  = fold_left (fun found e => if String.eqb (e_id e) id then Some e else found)
      l (own_get id t).
Proof.
  intros Hp. revert t. induction l as [|e l IH]; intros t; cbn [fold_left];
    [reflexivity|].
  rewrite IH. now rewrite own_get_js_set.
Qed.

Lemma event_table_no_proto (l : list ProcessedEvent) (t : table ProcessedEvent) :
  own_get "__proto__" t = None ->
  own_get "__proto__" (fold_left (fun t e => js_set (e_id e) e t) l t) = None.
Proof.
  revert t. induction l as [|e l IH]; intros t Hn; cbn [fold_left];
    [exact Hn|].
  apply IH. now apply own_get_js_set_proto.
Qed.

(** X2.  The event table is keyed by event id and the last accepted event
    with an id wins; an event whose id is [__proto__] never gets an
    entry. *)
Theorem event_table_last_write_wins :
  forall (data : ParsedData) (r : BuildDataResult) (id : string),
    processScheduleData data = Ok r ->
    own_get id (res_events r)
    = if String.eqb id "__proto__" then None
      else last_with_id id (accepted (data_day data)).
Proof.
  intros data r id H. apply aggregate_of_result in H as (w & Hw & ->).
  pose proof (aggregate_between _ _ Hw) as [[_ _ _ _ _ _ Hev] _ _ _].
  cbn [cleanup res_events]. rewrite Hev.
  destruct (String.eqb_spec id "__proto__") as [->|Hne].
  - now apply event_table_no_proto.
  - now apply event_table_get.
Qed.

Lemma event_table_last_write_wins_witness :
  exists r e,
    processScheduleData (parseData Samples.weekend) = Ok r /\
    own_get "5" (res_events r) = Some e /\ e_title e = "Go faster".
Proof.
  assert (exists r, processScheduleData (parseData Samples.weekend) = Ok r)
    as [r Hr] by (eexists; vm_compute; reflexivity).
  pose proof (event_table_last_write_wins (parseData Samples.weekend) r "5" Hr)
    as H.
  vm_compute in H. eexists. eexists. split; [exact Hr|]. split; [exact H|].
  reflexivity.
Defined.

(** What [processEvent] requires of an event node and how the fields of the
    processed event come about. *)
Lemma processEvent_shape (xmlEvent : option XmlEvent) (isLive : bool)
    (roomName : string) (day : Z) (e : ProcessedEvent) :
  processEvent xmlEvent isLive roomName day = Some e ->
  exists event title rawType track,
    xmlEvent = Some event /\
    xml_title event = Some title /\ title <> "" /\
    xml_type event = Some rawType /\ rawType <> "" /\
    xml_track event = Some track /\ track <> "" /\
    e_status e = getStatus title /\
    e_title e = getTitle title (getStatus title) /\
    e_type e = getType rawType /\
    e_track e = track /\
    ~ (getType rawType = "other" /\ track = "stand") /\
    e_id e = xml_id event /\
    e_isLive e = isLive /\ e_day e = day /\ e_room e = roomName.
Proof.
  unfold processEvent. destruct xmlEvent as [event|]; [|discriminate].
  assert (forall node text, text_of node = Some text ->
            node = Some text /\ text <> "") as Htext.
  { intros [s|] text; cbn [text_of]; [|discriminate].
    destruct s; cbn [truthy]; [discriminate|]. intros [= <-].
    split; [reflexivity | discriminate]. }
  destruct (text_of (xml_title event)) as [title|] eqn:Ht; [|discriminate].
  apply Htext in Ht as [Ht Htne].
  assert (getStatus (toLowerCase title) = getStatus title) as Hs
    by (unfold getStatus; now rewrite toLowerCase_idempotent).
  rewrite Hs.
  destruct (text_of (xml_type event)) as [rawType|] eqn:Hty.
  2:{ destruct (getStatus title); discriminate. }
  destruct (text_of (xml_track event)) as [track|] eqn:Htr.
  2:{ destruct (getStatus title); discriminate. }
  apply Htext in Hty as [Hty Htyne]. apply Htext in Htr as [Htr Htrne].
  destruct (String.eqb (getType rawType) "other" && String.eqb track "stand")
    eqn:Hstand.
  { destruct (getStatus title); discriminate. }
  assert (~ (getType rawType = "other" /\ track = "stand")) as Hns.
  { intros [E1 E2]. rewrite E1, E2 in Hstand. discriminate. }
  intros H. exists event, title, rawType, track.
  destruct (getStatus title); try discriminate; injection H as <-;
    cbn [e_status e_title e_type e_track e_id e_isLive e_day e_room];
    repeat split; assumption.
Qed.

Lemma getTitle_not_empty (title : string) (status : Status) :
  title <> "" -> getTitle title status <> "".
Proof.
  intros Hne. unfold getTitle. destruct status; try assumption.
  destruct (substring_from 10 title) eqn:E; cbn [truthy]; [assumption|].
  discriminate.
Qed.

(** X3.  Every entry of the event table sits under the id of its event and
    is a full session: its status is amendment or running, never canceled
    or unknown; its type is one of the five keys of the taxonomy; title and
    track are not empty; it is not a stand of type other; its track key is
    the track in small letters without white space. *)
Theorem event_table_entries :
  forall (data : ParsedData) (r : BuildDataResult) (id : string)
         (e : ProcessedEvent),
    processScheduleData data = Ok r ->
    In (id, e) (res_events r) ->
    e_id e = id /\
    (e_status e = amendment \/ e_status e = running) /\
    In (e_type e) ["keynote"; "maintrack"; "devroom"; "lightningtalk"; "other"] /\
    e_title e <> "" /\ e_track e <> "" /\
    ~ (e_type e = "other" /\ e_track e = "stand") /\
    e_trackKey e = remove_chars is_space (toLowerCase (e_track e)).
Proof.
  intros data r id e H Hin. apply aggregate_of_result in H as (w & Hw & ->).
  pose proof (aggregate_between _ _ Hw) as [[_ _ _ Hat _ _ Hev] _ _ _].
  cbn [cleanup res_events] in Hin. rewrite Hev in Hin.
  apply in_event_table in Hin as [[]|[Hin Hid]].
  pose proof (Hat e Hin) as Htype.
  apply accepted_iff in Hin as (day & room & x & _ & _ & _ & He).
  pose proof (processEvent_fields _ _ _ _ _ He)
    as (_ & _ & _ & _ & _ & Hkey & Hnc & _).
  apply processEvent_shape in He
    as (event & title & rawType & track & _ & _ & Htne & _ & _ & _ & Htrne
        & Hs & Htitle & Hty & Htr & Hns & _).
  split; [exact Hid|]. split.
  { destruct (e_status e) eqn:E; [congruence | now left | now right|].
    exfalso. unfold getStatus in Hs.
    destruct (includes "canceled" (toLowerCase title)); [discriminate|].
    destruct (includes "amendment" (toLowerCase title)); discriminate. }
  split; [exact Htype|].
  split; [rewrite Htitle; now apply getTitle_not_empty|].
  split; [congruence|]. split; [now rewrite Hty, Htr | exact Hkey].
Qed.

Lemma event_table_entries_witness :
  exists r e,
    processScheduleData (parseData Samples.weekend) = Ok r /\
    In ("4", e) (res_events r) /\
    e_status e = running /\ e_type e = "other" /\ e_trackKey e = "infodesk".
Proof.
  assert (exists r e, processScheduleData (parseData Samples.weekend) = Ok r /\
                      In ("4", e) (res_events r) /\
                      e_status e = running /\ e_type e = "other" /\
                      e_track e = "Info Desk") as (r & e & Hr & Hin & Hs & Ht & Htr).
  { eexists. eexists. split; [vm_compute; reflexivity|].
    split; [right; right; left; reflexivity|]. repeat split. }
  destruct (event_table_entries (parseData Samples.weekend) r "4" e Hr Hin)
    as (_ & _ & _ & _ & _ & _ & Hkey).
  exists r, e. repeat split; try assumption. now rewrite Hkey, Htr.
Defined.

(** X4.  The title of an accepted event: the title of the node as it is,
    unless the title says [amendment] (in any case of letters) and is
    longer than ten characters; then its first ten characters are cut. *)
Theorem amendment_title_is_cut :
  forall (event : XmlEvent) (isLive : bool) (roomName : string) (day : Z)
         (title : string) (e : ProcessedEvent),
    processEvent (Some event) isLive roomName day = Some e ->
    xml_title event = Some title ->
    e_title e
    = if includes "amendment" (toLowerCase title)
         && (10 <? String.length title)%nat
      then substring_from 10 title
      else title.
Proof.
  intros event isLive roomName day title e He Ht.
  pose proof (accepted_not_canceled _ _ _ _ _ He) as Hnc.
  apply processEvent_shape in He
    as (event' & title' & _ & _ & [= <-] & Ht' & _ & _ & _ & _ & _ & _
        & Htitle & _).
  rewrite Ht in Ht'. injection Ht' as <-. rewrite Htitle.
  cbn [canceled_title] in Hnc. rewrite Ht in Hnc.
  unfold getStatus, getTitle. rewrite Hnc.
  destruct (includes "amendment" (toLowerCase title)); [|reflexivity].
  cbn [andb].
  assert (forall n s, truthy (substring_from n s) = (n <? String.length s)%nat)
    as Hlen.
  { intros n. induction n as [|n IH]; intros s.
    - destruct s; reflexivity.
    - destruct s as [|c s]; [reflexivity|]. cbn [substring_from String.length].
      rewrite IH. reflexivity. }
  now rewrite Hlen.
Qed.

Lemma amendment_title_is_cut_witness :
  exists e,
    processEvent
      (Some (Samples.event_node "9" "AMENDMENT Go even faster" "devroom" "Go"))
      false "K.1.105" 2 = Some e /\
    e_title e = "Go even faster" /\ e_status e = amendment.
Proof.
  assert (exists e,
            processEvent
              (Some (Samples.event_node "9" "AMENDMENT Go even faster"
                       "devroom" "Go")) false "K.1.105" 2 = Some e /\
            e_status e = amendment) as (e & He & Hs)
    by (eexists; split; vm_compute; reflexivity).
  exists e. split; [exact He|]. split; [|exact Hs].
  rewrite (amendment_title_is_cut _ _ _ _ "AMENDMENT Go even faster" _ He eq_refl).
  reflexivity.
Defined.

(** ** The room, day, type and building tables of a result *)

(** X5.  Every record of the room table sits under its own name, which is
    not a name inherited from [Object.prototype]; building id and floor are
    read off the name, the building is the one of the static table if
    there is one, and the event count is the number of accepted events in
    rooms of that name over all days.  Every accepted event whose room
    name is not inherited finds the record of its room. *)
Theorem room_records :
  forall (data : ParsedData) (r : BuildDataResult),
    processScheduleData data = Ok r ->
    (forall name room, In (name, room) (res_rooms r) ->
       is_proto name = false /\
       r_name room = name /\
       r_buildingId room = buildingId_of name /\
       r_floor room = floor_of name /\
       r_building room = own_get (buildingId_of name) buildings /\
       r_eventCount room
       = List.length (in_room name (accepted (data_day data)))) /\
    (forall e, In e (accepted (data_day data)) ->
       is_proto (e_room e) = false ->
       exists room, own_get (e_room e) (res_rooms r) = Some room).
Proof.
  intros data r H. apply aggregate_of_result in H as (w & Hw & ->).
  pose proof (aggregate_ledger _ _ Hw) as [Hrooms Hnd Hvisited _ _ _ _].
  cbn [cleanup res_rooms]. split.
  - intros name room Hin. apply (in_own_get _ _ _ Hnd) in Hin.
    rewrite Hrooms in Hin. unfold room_of in Hin.
    destruct (is_proto name); [discriminate|].
    destruct (named name (visits (data_day data))) as [|first rest];
      [discriminate|].
    injection Hin as <-. repeat split.
  - intros e He Hp. destruct (Hvisited e He) as (v & Hv & Hname).
    rewrite Hrooms. unfold room_of. rewrite Hp.
    destruct (named (e_room e) (visits (data_day data))) as [|first rest] eqn:E.
    + exfalso. assert (In v (named (e_room e) (visits (data_day data)))) as Hin.
      { unfold named. apply filter_In. split; [exact Hv|].
        rewrite Hname. apply String.eqb_refl. }
      rewrite E in Hin. destruct Hin.
    + eexists. reflexivity.
Qed.

Lemma room_records_witness :
  exists r room,
    processScheduleData (parseData Samples.weekend) = Ok r /\
    In ("J.1", room) (res_rooms r) /\
    r_buildingId room = "J" /\ r_floor room = Some "1" /\
    r_eventCount room = 2.
Proof.
  assert (exists r room,
            processScheduleData (parseData Samples.weekend) = Ok r /\
            In ("J.1", room) (res_rooms r)) as (r & room & Hr & Hin)
    by (eexists; eexists; split; [vm_compute; reflexivity
                                 | left; reflexivity]).
  destruct (room_records (parseData Samples.weekend) r Hr) as [Hrec _].
  destruct (Hrec "J.1" room Hin) as (_ & _ & Hb & Hf & _ & Hc).
  exists r, room. split; [exact Hr|]. split; [exact Hin|].
  split; [exact Hb|]. split; [exact Hf|]. rewrite Hc. vm_compute. reflexivity.
Defined.

(** X6.  The record the loop finishes for a day subtree carries the date
    and the times of the subtree, the number of the events accepted in it
    and the numbers of distinct tracks, rooms and building ids among
    them. *)
Theorem finished_day_record :
  forall (data : ParsedData) (r : BuildDataResult) (days1 days2 : list Day)
         (day : Day),
    processScheduleData data = Ok r ->
    data_day data = days1 ++ day :: days2 ->
    exists (before : Tables) (di : DayInfo),
      for_each process_day days1 (initial_tables (data_conference data))
      = Ok before /\
      finished_dayInfo before day = Ok di /\
      d_date di = day_date day /\
      d_start di = day_start day /\
      d_end di = day_end day /\
      d_eventCount di = List.length (accepted_in_day day) /\
      d_trackCount di
      = List.length (distinct (map e_trackKey (accepted_in_day day))) /\
      d_roomCount di
      = List.length (distinct (map e_room (accepted_in_day day))) /\
      d_buildingCount di
      = List.length (distinct (map building_of (accepted_in_day day))).
Proof.
  intros data r days1 days2 day H Hdays.
  apply aggregate_of_result in H as (w & Hw & _).
  destruct (finished_dayInfo_in_run _ _ _ _ _ Hw Hdays) as (before & Hb & Hdi).
  exists before, (day_info_of day). repeat split; assumption.
Qed.

Lemma finished_day_record_witness :
  exists r before di,
    processScheduleData (parseData Samples.weekend) = Ok r /\
    for_each process_day [Samples.saturday]
      (initial_tables (data_conference (parseData Samples.weekend)))
    = Ok before /\
    finished_dayInfo before Samples.sunday = Ok di /\
    d_date di = "2025-02-02" /\ d_eventCount di = 2 /\
    d_trackCount di = 1 /\ d_roomCount di = 1 /\ d_buildingCount di = 1.
Proof.
  assert (exists r, processScheduleData (parseData Samples.weekend) = Ok r)
    as [r Hr] by (eexists; vm_compute; reflexivity).
  destruct (finished_day_record (parseData Samples.weekend) r
              [Samples.saturday] [] Samples.sunday Hr eq_refl)
    as (before & di & Hb & Hdi & Hdate & _ & _ & He & Ht & Hro & Hbu).
  exists r, before, di. split; [exact Hr|]. split; [exact Hb|].
  split; [exact Hdi|]. rewrite Hdate, He, Ht, Hro, Hbu.
  repeat split; vm_compute; reflexivity.
Defined.

(** X7.  The record of a session type carries its key and declared name,
    the number of accepted events of the type, the numbers of distinct
    rooms and building ids among them, and for track count the number of
    track records of that type; the conference record is the one handed
    in. *)
Theorem type_records :
  forall (data : ParsedData) (r : BuildDataResult) (key : string)
         (ts : TypeSummary),
    processScheduleData data = Ok r ->
    own_get key (res_types r) = Some ts ->
    res_conference r = data_conference data /\
    ts_id ts = key /\
    option_map decl_name (own_get key TYPES) = Some (ts_name ts) /\
    ts_eventCount ts = List.length (of_type key (accepted (data_day data))) /\
    ts_roomCount ts
    = List.length (distinct (map e_room (of_type key (accepted (data_day data))))) /\
    ts_buildingCount ts
    = List.length
        (distinct (map building_of (of_type key (accepted (data_day data))))) /\
    ts_trackCount ts
    = List.length
        (filter (fun track => String.eqb (k_type track) key)
           (values (res_tracks r))).
Proof.
  intros data r key ts H Hts. apply aggregate_of_result in H as (w & Hw & ->).
  pose proof (aggregate_between _ _ Hw) as [[_ _ Hty _ _ _ _] Hrec _ Hconf].
  pose proof (aggregate_ledger _ _ Hw) as [_ _ _ _ _ Hnames _].
  cbn [cleanup res_types res_tracks res_conference] in *.
  rewrite own_get_map_values in Hts.
  destruct (own_get key (w_types w)) as [info|] eqn:Hk; [|discriminate].
  injection Hts as <-.
  destruct (Hty _ _ Hk) as (Hid & Hcount & Hrooms & Hbuildings).
  destruct (Hrec _ _ Hk) as (Hrc & Hbc & Htc).
  cbn [strip_type ts_id ts_name ts_eventCount ts_roomCount ts_buildingCount
       ts_trackCount].
  unfold set_size in *. rewrite Hrc, Hbc, Htc, Hrooms, Hbuildings, Hid.
  repeat split; try assumption. now apply Hnames.
Qed.

Lemma type_records_witness :
  exists r ts,
    processScheduleData (parseData Samples.weekend) = Ok r /\
    own_get "devroom" (res_types r) = Some ts /\
    ts_name ts = "Developer rooms" /\ ts_eventCount ts = 3 /\
    ts_roomCount ts = 2 /\ ts_trackCount ts = 1.
Proof.
  assert (exists r ts,
            processScheduleData (parseData Samples.weekend) = Ok r /\
            own_get "devroom" (res_types r) = Some ts /\
            res_tracks r
            = match processScheduleData (parseData Samples.weekend) with
              | Ok r' => res_tracks r'
              | _ => []
              end)
    as (r & ts & Hr & Hts & Htracks).
  { eexists. eexists. split; [vm_compute; reflexivity|].
    split; vm_compute; reflexivity. }
  destruct (type_records (parseData Samples.weekend) r "devroom" ts Hr Hts)
    as (_ & _ & Hname & Hcount & Hrooms & _ & Htc).
  exists r, ts. split; [exact Hr|]. split; [exact Hts|].
  split.
  { change (Some "Developer rooms" = Some (ts_name ts)) in Hname.
    now injection Hname. }
  split; [rewrite Hcount; vm_compute; reflexivity|].
  split; [rewrite Hrooms; vm_compute; reflexivity|].
  rewrite Htc, Htracks. vm_compute. reflexivity.
Defined.

Lemma building_events_none (key : string) (seen vs : list Visit) :
  of_building key vs = [] -> building_events_from key seen vs = 0.
Proof.
  revert seen. induction vs as [|v vs IH]; intros seen H; [reflexivity|].
  cbn [building_events_from]. unfold of_building in H. cbn [filter] in H.
  destruct (String.eqb (visit_building v) key); [discriminate|].
  cbn [Nat.add]. now apply IH.
Qed.

(** X8.  Every record of the building table keeps its key for name, and
    its track count is 0 whatever the events are: nothing in the run
    counts tracks for buildings.  A building with room count 0 has event
    count 0. *)
Theorem building_track_count_stays_zero :
  forall (data : ParsedData) (r : BuildDataResult) (key : string)
         (b : BuildingStats),
    processScheduleData data = Ok r ->
    own_get key (res_buildings r) = Some b ->
    b_name b = key /\
    b_trackCount b = 0 /\
    (b_roomCount b = 0 -> b_eventCount b = 0).
Proof.
  intros data r key b H Hb. apply aggregate_of_result in H as (w & Hw & ->).
  pose proof (aggregate_ledger _ _ Hw) as [_ _ _ _ _ _ Hbs].
  cbn [cleanup res_buildings] in Hb. rewrite Hbs in Hb.
  unfold building_stats in Hb.
  destruct (existsb (String.eqb key) (keys buildings)); [|discriminate].
  injection Hb as <-. cbn [b_name b_trackCount b_roomCount b_eventCount].
  repeat split. intros Hnone. apply building_events_none.
  now apply length_zero_iff_nil.
Qed.

Lemma building_track_count_stays_zero_witness :
  exists r b,
    processScheduleData (parseData Samples.weekend) = Ok r /\
    own_get "H" (res_buildings r) = Some b /\
    b_name b = "H" /\ b_trackCount b = 0.
Proof.
  assert (exists r b,
            processScheduleData (parseData Samples.weekend) = Ok r /\
            own_get "H" (res_buildings r) = Some b)
    as (r & b & Hr & Hb)
    by (eexists; eexists; split; vm_compute; reflexivity).
  destruct (building_track_count_stays_zero (parseData Samples.weekend) r "H" b
              Hr Hb) as (Hn & Htc & _).
  exists r, b. split; [exact Hr|]. split; [exact Hb|]. split; assumption.
Defined.

(** ** When the building counters are the counts of rooms and events *)

Lemma visit_accepted_room (v : Visit) (e : ProcessedEvent) :
  In e (visit_accepted v) -> e_room e = visit_name v.
Proof.
  intros H. apply accepted_in_room_iff in H as (x & _ & He).
  now apply processEvent_fields in He.
Qed.

Lemma filter_all {A : Type} (p : A -> bool) (l : list A) :
  (forall x, In x l -> p x = true) -> filter p l = l.
Proof.
  induction l as [|a l IH]; intros H; [reflexivity|]. cbn [filter].
  rewrite (H a) by now left. f_equal. apply IH. intros x I. apply H. now right.
Qed.

Lemma filter_none {A : Type} (p : A -> bool) (l : list A) :
  (forall x, In x l -> p x = false) -> filter p l = [].
Proof.
  induction l as [|a l IH]; intros H; [reflexivity|]. cbn [filter].
  rewrite (H a) by now left. apply IH. intros x I. apply H. now right.
Qed.

Lemma in_room_visit (v : Visit) :
  in_room (visit_name v) (visit_accepted v) = visit_accepted v.
Proof.
  apply filter_all. intros e He. apply String.eqb_eq.
  now apply visit_accepted_room.
Qed.

Lemma in_building_visit (key : string) (v : Visit) :
  in_building key (visit_accepted v)
  = if String.eqb (visit_building v) key then visit_accepted v else [].
Proof.
  destruct (String.eqb_spec (visit_building v) key) as [E|Hne].
  - apply filter_all. intros e He. apply String.eqb_eq. unfold building_of.
    now rewrite (visit_accepted_room _ _ He).
  - apply filter_none. intros e He. apply String.eqb_neq. unfold building_of.
    now rewrite (visit_accepted_room _ _ He).
Qed.

Lemma in_room_unvisited (name : string) (seen : list Visit) :
  (forall u, In u seen -> visit_name u <> name) ->
  in_room name (accepted_of seen) = [].
Proof.
  intros H. apply in_room_nil. intros e He E. unfold accepted_of in He.
  apply in_flat_map in He as (u & Hu & He).
  apply (H u Hu). now rewrite <- (visit_accepted_room _ _ He).
Qed.

Lemma running_total_split (seen : list Visit) (v : Visit) :
  running_total seen v
  = List.length (in_room (visit_name v) (accepted_of seen))
    + List.length (visit_accepted v).
Proof.
  unfold running_total. rewrite accepted_of_snoc. unfold in_room at 1.
  rewrite filter_app, length_app. fold (in_room (visit_name v) (accepted_of seen)).
  fold (in_room (visit_name v) (visit_accepted v)). now rewrite in_room_visit.
Qed.

Lemma in_building_cons (key : string) (v : Visit) (vs : list Visit) :
  List.length (in_building key (accepted_of (v :: vs)))
  = (if String.eqb (visit_building v) key then List.length (visit_accepted v)
     else 0)
    + List.length (in_building key (accepted_of vs)).
Proof.
  unfold accepted_of. cbn [flat_map]. unfold in_building at 1.
  rewrite filter_app, length_app. fold (in_building key (visit_accepted v)).
  rewrite in_building_visit.
  now destruct (String.eqb (visit_building v) key).
Qed.

Lemma building_events_at_least (key : string) (seen vs : list Visit) :
  List.length (in_building key (accepted_of vs))
  <= building_events_from key seen vs.
Proof.
  revert seen. induction vs as [|v vs IH]; intros seen; [apply Nat.le_refl|].
  rewrite in_building_cons. cbn [building_events_from].
  specialize (IH (seen ++ [v])). rewrite running_total_split.
  destruct (String.eqb (visit_building v) key); lia.
Qed.

Lemma building_events_exact (key : string) (seen vs : list Visit) :
  (forall v u, In v (of_building key vs) -> In u seen ->
     visit_name u <> visit_name v) ->
  NoDup (map visit_name (of_building key vs)) ->
  building_events_from key seen vs
  = List.length (in_building key (accepted_of vs)).
Proof.
  revert seen. induction vs as [|v vs IH]; intros seen Hseen Hnd; [reflexivity|].
  rewrite in_building_cons. cbn [building_events_from].
  unfold of_building in Hseen, Hnd. cbn [filter] in Hseen, Hnd.
  destruct (String.eqb (visit_building v) key) eqn:Hb.
  - cbn [map] in Hnd. inversion Hnd as [|? ? Hnot Hnd']; subst.
    rewrite running_total_split, in_room_unvisited.
    + cbn [List.length plus]. f_equal. apply IH; [|exact Hnd'].
      intros v' u Hv' Hu. apply in_app_or in Hu as [Hu|[<-|[]]].
      * apply Hseen; [now right | exact Hu].
      * intros E. apply Hnot. rewrite E. now apply in_map.
    + intros u Hu. apply Hseen; [now left | exact Hu].
  - cbn [plus]. apply IH; [|exact Hnd].
    intros v' u Hv' Hu. apply in_app_or in Hu as [Hu|[<-|[]]].
    + now apply Hseen.
    + intros E. apply String.eqb_neq in Hb. apply Hb.
      apply filter_In in Hv' as [_ Hv']. apply String.eqb_eq in Hv'.
      unfold visit_building in *. now rewrite E.
Qed.

Lemma building_key_capital (key name : string) :
  In key (keys buildings) -> buildingId_of name = key -> is_proto name = false.
Proof.
  intros Hk Hb. apply capital_not_inherited.
  destruct (upper_initial name) eqn:E; [reflexivity|].
  apply buildingId_of_no_capital in E. rewrite E in Hb. subst key.
  vm_compute in Hk. intuition discriminate.
Qed.

Lemma room_record_fields (vs : list Visit) (l : list ProcessedEvent)
    (name : string) (room : RoomInfo) :
  room_of name vs l = Some room ->
  r_name room = name /\ r_buildingId room = buildingId_of name /\
  exists v, In v vs /\ visit_name v = name.
Proof.
  unfold room_of. destruct (is_proto name); [discriminate|].
  destruct (named name vs) as [|first rest] eqn:Hn; [discriminate|].
  intros [= <-]. repeat split. exists first.
  assert (In first (named name vs)) as Hin by (rewrite Hn; now left).
  apply filter_In in Hin as [Hin E]. apply String.eqb_eq in E. now split.
Qed.

(** X9.  The counters of a building against what they are named after.
    The event count is never below the number of accepted events held in
    rooms of the building, the room count never below the number of room
    records of the building; and when no room name of the building comes
    up in two room elements of the document, both are exactly these
    numbers. *)
Theorem building_counters_bounds :
  forall (data : ParsedData) (r : BuildDataResult) (key : string)
         (b : BuildingStats),
    processScheduleData data = Ok r ->
    own_get key (res_buildings r) = Some b ->
    let events_held := in_building key (accepted (data_day data)) in
    let records :=
      filter (fun room => String.eqb (r_buildingId room) key)
        (values (res_rooms r)) in
    List.length events_held <= b_eventCount b /\
    List.length records <= b_roomCount b /\
    (NoDup (map visit_name (of_building key (visits (data_day data)))) ->
     b_eventCount b = List.length events_held /\
     b_roomCount b = List.length records).
Proof.
  intros data r key b H Hb. apply aggregate_of_result in H as (w & Hw & ->).
  pose proof (aggregate_ledger _ _ Hw) as [Hrooms Hnd _ _ _ _ Hbs].
  cbn [cleanup res_buildings res_rooms] in *. rewrite Hbs in Hb.
  unfold building_stats in Hb.
  destruct (existsb (String.eqb key) (keys buildings)) eqn:Hkey; [|discriminate].
  apply existsb_eqb_in in Hkey. injection Hb as <-.
  cbn [b_eventCount b_roomCount]. rewrite <- accepted_of_visits.
  set (vs := visits (data_day data)) in *.
  set (records := filter (fun room => String.eqb (r_buildingId room) key)
                    (values (w_rooms w))).
  assert (forall name room, In (name, room) (w_rooms w) ->
            r_name room = name /\ r_buildingId room = buildingId_of name /\
            exists v, In v vs /\ visit_name v = name) as Hrec.
  { intros name room Hin. apply (in_own_get _ _ _ Hnd) in Hin.
    rewrite Hrooms in Hin. eapply room_record_fields. exact Hin. }
  assert (map r_name (values (w_rooms w)) = keys (w_rooms w)) as Hnames.
  { unfold values, keys. rewrite map_map. apply map_ext_in.
    intros [name room] Hin. now destruct (Hrec name room Hin). }
  assert (NoDup (map r_name records)) as Hnd_records.
  { unfold records. rewrite <- Hnames in Hnd. clear - Hnd.
    induction (values (w_rooms w)) as [|a l IH]; [constructor|].
    cbn [map] in Hnd. inversion Hnd as [|? ? Hnot Hnd']; subst. cbn [filter].
    destruct (String.eqb (r_buildingId a) key); [|now apply IH].
    cbn [map]. constructor; [|now apply IH].
    intros Hin. apply Hnot. apply in_map_iff in Hin as (x & Hx & Hin).
    apply filter_In in Hin as [Hin _]. rewrite <- Hx. now apply in_map. }
  assert (incl (map r_name records) (map visit_name (of_building key vs)))
    as Hincl.
  { intros name Hin. apply in_map_iff in Hin as (room & Hname & Hin).
    apply filter_In in Hin as [Hin Hbid]. apply String.eqb_eq in Hbid.
    unfold values in Hin. apply in_map_iff in Hin as ([k room'] & E & Hin).
    cbn [snd] in E. subst room'.
    destruct (Hrec k room Hin) as (Hk & Hbk & v & Hv & Hvn).
    apply in_map_iff. exists v. split; [congruence|].
    apply filter_In. split; [exact Hv|]. apply String.eqb_eq.
    unfold visit_building. congruence. }
  split; [apply building_events_at_least|]. split.
  { rewrite <- (length_map r_name records),
      <- (length_map visit_name (of_building key vs)).
    now apply NoDup_incl_length. }
  intros Hnd_visits. split.
  - apply building_events_exact; [intros v u _ []|exact Hnd_visits].
  - apply Nat.le_antisymm.
    + rewrite <- (length_map r_name records),
        <- (length_map visit_name (of_building key vs)).
      apply NoDup_incl_length; [exact Hnd_visits|].
      intros name Hin. apply in_map_iff in Hin as (v & Hvn & Hin).
      apply filter_In in Hin as [Hv Hbid]. apply String.eqb_eq in Hbid.
      unfold visit_building in Hbid. rewrite Hvn in Hbid.
      pose proof (building_key_capital key name Hkey Hbid) as Hp.
      destruct (own_get name (w_rooms w)) as [room|] eqn:Hget.
      * pose proof (own_get_in _ _ _ Hget) as Hin.
        destruct (Hrec name room Hin) as (Hk & Hbk & _).
        apply in_map_iff. exists room. split; [exact Hk|].
        apply filter_In. split.
        -- unfold values. apply in_map_iff. now exists (name, room).
        -- apply String.eqb_eq. congruence.
      * exfalso. rewrite Hrooms in Hget. unfold room_of in Hget.
        rewrite Hp in Hget.
        destruct (named name vs) as [|first rest] eqn:Hn; [|discriminate].
        apply (named_nil _ _ Hn v Hv Hvn).
    + rewrite <- (length_map r_name records),
        <- (length_map visit_name (of_building key vs)).
      now apply NoDup_incl_length.
Qed.

Lemma building_counters_bounds_witness :
  exists r b,
    processScheduleData (parseData Samples.weekend) = Ok r /\
    own_get "J" (res_buildings r) = Some b /\
    b_eventCount b = 2 /\ b_roomCount b = 1.
Proof.
  assert (exists r b,
            processScheduleData (parseData Samples.weekend) = Ok r /\
            own_get "J" (res_buildings r) = Some b /\
            res_rooms r
            = match processScheduleData (parseData Samples.weekend) with
              | Ok r' => res_rooms r'
              | _ => []
              end)
    as (r & b & Hr & Hb & Hrooms).
  { eexists. eexists. split; [vm_compute; reflexivity|].
    split; vm_compute; reflexivity. }
  destruct (building_counters_bounds (parseData Samples.weekend) r "J" b Hr Hb)
    as (_ & _ & Hexact).
  destruct Hexact as [He Hc].
  { vm_compute. repeat constructor. intros []. }
  exists r, b. split; [exact Hr|]. split; [exact Hb|].
  split; [rewrite He; vm_compute; reflexivity|].
  rewrite Hc, Hrooms. vm_compute. reflexivity.
Defined.

(** ** The flattener on trees without wrappers *)

Section FlattenIdentity.
Import Flatten.

Context {scalar : Type}.

Lemma flattenData_mapping (fields : table (RawNode scalar)) :
  keys fields <> ["value"] ->
  flattenData (Mapping fields)
  = Mapping (assign_all (map (fun kv => (fst kv, flattenData (snd kv))) fields)).
Proof.
  intros Hk. destruct fields as [|[k v] [|kv fields]]; try reflexivity.
  cbn [flattenData]. destruct (String.eqb_spec k "value") as [->|]; [|reflexivity].
  exfalso. now apply Hk.
Qed.

Lemma flattenData_identity (n : RawNode scalar) :
  wf_node n -> no_wrapper n -> flattenData n = n.
Proof.
  revert n. fix flattenData_identity 1. intros n.
  destruct n as [s|elements|fields]; intros Hwf Hnw.
  - reflexivity.
  - cbn [flattenData]. f_equal. cbn [wf_node no_wrapper] in Hwf, Hnw.
    induction elements as [|e es IH]; [reflexivity|].
    cbn [fold_right map] in *. destruct Hwf as [Hwe Hwes], Hnw as [Hne Hnes].
    f_equal; [now apply flattenData_identity | now apply IH].
  - cbn [wf_node no_wrapper] in Hwf, Hnw.
    destruct Hwf as (Hnd & Hp & Hwf), Hnw as (Hk & Hnw).
    rewrite (flattenData_mapping _ Hk). f_equal.
    assert (map (fun kv => (fst kv, flattenData (snd kv))) fields = fields) as ->.
    { clear Hnd Hp Hk. induction fields as [|[k v] fs IH]; [reflexivity|].
      cbn [fold_right map fst snd] in *.
      destruct Hwf as [Hwv Hwfs], Hnw as [Hnv Hnfs].
      f_equal; [f_equal; now apply flattenData_identity | now apply IH]. }
    now apply assign_all_id.
Qed.

End FlattenIdentity.

(** X10.  The flattener changes nothing but wrappers: a tree in which no
    mapping has [value] for its only key (own keys distinct, none of them
    [__proto__]) comes back as it is. *)
Theorem flattenData_leaves_plain_trees :
  forall (scalar : Type) (n : Flatten.RawNode scalar),
    Flatten.wf_node n -> no_wrapper n -> Flatten.flattenData n = n.
Proof. intros scalar n. apply flattenData_identity. Qed.

Lemma flattenData_leaves_plain_trees_witness :
  let event :=
    Flatten.Mapping
      [("_attributes", Flatten.Mapping [("id", Flatten.Scalar "1")]);
       ("title", Flatten.Mapping [("_text", Flatten.Scalar "Welcome")]);
       ("persons", Flatten.Mapping
          [("person", Flatten.Arr
              [Flatten.Mapping [("_text", Flatten.Scalar "A")];
               Flatten.Mapping [("_text", Flatten.Scalar "B")]])])] in
  Flatten.flattenData event = event.
Proof.
  apply flattenData_leaves_plain_trees.
  - cbn. repeat split; try (repeat constructor); cbn; intuition discriminate.
  - cbn. repeat split; discriminate.
Defined.

(** ** [memoize] *)

Lemma cache_after_sound {R : Type} (nullish : R -> bool) (fn : string -> R)
    (args : list string) :
  Memo.cache_sound nullish fn (cache_after nullish fn args).
Proof.
  unfold cache_after.
  assert (forall cache, Memo.cache_sound nullish fn cache ->
            Memo.cache_sound nullish fn
              (fold_left (fun cache arg => snd (Memo.memoize nullish fn cache arg))
                 args cache)) as H.
  { induction args as [|a args IH]; intros cache Hc; [exact Hc|].
    cbn [fold_left]. apply IH. now apply memoize_sound. }
  apply H. intros arg v. discriminate.
Qed.

(** X11.  A memoized function returns what the wrapped function returns,
    whatever it was called with before; and it remembers: the argument of
    a call is in the cache afterwards, with the value just returned. *)
Theorem memoize_is_transparent :
  forall (R : Type) (nullish : R -> bool) (fn : string -> R)
         (args : list string) (arg : string),
    fst (Memo.memoize nullish fn (cache_after nullish fn args) arg) = fn arg /\
    own_get arg (cache_after nullish fn (args ++ [arg])) = Some (fn arg).
Proof.
  intros R nullish fn args arg.
  destruct (memoize_sound nullish fn (cache_after nullish fn args) arg
              (cache_after_sound nullish fn args)) as [Hv _].
  split; [exact Hv|].
  unfold cache_after in *. rewrite fold_left_app. cbn [fold_left].
  unfold Memo.memoize in *. cbn [fst snd] in *. rewrite Hv.
  apply own_get_own_set_eq.
Qed.

(** ** The address of the schedule *)

Lemma digits_dollar_free (s : string) :
  Entry.all_digits s = true -> dollar_free s = true.
Proof.
  induction s as [|c s IH]; [reflexivity|]. cbn [Entry.all_digits dollar_free].
  intros H. apply andb_true_iff in H as [Hc Hs]. rewrite (IH Hs), andb_true_r.
  destruct (Ascii.eqb_spec c "$") as [->|]; [discriminate | reflexivity].
Qed.

(** X12.  [buildData] goes on to fetch only for a year of exactly four
    digits, and then from the address that has the year in the place of
    the marker; for any other year it throws before fetching. *)
Theorem schedule_url_of_year :
  forall (year : string),
    Entry.schedule_url year
    = if (String.length year =? 4)%nat && Entry.all_digits year
      then Some ("https://fosdem.org/" ++ year ++ "/schedule/xml")%string
      else None.
Proof.
  intros year. unfold Entry.schedule_url, Entry.four_digits.
  destruct (String.length year =? 4)%nat eqn:Hlen; cbn [andb].
  - destruct (Entry.all_digits year) eqn:Hd; cbn [negb].
    + destruct year; [discriminate|]. cbn [truthy negb orb]. f_equal.
      unfold replace.
      change (split_first "${YEAR}" Entry.SCHEDULE_LINK)
        with (Some ("https://fosdem.org/", "/schedule/xml")).
      cbv beta iota. rewrite substitution_dollar_free; [reflexivity|].
      now apply digits_dollar_free.
    + now rewrite orb_true_r.
  - now rewrite orb_true_r.
Qed.

(** ** Building id and floor of a room name *)

Lemma digit_not_upper (c : ascii) : is_digit c = true -> is_upper c = false.
Proof. destruct c as [[] [] [] [] [] [] [] []]; vm_compute; congruence. Qed.

Lemma digit_not_dot (c : ascii) : is_digit c = true -> is_dot c = false.
Proof. destruct c as [[] [] [] [] [] [] [] []]; vm_compute; congruence. Qed.

Lemma dot_not_upper (c : ascii) : is_dot c = true -> is_upper c = false.
Proof. destruct c as [[] [] [] [] [] [] [] []]; vm_compute; congruence. Qed.

Lemma take_drop_while (p : ascii -> bool) (s : string) :
  (take_while p s ++ drop_while p s)%string = s.
Proof.
  induction s as [|c s IH]; [reflexivity|]. cbn [take_while drop_while].
  destruct (p c); [|reflexivity]. cbn [append]. now rewrite IH.
Qed.

Lemma all_chars_take_while (p : ascii -> bool) (s : string) :
  all_chars p (take_while p s) = true.
Proof.
  induction s as [|c s IH]; [reflexivity|]. cbn [take_while].
  destruct (p c) eqn:E; [|reflexivity]. cbn [all_chars]. now rewrite E, IH.
Qed.

Lemma stops_drop_while (p : ascii -> bool) (s : string) :
  stops p (drop_while p s) = true.
Proof.
  induction s as [|c s IH]; [reflexivity|]. cbn [drop_while].
  destruct (p c) eqn:E; [exact IH|]. cbn [stops]. now rewrite E.
Qed.

Lemma take_while_app (p : ascii -> bool) (a b : string) :
  all_chars p a = true -> stops p b = true ->
  take_while p (a ++ b) = a /\ drop_while p (a ++ b) = b.
Proof.
  intros Ha Hb. induction a as [|c a IH]; cbn [append].
  - destruct b as [|d b]; [now split|]. cbn [stops] in Hb.
    apply negb_true_iff in Hb. cbn [take_while drop_while]. rewrite Hb. now split.
  - cbn [all_chars] in Ha. apply andb_true_iff in Ha as [Hc Ha].
    cbn [take_while drop_while]. rewrite Hc. destruct (IH Ha) as [-> ->].
    now split.
Qed.

Lemma truthy_iff (s : string) : truthy s = true <-> s <> "".
Proof. destruct s; cbn; split; congruence. Qed.

(** X13.  The floor of a room name is the run of digits that follows the
    leading capital letters, with at most one dot between them; a name
    that does not begin so has no floor. *)
Theorem floor_of_room_name :
  forall (name floor : string),
    floor_of name = Some floor <->
    exists letters rest,
      (name = (letters ++ floor ++ rest)%string \/
       name = (letters ++ "." ++ floor ++ rest)%string)
      /\ letters <> "" /\ all_chars is_upper letters = true
      /\ floor <> "" /\ all_chars is_digit floor = true
      /\ stops is_digit rest = true.
Proof.
  intros name floor. unfold floor_of. split.
  - destruct (truthy (take_while is_upper name)) eqn:Hl; [|discriminate].
    apply truthy_iff in Hl.
    pose proof (take_drop_while is_upper name) as Hsplit.
    set (letters := take_while is_upper name) in *.
    set (rest0 := drop_while is_upper name) in *.
    assert (forall tail,
              (if truthy (take_while is_digit tail)
               then Some (take_while is_digit tail) else None) = Some floor ->
              floor <> "" /\ all_chars is_digit floor = true /\
              tail = (floor ++ drop_while is_digit tail)%string /\
              stops is_digit (drop_while is_digit tail) = true) as Hdigits.
    { intros tail. destruct (truthy (take_while is_digit tail)) eqn:Hf;
        [|discriminate].
      intros [= <-]. apply truthy_iff in Hf. split; [exact Hf|].
      split; [apply all_chars_take_while|].
      split; [now rewrite take_drop_while | apply stops_drop_while]. }
    destruct rest0 as [|c tail] eqn:Hrest.
    + intros H. apply Hdigits in H as (Hne & _ & E & _).
      destruct floor; [congruence | discriminate].
    + destruct (is_dot c) eqn:Hdot.
      * intros H. apply Hdigits in H as (Hne & Hall & E & Hstop).
        exists letters, (drop_while is_digit tail). split.
        { right. rewrite <- Hsplit. f_equal. cbn [append].
          destruct c as [[] [] [] [] [] [] [] []]; try discriminate Hdot.
          now rewrite <- E. }
        repeat split; try assumption. apply all_chars_take_while.
      * intros H. apply Hdigits in H as (Hne & Hall & E & Hstop).
        exists letters, (drop_while is_digit (String c tail)). split.
        { left. rewrite <- Hsplit. f_equal. exact E. }
        repeat split; try assumption. apply all_chars_take_while.
  - intros (letters & rest & Hname & Hl & Hup & Hf & Hdig & Hstop).
    assert (exists d floor', floor = String d floor' /\ is_digit d = true)
      as (d & floor' & Efloor & Hd).
    { destruct floor as [|d floor']; [congruence|]. exists d, floor'.
      cbn [all_chars] in Hdig. apply andb_true_iff in Hdig as [Hd _]. now split. }
    assert (take_while is_digit (floor ++ rest)%string = floor) as Htake
      by (now apply take_while_app).
    destruct Hname as [-> | ->].
    + destruct (take_while_app is_upper letters (floor ++ rest)%string Hup)
        as [-> ->].
      { rewrite Efloor. cbn [append stops]. now rewrite (digit_not_upper _ Hd). }
      apply truthy_iff in Hl. rewrite Hl.
      rewrite Efloor. cbn [append]. rewrite (digit_not_dot _ Hd).
      rewrite <- Efloor. change (String d (floor' ++ rest)) with
        (String d floor' ++ rest)%string. rewrite <- Efloor, Htake.
      apply truthy_iff in Hf. now rewrite Hf.
    + destruct (take_while_app is_upper letters ("." ++ floor ++ rest)%string Hup)
        as [-> ->]; [reflexivity|].
      apply truthy_iff in Hl. rewrite Hl. cbn [append].
      change (is_dot ".") with true. cbv iota. rewrite Htake.
      apply truthy_iff in Hf. now rewrite Hf.
Qed.

Lemma floor_of_room_name_witness :
  floor_of "AW1.120" = Some "1" /\ floor_of "K.3.401" = Some "3" /\
  floor_of "Janson" = None.
Proof.
  split; [|split].
  - apply (proj2 (floor_of_room_name "AW1.120" "1")).
    exists "AW", ".120". repeat split; try discriminate. now left.
  - apply (proj2 (floor_of_room_name "K.3.401" "3")).
    exists "K", ".401". repeat split; try discriminate. now right.
  - reflexivity.
Defined.

(** X14.  The building id of a room name is [AW] for a name that begins
    with AW, the first letter for any other name that begins with a
    capital letter, and empty otherwise; it always begins the name, and it
    is never a property name inherited from [Object.prototype]. *)
Theorem buildingId_of_room_name :
  forall (name : string),
    (startsWith "AW" name = true -> buildingId_of name = "AW") /\
    (startsWith "AW" name = false ->
     forall c tail, name = String c tail -> is_upper c = true ->
       buildingId_of name = String c "") /\
    (upper_initial name = false <-> buildingId_of name = "") /\
    startsWith (buildingId_of name) name = true /\
    is_proto (buildingId_of name) = false.
Proof.
  intros name. unfold buildingId_of.
  destruct (startsWith "AW" name) eqn:Haw.
  - repeat split; try discriminate.
    + intros Hup. exfalso. destruct name as [|c tail]; [discriminate|].
      cbn [startsWith] in Haw. apply andb_true_iff in Haw as [Hc _].
      apply Ascii.eqb_eq in Hc. subst c. discriminate.
    + exact Haw.
  - split; [discriminate|]. split.
    { intros _ c tail -> Hc. now rewrite Hc. }
    destruct name as [|c tail]; [repeat split|]. cbn [upper_initial].
    destruct (is_upper c) eqn:Hc.
    + repeat split; try discriminate.
      * cbn [startsWith]. now rewrite Ascii.eqb_refl.
      * apply (capital_not_inherited (String c "")). exact Hc.
    + repeat split.
Qed.

Lemma buildingId_of_room_name_witness :
  buildingId_of "AW1.120" = "AW" /\ buildingId_of "K.1.105" = "K" /\
  buildingId_of "infodesk" = "".
Proof.
  destruct (buildingId_of_room_name "AW1.120") as (Haw & _).
  destruct (buildingId_of_room_name "K.1.105") as (_ & Hk & _).
  destruct (buildingId_of_room_name "infodesk") as (_ & _ & Hnone & _).
  split; [exact (Haw eq_refl)|].
  split; [exact (Hk eq_refl "K"%char ".1.105" eq_refl eq_refl)|].
  exact (proj1 Hnone eq_refl).
Defined.

(** ** The sizes of the tables

    A table keeps its entries in the order of insertion, while JavaScript
    lists the keys that are array indices first and in ascending order; the
    statements on whole tables are therefore on sizes and sums, which do
    not depend on the order. *)

Lemma event_table_keys (l : list ProcessedEvent) :
  keys (fold_left (fun t e => js_set (e_id e) e t) l [])
  = distinct (filter (fun id => negb (String.eqb id "__proto__")) (map e_id l)).
Proof.
  induction l as [|e l IH] using rev_ind; [reflexivity|].
  rewrite fold_left_app, map_app. cbn [fold_left map]. rewrite filter_snoc.
  revert IH. generalize (fold_left (fun t e => js_set (e_id e) e t) l []).
  intros t IH. unfold js_set.
  destruct (String.eqb (e_id e) "__proto__"); cbn [negb].
  - exact IH.
  - now rewrite keys_own_set, IH, distinct_snoc.
Qed.

(** X15.  The track table has one record for each distinct track key among
    the accepted events, and the event table one entry for each distinct
    event id among them other than [__proto__]. *)
Theorem table_sizes :
  forall (data : ParsedData) (r : BuildDataResult),
    processScheduleData data = Ok r ->
    List.length (res_tracks r)
    = List.length (distinct (map e_trackKey (accepted (data_day data)))) /\
    List.length (res_events r)
    = List.length
        (distinct (filter (fun id => negb (String.eqb id "__proto__"))
                     (map e_id (accepted (data_day data))))).
Proof.
  intros data r H. apply aggregate_of_result in H as (w & Hw & ->).
  pose proof (aggregate_ledger _ _ Hw) as [_ _ _ _ Htk _ _].
  pose proof (aggregate_between _ _ Hw) as [[_ _ _ _ _ _ Hev] _ _ _].
  cbn [cleanup res_tracks res_events]. split.
  - rewrite <- Htk. unfold keys. now rewrite length_map.
  - rewrite <- event_table_keys, <- Hev. unfold keys. now rewrite length_map.
Qed.

Lemma table_sizes_witness :
  exists r,
    processScheduleData (parseData Samples.weekend) = Ok r /\
    List.length (res_tracks r) = 3 /\ List.length (res_events r) = 5.
Proof.
  assert (exists r, processScheduleData (parseData Samples.weekend) = Ok r)
    as [r Hr] by (eexists; vm_compute; reflexivity).
  destruct (table_sizes (parseData Samples.weekend) r Hr) as [Ht He].
  exists r. split; [exact Hr|]. rewrite Ht, He. split; vm_compute; reflexivity.
Defined.

(** ** Counts that add up *)

Lemma total_pointwise {K : Type} (f g : K -> nat) (ks : list K) :
  total (map (fun k => f k + g k) ks) = total (map f ks) + total (map g ks).
Proof.
  induction ks as [|k ks IH]; [reflexivity|].
  cbn [map total fold_right]. unfold total in IH. lia.
Qed.

Lemma total_one_hit (key : string) (ks : list string) :
  NoDup ks -> In key ks ->
  total (map (fun k => if String.eqb key k then 1 else 0) ks) = 1.
Proof.
  induction ks as [|k ks IH]; intros Hnd Hin; [destruct Hin|].
  inversion Hnd as [|? ? Hnot Hnd']; subst. cbn [map total fold_right].
  destruct (String.eqb_spec key k) as [E|Hne].
  - subst k. f_equal. clear IH Hin Hnd Hnd'.
    induction ks as [|k ks IH]; [reflexivity|]. cbn [map fold_right].
    destruct (String.eqb_spec key k) as [E|_].
    + exfalso. apply Hnot. now left.
    + apply IH. intros Hin. apply Hnot. now right.
  - destruct Hin as [E|Hin]; [congruence|]. exact (IH Hnd' Hin).
Qed.

(** A list splits over the duplicate-free list of the keys of its
    elements. *)
Lemma partition_by_key {A : Type} (key_of : A -> string) (l : list A)
    (ks : list string) :
  NoDup ks -> (forall x, In x l -> In (key_of x) ks) ->
  total (map (fun k => List.length
                         (filter (fun x => String.eqb (key_of x) k) l)) ks)
  = List.length l.
Proof.
  intros Hnd. induction l as [|a l IH]; intros Hin.
  - clear Hnd Hin. induction ks as [|k ks IHk]; [reflexivity|].
    cbn [map total fold_right filter List.length]. exact IHk.
  - cbn [List.length]. change (S (List.length l)) with (1 + List.length l).
    rewrite <- IH by (intros x I; apply Hin; now right).
    rewrite <- (total_one_hit (key_of a) ks Hnd) by (apply Hin; now left).
    rewrite <- total_pointwise. f_equal. apply map_ext. intros k.
    cbn [filter]. now destruct (String.eqb (key_of a) k).
Qed.

(** X16.  The counts of the tables add up: the event counts of the five
    session types and the event counts of the track records both sum to the
    number of accepted events, and the track counts of the session types
    sum to the number of track records. *)
Theorem counts_add_up :
  forall (data : ParsedData) (r : BuildDataResult),
    processScheduleData data = Ok r ->
    total (map ts_eventCount (values (res_types r)))
    = List.length (accepted (data_day data)) /\
    total (map k_eventCount (values (res_tracks r)))
    = List.length (accepted (data_day data)) /\
    total (map ts_trackCount (values (res_types r)))
    = List.length (res_tracks r).
Proof.
  intros data r H. apply aggregate_of_result in H as (w & Hw & ->).
  pose proof (aggregate_between _ _ Hw)
    as [[Htk _ Hty Hat Htr Hnd _] Hrec _ _].
  pose proof (aggregate_ledger _ _ Hw) as [_ _ _ _ Hkeys _ _].
  cbn [cleanup res_types res_tracks].
  set (l := accepted (data_day data)) in *.
  assert (NoDup (keys (w_types w))) as Hndt.
  { rewrite Htk. vm_compute. repeat constructor; cbn; intuition discriminate. }
  assert (forall (f : TypeSummary -> nat) (g : string -> nat),
            (forall key info, own_get key (w_types w) = Some info ->
               f (strip_type info) = g key) ->
            map f (values (map (fun kv => (fst kv, strip_type (snd kv)))
                             (w_types w)))
            = map g (keys (w_types w))) as Hmap.
  { intros f g Hfg. unfold values, keys. rewrite !map_map.
    apply map_ext_in. intros [key info] Hin. cbn [fst snd].
    apply Hfg. now apply in_own_get. }
  split; [|split].
  - rewrite (Hmap ts_eventCount (fun key => List.length (of_type key l))).
    + apply (partition_by_key e_type l); [exact Hndt|].
      intros e He. rewrite Htk. now apply Hat.
    + intros key info Hk. cbn [strip_type ts_eventCount].
      now destruct (Hty _ _ Hk) as (_ & -> & _).
  - assert (map k_eventCount (values (w_tracks w))
            = map (fun key => List.length (with_key key l)) (keys (w_tracks w)))
      as ->.
    { unfold values, keys. rewrite !map_map. apply map_ext_in.
      intros [key track] Hin. cbn [fst snd].
      apply (in_own_get _ _ _ Hnd) in Hin. rewrite Htr in Hin.
      unfold track_of in Hin.
      destruct (with_key key l) as [|first rest]; [discriminate|].
      now injection Hin as <-. }
    apply (partition_by_key e_trackKey l); [exact Hnd|].
    intros e He. rewrite Hkeys. apply in_distinct. now apply in_map.
  - rewrite (Hmap ts_trackCount
               (fun key => List.length
                             (filter (fun track => String.eqb (k_type track) key)
                                (values (w_tracks w))))).
    + rewrite (partition_by_key k_type (values (w_tracks w)));
        [unfold values; apply length_map | exact Hndt|].
      intros track Hin. unfold values in Hin.
      apply in_map_iff in Hin as ([key track'] & E & Hin). cbn [snd] in E.
      subst track'. apply (in_own_get _ _ _ Hnd) in Hin. rewrite Htr in Hin.
      unfold track_of in Hin.
      destruct (with_key key l) as [|first rest] eqn:Hw'; [discriminate|].
      injection Hin as <-. cbn [k_type]. rewrite Htk. apply Hat.
      assert (In first (with_key key l)) as Hf by (rewrite Hw'; now left).
      unfold with_key in Hf. now apply filter_In in Hf as [Hf _].
    + intros key info Hk. destruct (Hrec _ _ Hk) as (_ & _ & Htc).
      destruct (Hty _ _ Hk) as (Hid & _). cbn [strip_type ts_trackCount].
      now rewrite Htc, Hid.
Qed.

Lemma counts_add_up_witness :
  exists r,
    processScheduleData (parseData Samples.weekend) = Ok r /\
    total (map ts_eventCount (values (res_types r))) = 5 /\
    total (map k_eventCount (values (res_tracks r))) = 5.
Proof.
  assert (exists r, processScheduleData (parseData Samples.weekend) = Ok r)
    as [r Hr] by (eexists; vm_compute; reflexivity).
  destruct (counts_add_up (parseData Samples.weekend) r Hr) as (H1 & H2 & _).
  exists r. split; [exact Hr|]. rewrite H1, H2. split; vm_compute; reflexivity.
Defined.

Lemma total_own_set_le {V : Type} (f : V -> nat) (t : table V) (k : string)
    (v : V) :
  total (map f (values (own_set k v t))) <= total (map f (values t)) + f v.
Proof.
  unfold values, total. induction t as [|[k' v'] t IH]; cbn [own_set].
  - cbn [map snd fold_right]. lia.
  - destruct (String.eqb k k'); cbn [map snd fold_right] in *; lia.
Qed.

Lemma days_of_total (days : list Day) :
  total (map d_eventCount (values (days_of days))) <= List.length (accepted days).
Proof.
  induction days as [|day days IH] using rev_ind; [cbn; lia|].
  rewrite days_of_snoc, accepted_snoc, length_app.
  pose proof (total_own_set_le d_eventCount (days_of days)
                (number_to_string (day_index day)) (day_info_of day)) as H.
  cbn [day_info_of d_eventCount] in H. lia.
Qed.

(** X17.  No event is counted for two days: the event counts of the
    records of the day table never sum to more than the number of accepted
    events. *)
Theorem day_counts_bounded :
  forall (data : ParsedData) (r : BuildDataResult),
    processScheduleData data = Ok r ->
    total (map ds_eventCount (values (res_days r)))
    <= List.length (accepted (data_day data)).
Proof.
  intros data r H. apply aggregate_of_result in H as (w & Hw & ->).
  pose proof (aggregate_between _ _ Hw) as [_ _ Hdt _].
  cbn [cleanup res_days]. rewrite Hdt.
  pose proof (days_of_total (data_day data)) as Hle.
  unfold values in *. rewrite !map_map in *.
  cbn [fst snd strip_day ds_eventCount]. exact Hle.
Qed.

Lemma day_counts_bounded_witness :
  exists r,
    processScheduleData (parseData Samples.weekend) = Ok r /\
    total (map ds_eventCount (values (res_days r))) <= 5.
Proof.
  assert (exists r, processScheduleData (parseData Samples.weekend) = Ok r)
    as [r Hr] by (eexists; vm_compute; reflexivity).
  exists r. split; [exact Hr|].
  exact (day_counts_bounded (parseData Samples.weekend) r Hr).
Defined.

(** ** Links and types of the recorded events *)

(** X18.  An entry of the event table whose room name has no dollar sign
    carries the stream and chat templates with the room written in: no
    stream for the prefixes [B.], [I.] and [S.] and one stream to the room
    name in small letters without dots otherwise; a chat link to the name
    from its third character on exactly when the name starts with a capital
    letter and a dot. *)
Theorem event_links_of_plain_rooms :
  forall (data : ParsedData) (r : BuildDataResult) (id : string)
         (e : ProcessedEvent),
    processScheduleData data = Ok r ->
    In (id, e) (res_events r) ->
    dollar_free (e_room e) = true ->
    e_streams e
    = (if startsWith "B." (e_room e) || startsWith "I." (e_room e)
          || startsWith "S." (e_room e)
       then []
       else [ {| s_href := "https://stream.fosdem.org/"
                           ++ remove_chars is_dot (toLowerCase (e_room e))
                           ++ ".m3u8";
                 s_title := "Stream";
                 s_type := "application/vnd.apple.mpegurl" |} ]) /\
    e_chat e
    = (if letter_dot (e_room e)
       then Some ("https://chat.fosdem.org/#/room/#"
                  ++ substring_from 2 (e_room e) ++ ":fosdem.org")%string
       else None).
Proof.
  intros data r id e H Hin Hd. apply aggregate_of_result in H as (w & Hw & ->).
  pose proof (aggregate_between _ _ Hw) as [[_ _ _ _ _ _ Hev] _ _ _].
  cbn [cleanup res_events] in Hin. rewrite Hev in Hin.
  apply in_event_table in Hin as [[]|[Hin _]].
  apply accepted_iff in Hin as (day & room & x & _ & _ & _ & He).
  pose proof (processEvent_fields _ _ _ _ _ He) as (_ & _ & Hr & _).
  rewrite <- Hr in He. exact (streams_and_chat_plain _ _ _ _ _ He Hd).
Qed.

Lemma event_links_of_plain_rooms_witness :
  exists r e,
    processScheduleData (parseData Samples.weekend) = Ok r /\
    In ("5", e) (res_events r) /\
    e_room e = "H.1302" /\
    e_streams e
    = [ {| s_href := "https://stream.fosdem.org/h1302.m3u8";
           s_title := "Stream";
           s_type := "application/vnd.apple.mpegurl" |} ] /\
    e_chat e = Some "https://chat.fosdem.org/#/room/#1302:fosdem.org".
Proof.
  assert (exists r e, processScheduleData (parseData Samples.weekend) = Ok r /\
                      In ("5", e) (res_events r) /\
                      e_room e = "H.1302") as (r & e & Hr & Hin & Hroom).
  { eexists. eexists. split; [vm_compute; reflexivity|].
    split; [right; right; right; left; reflexivity | reflexivity]. }
  destruct (event_links_of_plain_rooms (parseData Samples.weekend) r "5" e
              Hr Hin) as [Hs Hc].
  { rewrite Hroom. reflexivity. }
  exists r, e. rewrite Hs, Hc, Hroom. repeat split; assumption.
Defined.

(** X19.  The type of an accepted event, for a type text that is not a
    name every object inherits: [lightning] becomes [lightningtalk],
    [lecture] becomes [keynote], one of the five keys of the taxonomy stays,
    and every other text becomes [other]. *)
Theorem event_type_of_plain_text :
  forall (event : XmlEvent) (isLive : bool) (roomName : string) (day : Z)
         (rawType : string) (e : ProcessedEvent),
    processEvent (Some event) isLive roomName day = Some e ->
    xml_type event = Some rawType ->
    is_proto rawType = false ->
    e_type e
    = if String.eqb rawType "lightning" then "lightningtalk"
      else if String.eqb rawType "lecture" then "keynote"
      else if existsb (String.eqb rawType)
                ["keynote"; "maintrack"; "devroom"; "lightningtalk"; "other"]
           then rawType else "other".
Proof.
  intros event isLive roomName day rawType e He Hty Hp.
  apply processEvent_shape in He
    as (event' & _ & rawType' & _ & [= <-] & _ & _ & Hty' & _ & _ & _ & _ & _
        & Htype & _).
  rewrite Hty in Hty'. injection Hty' as <-. rewrite Htype.
  now apply getType_own.
Qed.

Lemma event_type_of_plain_text_witness :
  exists e,
    processEvent
      (Some (Samples.event_node "7" "Five minutes of Rust" "lightning" "Rust"))
      true "H.2215" 1 = Some e /\
    e_type e = "lightningtalk".
Proof.
  assert (exists e,
            processEvent
              (Some (Samples.event_node "7" "Five minutes of Rust"
                       "lightning" "Rust")) true "H.2215" 1 = Some e)
    as (e & He) by (eexists; vm_compute; reflexivity).
  exists e. split; [exact He|].
  now rewrite (event_type_of_plain_text _ _ _ _ "lightning" _ He eq_refl eq_refl).
Defined.

(** ** Online rooms *)

Lemma dollar_free_app (s t : string) :
  dollar_free (s ++ t) = dollar_free s && dollar_free t.
Proof.
  induction s as [|c s IH]; cbn [append dollar_free]; [reflexivity|].
  now rewrite IH, andb_assoc.
Qed.

Lemma toLowerCase_app (s t : string) :
  toLowerCase (s ++ t) = (toLowerCase s ++ toLowerCase t)%string.
Proof.
  induction s as [|c s IH]; cbn [append toLowerCase]; [reflexivity|].
  now rewrite IH.
Qed.

Lemma remove_chars_app (p : ascii -> bool) (s t : string) :
  remove_chars p (s ++ t) = (remove_chars p s ++ remove_chars p t)%string.
Proof.
  induction s as [|c s IH]; cbn [append remove_chars]; [reflexivity|].
  rewrite IH. now destruct (p c).
Qed.

(** X20.  A room whose name begins with [D.] is renamed with the suffix
    [ (online)], and the suffix goes into everything made from the name:
    the room of its accepted events, their stream address and their chat
    link (for a name without a dollar sign); its building id is [D], which
    is not a building of the static table. *)
Theorem online_rooms_carry_the_suffix :
  forall (dayIndex : Z) (room : Room) (rest : string) (e : ProcessedEvent),
    In e (accepted_in_room dayIndex room) ->
    room_name room = ("D." ++ rest)%string ->
    dollar_free rest = true ->
    e_room e = ("D." ++ rest ++ " (online)")%string /\
    e_streams e
    = [ {| s_href := "https://stream.fosdem.org/d"
                     ++ remove_chars is_dot (toLowerCase rest)
                     ++ " (online).m3u8";
           s_title := "Stream";
           s_type := "application/vnd.apple.mpegurl" |} ] /\
    e_chat e
    = Some ("https://chat.fosdem.org/#/room/#" ++ rest
            ++ " (online):fosdem.org")%string /\
    buildingId_of (e_room e) = "D" /\
    js_in (buildingId_of (e_room e)) buildings = false.
Proof.
  intros dayIndex room rest e Hin Hname Hd.
  apply accepted_in_room_iff in Hin as (x & _ & He).
  assert (getRoomName (room_name room) = ("D." ++ rest ++ " (online)")%string)
    as Hroom.
  { rewrite Hname. reflexivity. }
  rewrite Hroom in He.
  pose proof (processEvent_fields _ _ _ _ _ He) as (_ & _ & Hr & _).
  destruct (streams_and_chat_plain _ _ _ _ _ He) as [Hs Hc].
  { cbn [append dollar_free Ascii.eqb Bool.eqb negb andb].
    rewrite dollar_free_app, Hd. reflexivity. }
  split; [exact Hr|]. split; [|split; [|split]].
  - rewrite Hs.
    assert (remove_chars is_dot (toLowerCase ("D." ++ rest ++ " (online)"))
            = ("d" ++ remove_chars is_dot (toLowerCase rest) ++ " (online)")%string)
      as ->.
    { change ("D." ++ rest ++ " (online)")%string
        with (String "D" (String "." (rest ++ " (online)"))).
      cbn [toLowerCase remove_chars].
      change (is_dot (lower_char "D")) with false.
      change (is_dot (lower_char ".")) with true. cbv iota.
      rewrite toLowerCase_app, remove_chars_app. reflexivity. }
    change (startsWith "B." ("D." ++ rest ++ " (online)")) with false.
    change (startsWith "I." ("D." ++ rest ++ " (online)")) with false.
    change (startsWith "S." ("D." ++ rest ++ " (online)")) with false.
    cbn [orb]. do 2 f_equal. cbn [append]. do 27 f_equal.
    rewrite append_assoc. reflexivity.
  - rewrite Hc.
    change (letter_dot ("D." ++ rest ++ " (online)")) with true. cbv iota.
    change (substring_from 2 ("D." ++ rest ++ " (online)"))
      with (rest ++ " (online)")%string.
    f_equal. cbn [append]. do 32 f_equal.
    rewrite append_assoc. reflexivity.
  - now rewrite Hr.
  - now rewrite Hr.
Qed.

Lemma online_rooms_carry_the_suffix_witness :
  exists e,
    In e (accepted_in_room 2
            (Samples.room_node "D.video"
               [Samples.event_node "12" "Codecs" "devroom" "Open Media"])) /\
    e_room e = "D.video (online)" /\
    e_chat e = Some "https://chat.fosdem.org/#/room/#video (online):fosdem.org".
Proof.
  assert (exists e,
            In e (accepted_in_room 2
                    (Samples.room_node "D.video"
                       [Samples.event_node "12" "Codecs" "devroom"
                          "Open Media"])))
    as (e & Hin) by (eexists; left; vm_compute; reflexivity).
  destruct (online_rooms_carry_the_suffix 2 _ "video" e Hin eq_refl eq_refl)
    as (Hr & _ & Hc & _).
  exists e. split; [exact Hin|]. split; [exact Hr | exact Hc].
Defined.
